(** * weather-mcp-system: the tool-calling client, verified over a shallow embedding

    The development follows the Python sources:
    - [client/llm.py]          ([OllamaClient.chat], [convert_mcp_tools_to_ollama_format])
    - [client/mcp.py]          ([MCPClient.call_tool])
    - [client/orchestrator.py] ([WeatherOrchestrator.process_query])
    - [client/main.py]         (the read-eval loop of [main])
    - [weather_mcp/tools/weather.py] ([handle_get_current_weather])

    Python values are embedded as an inductive type, Python text as a list of
    code points, exceptions as an explicit result type, and the mutable
    orchestrator together with its two external collaborators (the inference
    endpoint and the tool-provider session) as a state that every operation
    threads through.  Logging is left out: a handler of [logging] swallows
    what its stream raises.  [print] is kept where the text has parts that
    come from outside: writing to the standard output raises
    [UnicodeEncodeError] for text that the stream cannot encode. *)

From Stdlib Require Import Ascii String.
From Stdlib Require Import List NArith ZArith Bool Lia.
From Stdlib Require Import DecimalString.
Import ListNotations.

Set Warnings "-register-all".
Local Open Scope N_scope.
Local Open Scope list_scope.

(** ** Python text *)

(** A Python [str] is a sequence of Unicode code points. *)
Definition codepoint := N.
Definition str := list codepoint.

(** String literals of the source, written as Rocq strings (all are ASCII). *)
Definition lit (s : string) : str := map N_of_ascii (list_ascii_of_string s).
Arguments lit s%_string.

Definition dquote : codepoint := 34.
Definition squote : codepoint := 39.
Definition backslash : codepoint := 92.
Definition newline : codepoint := 10.

Fixpoint str_eqb (a b : str) : bool :=
  match a, b with
  | [], [] => true
  | x :: a', y :: b' => (x =? y) && str_eqb a' b'
  | _, _ => false
  end.

(** [sep.join(parts)] *)
Fixpoint join (sep : str) (parts : list str) : str :=
  match parts with
  | [] => []
  | [p] => p
  | p :: ps => p ++ sep ++ join sep ps
  end.

(** [s.startswith(p)], returning what follows the prefix. *)
Fixpoint strip_prefix (p s : str) : option str :=
  match p, s with
  | [], _ => Some s
  | x :: p', y :: s' => if x =? y then strip_prefix p' s' else None
  | _ :: _, [] => None
  end.

(** Lower-case hexadecimal, as [format(n, '04x')] and the [\x..] escapes. *)
Definition hexdigit (d : N) : codepoint := if d <? 10 then 48 + d else 87 + d.

Fixpoint hex_fixed (width : nat) (n : N) : str :=
  match width with
  | O => []
  | S w => hex_fixed w (n / 16) ++ [hexdigit (n mod 16)]
  end.

(** [repr] of a Python [int]. *)
Definition int_repr (z : Z) : str := lit (NilZero.string_of_int (Z.to_int z)).

(** Unicode scalar values: code points below U+110000 that are not
    surrogates.  Text made of them is what UTF-8 encodes under every error
    handler, and what [json.dumps] followed by [json.loads] gives back
    unchanged. *)
Definition scalar_value (c : codepoint) : bool :=
  (c <? 55296) || ((57344 <=? c) && (c <? 1114112)).


(** [repr] of a non-negative [int]. *)
Definition N_repr (n : N) : str := lit (NilZero.string_of_uint (N.to_uint n)).

(** ** Python values

    The values that flow through the client are those [json.loads] builds:
    [None], [bool], [int], [float], [str], [list] and [dict] with [str] keys.
    A [float] is kept as the lexeme it was read from; what Python prints for
    it, and whether it is zero, belongs to the interpreter and is a parameter
    of the development. *)
Inductive value : Type :=
| VNone
| VBool (b : bool)
| VInt (z : Z)
| VFloat (lexeme : str)
| VStr (s : str)
| VList (items : list value)
| VDict (entries : list (str * value)).

(** A Python [dict] with [str] keys: insertion-ordered, one entry per key. *)
Definition dict := list (str * value).

Fixpoint dict_get (d : dict) (k : str) : option value :=
  match d with
  | [] => None
  | (k', v) :: d' => if str_eqb k' k then Some v else dict_get d' k
  end.

(** [d[k] = v]: an existing key keeps its position and takes the new value. *)
Fixpoint dict_set (d : dict) (k : str) (v : value) : dict :=
  match d with
  | [] => [(k, v)]
  | (k', v') :: d' => if str_eqb k' k then (k', v) :: d' else (k', v') :: dict_set d' k v
  end.

(** ** Exceptions *)

(** The exception classes the client raises or meets, each a subclass of
    [Exception].  [ValueError] stands for the class itself, not for its
    subclass [json.JSONDecodeError]. *)
Inductive exn : Type :=
| RuntimeError (msg : str)
| KeyError (key : str)
| AttributeError (msg : str)
| TypeError (msg : str)
| ValueError (msg : str)
| RecursionError (msg : str)
| UnicodeEncodeError (msg : str).

Inductive result (A : Type) : Type :=
| Ok (a : A)
| Raise (e : exn).
Arguments Ok {A} a.
Arguments Raise {A} e.

Section Interpreter.

(** What the Python runtime decides and this development does not:
    [str.isprintable] on a non-ASCII code point, the text of a [float], the
    truth value of a [float], the message of a [JSONDecodeError],
    [str.lower]; how many arrays and objects the JSON scanner can still
    enter, below the outermost one, before the interpreter's recursion limit
    stops it; which lone surrogates the error handler of the standard output
    lets through (none when it is [strict], U+DC80 to U+DCFF when it is
    [surrogateescape]), and the message of a [UnicodeEncodeError].  The
    statements hold whatever these are. *)
Variable unicode_isprintable : codepoint -> bool.
Variable float_repr : str -> str.
Variable float_json : str -> str.
Variable float_truth : str -> bool.
Variable json_error_text : str -> str.
Variable str_lower : str -> str.
Variable nesting_headroom : nat.
Variable surrogate_passes : codepoint -> bool.
Variable encode_error_text : str -> str.

(** ** The [json] library: decoding

    [json.loads] as the standard library implements it (strict mode): the
    scanner of [json/scanner.py], [JSONObject], [JSONArray] and [scanstring]
    of [json/decoder.py].  Two things end a scan with an exception that is
    not a [JSONDecodeError]: [int()] refuses an integer literal of more than
    4300 digits with a [ValueError], and the scanner enters each array and
    object through a recursive call, which raises [RecursionError] when the
    nesting goes deeper than the interpreter allows. *)

Definition is_ws (c : codepoint) : bool :=
  (c =? 32) || (c =? 9) || (c =? 10) || (c =? 13).

Fixpoint skip_ws (s : str) : str :=
  match s with
  | c :: r => if is_ws c then skip_ws r else s
  | [] => []
  end.

Definition is_digit (c : codepoint) : bool := (48 <=? c) && (c <=? 57).

Definition hexval (c : codepoint) : option N :=
  if (48 <=? c) && (c <=? 57) then Some (c - 48)
  else if (97 <=? c) && (c <=? 102) then Some (c - 87)
  else if (65 <=? c) && (c <=? 70) then Some (c - 55)
  else None.

Definition decode_uXXXX (a b c d : codepoint) : option N :=
  match hexval a, hexval b, hexval c, hexval d with
  | Some x, Some y, Some z, Some w => Some (((x * 16 + y) * 16 + z) * 16 + w)
  | _, _, _, _ => None
  end.

Definition is_high_surrogate (u : N) : bool := (55296 <=? u) && (u <=? 56319).
Definition is_low_surrogate (u : N) : bool := (56320 <=? u) && (u <=? 57343).
Definition join_surrogates (hi lo : N) : N :=
  65536 + N.lor (N.shiftl (hi - 55296) 10) (lo - 56320).

(** The one-letter escapes of [BACKSLASH]. *)
Definition simple_escape (e : codepoint) : option codepoint :=
  if e =? dquote then Some dquote
  else if e =? backslash then Some backslash
  else if e =? 47 then Some 47
  else if e =? 98 then Some 8
  else if e =? 102 then Some 12
  else if e =? 110 then Some 10
  else if e =? 114 then Some 13
  else if e =? 116 then Some 9
  else None.

Definition cons_char (c : codepoint) (r : option (str * str)) : option (str * str) :=
  match r with
  | Some (t, rest) => Some (c :: t, rest)
  | None => None
  end.

(** [scanstring]: the input starts just after the opening quote; the result is
    the decoded text and what follows the closing quote. *)
Fixpoint scanstring (s : str) : option (str * str) :=
  match s with
  | [] => None
  | c :: r =>
      if c =? dquote then Some ([], r)
      else if c =? backslash then
        match r with
        | [] => None
        | e :: r1 =>
            if e =? 117 then
              match r1 with
              | a :: b :: c2 :: d :: r2 =>
                  match decode_uXXXX a b c2 d with
                  | None => None
                  | Some uni =>
                      if is_high_surrogate uni then
                        match r2 with
                        | bs :: u :: r3 =>
                            if (bs =? backslash) && (u =? 117) then
                              match r3 with
                              | a' :: b' :: c' :: d' :: r4 =>
                                  match decode_uXXXX a' b' c' d' with
                                  | None => None
                                  | Some uni2 =>
                                      if is_low_surrogate uni2
                                      then cons_char (join_surrogates uni uni2) (scanstring r4)
                                      else cons_char uni (scanstring r2)
                                  end
                              | _ => None
                              end
                            else cons_char uni (scanstring r2)
                        | _ => cons_char uni (scanstring r2)
                        end
                      else cons_char uni (scanstring r2)
                  end
              | _ => None
              end
            else
              match simple_escape e with
              | Some x => cons_char x (scanstring r1)
              | None => None
              end
        end
      else if c <? 32 then None
      else cons_char c (scanstring r)
  end.

(** [NUMBER_RE]: an optional minus sign and either a single zero or a
    non-zero digit followed by digits; then an optional fraction (a dot and at
    least one digit); then an optional exponent (e or E, an optional sign, at
    least one digit). *)
Fixpoint span_digits (s : str) : str * str :=
  match s with
  | c :: r =>
      if is_digit c then let (ds, rest) := span_digits r in (c :: ds, rest) else ([], s)
  | [] => ([], [])
  end.

Definition match_integer (s : str) : option (str * str) :=
  let (sign, s1) :=
    match s with
    | c :: r => if c =? 45 then ([c], r) else ([], s)
    | [] => ([], s)
    end in
  match s1 with
  | c :: r =>
      if c =? 48 then Some (sign ++ [c], r)
      else if is_digit c then let (ds, rest) := span_digits r in Some (sign ++ c :: ds, rest)
      else None
  | [] => None
  end.

Definition match_frac (s : str) : str * str :=
  match s with
  | dot :: d :: r =>
      if (dot =? 46) && is_digit d
      then let (ds, rest) := span_digits r in (dot :: d :: ds, rest)
      else ([], s)
  | _ => ([], s)
  end.

Definition match_exp (s : str) : str * str :=
  match s with
  | e :: r =>
      if (e =? 101) || (e =? 69) then
        let (sign, r1) :=
          match r with
          | c :: r' => if (c =? 45) || (c =? 43) then ([c], r') else ([], r)
          | [] => ([], r)
          end in
        match r1 with
        | d :: r2 =>
            if is_digit d
            then let (ds, rest) := span_digits r2 in (e :: sign ++ d :: ds, rest)
            else ([], s)
        | [] => ([], s)
        end
      else ([], s)
  | [] => ([], s)
  end.

Definition digits_value (ds : str) : Z :=
  fold_left (fun acc c => (10 * acc + (Z.of_N c - 48))%Z) ds 0%Z.

(** [int(integer)] *)
Definition int_of_lexeme (integer : str) : Z :=
  match integer with
  | c :: ds => if c =? 45 then (- digits_value ds)%Z else digits_value integer
  | [] => 0%Z
  end.

(** [sys.int_info.default_max_str_digits] *)
Definition int_max_str_digits : N := 4300.

(** The digits of an integer literal, its sign apart. *)
Definition count_digits (integer : str) : N :=
  match integer with
  | c :: ds => if c =? 45 then N.of_nat (length ds) else N.of_nat (length integer)
  | [] => 0
  end.

Definition int_too_long_message (digits : N) : str :=
  lit "Exceeds the limit (" ++ N_repr int_max_str_digits ++
  lit " digits) for integer string conversion: value has " ++ N_repr digits ++
  lit " digits; use sys.set_int_max_str_digits() to increase the limit".

Definition recursion_message (what : string) : str :=
  lit "maximum recursion depth exceeded while decoding a JSON " ++ lit what ++
  lit " from a unicode string".

(** What a scan yields: a value and the rest of the input, a syntax error, an
    exception that is not a syntax error, or an exhausted budget of the
    recursion of this definition (which [json_loads_total] rules out). *)
Inductive scan : Type :=
| Scanned (v : value) (rest : str)
| Invalid
| Raised (e : exn)
| OutOfFuel.

Definition match_number (s : str) : scan :=
  match match_integer s with
  | None => Invalid
  | Some (integer, s1) =>
      let (frac, s2) := match_frac s1 in
      let (exp, s3) := match_exp s2 in
      match frac, exp with
      | [], [] =>
          if int_max_str_digits <? count_digits integer
          then Raised (ValueError (int_too_long_message (count_digits integer)))
          else Scanned (VInt (int_of_lexeme integer)) s3
      | _, _ => Scanned (VFloat (integer ++ frac ++ exp)) s3
      end
  end.

Definition scan_constant (s : str) : scan :=
  match strip_prefix (lit "null") s with
  | Some rest => Scanned VNone rest
  | None =>
  match strip_prefix (lit "true") s with
  | Some rest => Scanned (VBool true) rest
  | None =>
  match strip_prefix (lit "false") s with
  | Some rest => Scanned (VBool false) rest
  | None =>
  match match_number s with
  | Scanned v rest => Scanned v rest
  | Raised e => Raised e
  | OutOfFuel => OutOfFuel
  | Invalid =>
  match strip_prefix (lit "NaN") s with
  | Some rest => Scanned (VFloat (lit "NaN")) rest
  | None =>
  match strip_prefix (lit "Infinity") s with
  | Some rest => Scanned (VFloat (lit "Infinity")) rest
  | None =>
  match strip_prefix (lit "-Infinity") s with
  | Some rest => Scanned (VFloat (lit "-Infinity")) rest
  | None => Invalid
  end end end end end end end.

(** [scan_once] reads one value at the head of the input; [depth] is the
    number of arrays and objects it can still enter, one inside the other.
    [JSONObject] is entered just after the opening quote of a member name with
    the pairs read so far, [JSONArray] at the start of an element with the
    elements read so far; their [depth] is what is left for the values
    inside. *)
Fixpoint scan_once (fuel depth : nat) (s : str) {struct fuel} : scan :=
  match fuel with
  | O => OutOfFuel
  | S f =>
      match s with
      | [] => Invalid
      | c :: r =>
          if c =? dquote then
            match scanstring r with
            | Some (t, rest) => Scanned (VStr t) rest
            | None => Invalid
            end
          else if c =? 123 then
            match depth with
            | O => Raised (RecursionError (recursion_message "object"))
            | S d =>
                match skip_ws r with
                | c1 :: r1 =>
                    if c1 =? 125 then Scanned (VDict []) r1
                    else if c1 =? dquote then JSONObject f d [] r1
                    else Invalid
                | [] => Invalid
                end
            end
          else if c =? 91 then
            match depth with
            | O => Raised (RecursionError (recursion_message "array"))
            | S d =>
                match skip_ws r with
                | c1 :: r1 =>
                    if c1 =? 93 then Scanned (VList []) r1
                    else JSONArray f d [] (c1 :: r1)
                | [] => Invalid
                end
            end
          else scan_constant s
      end
  end

with JSONObject (fuel depth : nat) (pairs : dict) (s : str) {struct fuel} : scan :=
  match fuel with
  | O => OutOfFuel
  | S f =>
      match scanstring s with
      | None => Invalid
      | Some (key, s1) =>
          match skip_ws s1 with
          | c :: s2 =>
              if c =? 58 then
                match scan_once f depth (skip_ws s2) with
                | Scanned v s3 =>
                    match skip_ws s3 with
                    | c' :: s4 =>
                        if c' =? 125 then Scanned (VDict (dict_set pairs key v)) s4
                        else if c' =? 44 then
                          match skip_ws s4 with
                          | q :: s5 =>
                              if q =? dquote
                              then JSONObject f depth (dict_set pairs key v) s5
                              else Invalid
                          | [] => Invalid
                          end
                        else Invalid
                    | [] => Invalid
                    end
                | Invalid => Invalid
                | Raised e => Raised e
                | OutOfFuel => OutOfFuel
                end
              else Invalid
          | [] => Invalid
          end
      end
  end

with JSONArray (fuel depth : nat) (values : list value) (s : str) {struct fuel} : scan :=
  match fuel with
  | O => OutOfFuel
  | S f =>
      match scan_once f depth s with
      | Scanned v s1 =>
          match skip_ws s1 with
          | c :: s2 =>
              if c =? 93 then Scanned (VList (values ++ [v])) s2
              else if c =? 44 then JSONArray f depth (values ++ [v]) (skip_ws s2)
              else Invalid
          | [] => Invalid
          end
      | Invalid => Invalid
      | Raised e => Raised e
      | OutOfFuel => OutOfFuel
      end
  end.

(** Every nested scan is entered after at least one consumed character and a
    loop turn costs one unit, so twice the length of the text is enough. *)
Definition decode_fuel (s : str) : nat := 2 + 2 * length s.

(** The outermost array or object can always be entered. *)
Definition raw_decode (s : str) : scan :=
  scan_once (decode_fuel s) (S nesting_headroom) (skip_ws s).

(** What [json.loads(s)] comes to: a value, a [JSONDecodeError], or another
    exception. *)
Inductive loaded : Type :=
| Parsed (v : value)
| JSONDecodeError
| Raising (e : exn).

(** [json.loads(s)] *)
Definition json_loads (s : str) : loaded :=
  match raw_decode s with
  | Scanned v rest =>
      match skip_ws rest with [] => Parsed v | _ :: _ => JSONDecodeError end
  | Invalid => JSONDecodeError
  | Raised e => Raising e
  | OutOfFuel => JSONDecodeError
  end.

(** ** The [json] library: encoding *)

(** [py_encode_basestring_ascii]: [ensure_ascii] is on by default. *)
Definition escape_char (c : codepoint) : str :=
  if c =? dquote then [backslash; dquote]
  else if c =? backslash then [backslash; backslash]
  else if c =? 10 then lit "\n"
  else if c =? 13 then lit "\r"
  else if c =? 9 then lit "\t"
  else if c =? 12 then lit "\f"
  else if c =? 8 then lit "\b"
  else if (32 <=? c) && (c <=? 126) then [c]
  else if c <? 65536 then lit "\u" ++ hex_fixed 4 c
  else
    let n := c - 65536 in
    lit "\u" ++ hex_fixed 4 (N.lor 55296 (N.land (N.shiftr n 10) 1023)) ++
    lit "\u" ++ hex_fixed 4 (N.lor 56320 (N.land n 1023)).

Definition encode_basestring_ascii (s : str) : str :=
  dquote :: flat_map escape_char s ++ [dquote].

(** *** [repr] and [str] *)

(** [repr] of a [str]: single quotes unless the text has a single quote and no
    double quote. *)
Definition repr_quote (s : str) : codepoint :=
  if existsb (N.eqb squote) s && negb (existsb (N.eqb dquote) s) then dquote else squote.

Definition repr_char (quote c : codepoint) : str :=
  if (c =? quote) || (c =? backslash) then [backslash; c]
  else if c =? 9 then lit "\t"
  else if c =? 10 then lit "\n"
  else if c =? 13 then lit "\r"
  else if (c <? 32) || (c =? 127) then lit "\x" ++ hex_fixed 2 c
  else if c <? 127 then [c]
  else if unicode_isprintable c then [c]
  else if c <=? 255 then lit "\x" ++ hex_fixed 2 c
  else if c <=? 65535 then lit "\u" ++ hex_fixed 4 c
  else lit "\U" ++ hex_fixed 8 c.

Definition repr_str (s : str) : str :=
  let quote := repr_quote s in
  quote :: flat_map (repr_char quote) s ++ [quote].

Fixpoint py_repr (v : value) : str :=
  match v with
  | VNone => lit "None"
  | VBool true => lit "True"
  | VBool false => lit "False"
  | VInt z => int_repr z
  | VFloat f => float_repr f
  | VStr s => repr_str s
  | VList items => lit "[" ++ join (lit ", ") (map py_repr items) ++ lit "]"
  | VDict entries =>
      lit "{" ++
      join (lit ", ")
        (map (fun kv => match kv with (k, x) => repr_str k ++ lit ": " ++ py_repr x end)
             entries) ++
      lit "}"
  end.

(** [str(v)] *)
Definition py_str (v : value) : str :=
  match v with
  | VStr s => s
  | _ => py_repr v
  end.

(** *** Truth value, [len], iteration and [.get] *)

(** [bool(v)] *)
Definition truthy (v : value) : bool :=
  match v with
  | VNone => false
  | VBool b => b
  | VInt z => negb (Z.eqb z 0)
  | VFloat f => float_truth f
  | VStr s => match s with [] => false | _ => true end
  | VList l => match l with [] => false | _ => true end
  | VDict d => match d with [] => false | _ => true end
  end.

(** [type(v).__name__] *)
Definition type_name (v : value) : str :=
  match v with
  | VNone => lit "NoneType"
  | VBool _ => lit "bool"
  | VInt _ => lit "int"
  | VFloat _ => lit "float"
  | VStr _ => lit "str"
  | VList _ => lit "list"
  | VDict _ => lit "dict"
  end.

(** [len(v)] *)
Definition py_len (v : value) : result nat :=
  match v with
  | VStr s => Ok (length s)
  | VList l => Ok (length l)
  | VDict d => Ok (length d)
  | _ => Raise (TypeError (lit "object of type '" ++ type_name v ++ lit "' has no len()"))
  end.

(** The items a [for] loop over [v] visits. *)
Definition py_iter (v : value) : result (list value) :=
  match v with
  | VStr s => Ok (map (fun c => VStr [c]) s)
  | VList l => Ok l
  | VDict d => Ok (map (fun kv => VStr (fst kv)) d)
  | _ => Raise (TypeError (lit "'" ++ type_name v ++ lit "' object is not iterable"))
  end.

(** [v.get(k, default)]: only a [dict] has the method. *)
Definition py_get (v : value) (k : str) (default : value) : result value :=
  match v with
  | VDict d => Ok (match dict_get d k with Some x => x | None => default end)
  | _ => Raise (AttributeError (lit "'" ++ type_name v ++ lit "' object has no attribute 'get'"))
  end.

(** [d[k]] *)
Definition subscript (d : dict) (k : str) : result value :=
  match dict_get d k with
  | Some x => Ok x
  | None => Raise (KeyError k)
  end.

(** [str(e)] *)
Definition exn_str (e : exn) : str :=
  match e with
  | RuntimeError msg => msg
  | KeyError key => repr_str key
  | AttributeError msg => msg
  | TypeError msg => msg
  | ValueError msg => msg
  | RecursionError msg => msg
  | UnicodeEncodeError msg => msg
  end.

(** [isinstance(v, dict)] *)
Definition is_dict (v : value) : bool :=
  match v with VDict _ => true | _ => false end.

(** *** [json.dumps] with its default separators *)
Fixpoint json_dumps (v : value) : str :=
  match v with
  | VNone => lit "null"
  | VBool true => lit "true"
  | VBool false => lit "false"
  | VInt z => int_repr z
  | VFloat f => float_json f
  | VStr s => encode_basestring_ascii s
  | VList items => lit "[" ++ join (lit ", ") (map json_dumps items) ++ lit "]"
  | VDict entries =>
      lit "{" ++
      join (lit ", ")
        (map (fun kv =>
                match kv with
                | (k, x) => encode_basestring_ascii k ++ lit ": " ++ json_dumps x
                end)
             entries) ++
      lit "}"
  end.


(** ** [client/llm.py] *)

Inductive Role : Type := User | Assistant | Tool.

(** One entry of the conversation history: a [dict] with the keys [role] and
    [content] and, on an assistant turn that requests tools, [tool_calls]. *)
Record Turn : Type := {
  role : Role;
  content : value;
  tool_calls : option value
}.

Record OllamaClient : Type := {
  base_url : str;
  model : str
}.

(** The request body of [chat]; [payload_tools] is the optional [tools] key. *)
Record Payload : Type := {
  payload_model : str;
  payload_messages : list Turn;
  payload_stream : bool;
  payload_tools : option (list value)
}.

(** What [self.client.post] does: it raises [httpx.ConnectError],
    [httpx.TimeoutException] or some other exception, or returns a response
    with a status code and a body. *)
Inductive PostOutcome : Type :=
| ConnectError (text : str)
| TimeoutException (text : str)
| OtherException (text : str)
| Response (status_code : Z) (text : str).

(** [Response.is_success], on which [raise_for_status] decides. *)
Definition is_success (status_code : Z) : bool :=
  ((200 <=? status_code) && (status_code <=? 299))%Z.

Definition connect_error_message (self : OllamaClient) : str :=
  lit "Cannot connect to Ollama at " ++ base_url self ++ lit "." ++ [newline] ++
  lit "Please ensure Ollama is running:" ++ [newline] ++
  lit "  ollama serve".

Definition timeout_message : str :=
  lit "Ollama request timed out. The model might be too large or the system is busy.".

Definition missing_model_message (self : OllamaClient) : str :=
  lit "Model '" ++ model self ++ lit "' not found in Ollama." ++ [newline] ++
  lit "Please pull the model first:" ++ [newline] ++
  lit "  ollama pull " ++ model self.

Definition api_error_message (text : str) : str :=
  lit "Ollama API error: " ++ text.

Definition unexpected_error_message (text : str) : str :=
  lit "Unexpected error communicating with Ollama: " ++ text.

(** [convert_mcp_tools_to_ollama_format] *)
Fixpoint convert_mcp_tools_to_ollama_format (mcp_tools : list dict) : result (list value) :=
  match mcp_tools with
  | [] => Ok []
  | tool :: rest =>
      match subscript tool (lit "name") with
      | Raise e => Raise e
      | Ok name =>
      match subscript tool (lit "description") with
      | Raise e => Raise e
      | Ok description =>
      match subscript tool (lit "inputSchema") with
      | Raise e => Raise e
      | Ok parameters =>
          let ollama_tool :=
            VDict [(lit "type", VStr (lit "function"));
                   (lit "function",
                    VDict [(lit "name", name);
                           (lit "description", description);
                           (lit "parameters", parameters)])] in
          match convert_mcp_tools_to_ollama_format rest with
          | Ok ollama_tools => Ok (ollama_tool :: ollama_tools)
          | Raise e => Raise e
          end
      end end end
  end.

(** ** [client/mcp.py] and the tool-provider session *)

(** An item of [result.content]: a [TextContent] has the attribute [text];
    any other content class has not, and [shown] is its [str()]. *)
Inductive ContentItem : Type :=
| TextContent (text : str)
| NonTextContent (shown : str).

Record CallToolResult : Type := {
  result_content : list ContentItem;
  isError : bool
}.

(** What [self.session.call_tool] does: it returns a result or raises. *)
Inductive CallOutcome : Type :=
| Returned (r : CallToolResult)
| Failed (text : str).

(** [session] is [None] until [connect] has succeeded. *)
Record MCPClient : Type := {
  session : option unit
}.

Section World.

(** The two external collaborators: the inference endpoint behind
    [httpx.AsyncClient.post] and the tool provider behind
    [ClientSession.call_tool].  Each answers from its own state. *)
Variable World : Type.
Variable client_post : World -> str -> Payload -> PostOutcome * World.
Variable session_call_tool : World -> value -> value -> CallOutcome * World.

(** The request of [chat]: the [tools] key is set only for a non-empty list. *)
Definition chat_payload (self : OllamaClient) (messages : list Turn)
    (tools : option (list value)) : Payload :=
  {| payload_model := model self;
     payload_messages := messages;
     payload_stream := false;
     payload_tools := match tools with Some (_ :: _ as l) => Some l | _ => None end |}.

Definition chat_url (self : OllamaClient) : str := base_url self ++ lit "/api/chat".

(** [OllamaClient.chat] *)
Definition chat (self : OllamaClient) (messages : list Turn)
    (tools : option (list value)) (w : World) : result value * World :=
  let payload := chat_payload self messages tools in
  let (outcome, w') := client_post w (chat_url self) payload in
  match outcome with
  | Response status_code text =>
      if is_success status_code then
        match json_loads text with
        | Parsed result => (Ok result, w')
        | JSONDecodeError =>
            (Raise (RuntimeError (unexpected_error_message (json_error_text text))), w')
        | Raising e => (Raise (RuntimeError (unexpected_error_message (exn_str e))), w')
        end
      else if (status_code =? 404)%Z then
        (Raise (RuntimeError (missing_model_message self)), w')
      else
        (Raise (RuntimeError (api_error_message text)), w')
  | ConnectError _ => (Raise (RuntimeError (connect_error_message self)), w')
  | TimeoutException _ => (Raise (RuntimeError timeout_message), w')
  | OtherException text => (Raise (RuntimeError (unexpected_error_message text)), w')
  end.

Definition tool_failed_message (tool_name : value) (text : str) : str :=
  lit "Tool '" ++ py_str tool_name ++ lit "' execution failed: " ++ text.

(** [MCPClient.call_tool]: whatever is raised inside its [try], by the
    session or by [json.loads] when it is not a [JSONDecodeError], is raised
    again as a [RuntimeError]. *)
Definition call_tool (self : MCPClient) (tool_name arguments : value) (w : World)
  : result value * World :=
  match session self with
  | None => (Raise (RuntimeError (lit "MCP client not connected")), w)
  | Some _ =>
      let (outcome, w') := session_call_tool w tool_name arguments in
      match outcome with
      | Returned r =>
          match result_content r with
          | content_item :: _ =>
              match content_item with
              | TextContent text =>
                  match json_loads text with
                  | Parsed parsed_result => (Ok parsed_result, w')
                  | JSONDecodeError => (Ok (VStr text), w')
                  | Raising e =>
                      (Raise (RuntimeError (tool_failed_message tool_name (exn_str e))), w')
                  end
              | NonTextContent shown => (Ok (VStr shown), w')
              end
          | [] => (Ok VNone, w')
          end
      | Failed text => (Raise (RuntimeError (tool_failed_message tool_name text)), w')
      end
  end.

(** ** [weather_mcp/tools/weather.py] *)

(** What [weather_service.get_current_weather] does: it returns a
    [WeatherData], of which the handler uses [model_dump_json(indent=2)], or
    it raises, [text] being [str(e)]. *)
Inductive ServiceOutcome : Type :=
| WeatherData (model_dump_json : str)
| ServiceRaised (text : str).

(** [handle_get_current_weather]; [city] and [country] are what the server
    took from the request arguments. *)
Definition handle_get_current_weather
    (weather_service : value -> value -> ServiceOutcome) (city country : value)
  : list ContentItem :=
  match weather_service city country with
  | WeatherData model_dump_json => [TextContent model_dump_json]
  | ServiceRaised text =>
      let error_response :=
        VDict [(lit "error", VStr text); (lit "city", city); (lit "country", country)] in
      [TextContent (py_str error_response)]
  end.

(** ** [client/orchestrator.py] *)

Record WeatherOrchestrator : Type := {
  llm : OllamaClient;
  mcp : MCPClient;
  tools : list dict;
  conversation_history : list Turn
}.

(** The journal is ghost state: it records, in order, each pass of the loop
    and each call that leaves the orchestrator, with what the call gave back. *)
Inductive Event : Type :=
| EvIteration (iteration : nat)
| EvChat (messages : list Turn) (ollama_tools : option (list value)) (ret : result value)
| EvCallTool (tool_name arguments : value) (ret : result value).

Record State : Type := {
  self : WeatherOrchestrator;
  world : World;
  journal : list Event
}.

Definition history (st : State) : list Turn := conversation_history (self st).

(** *** State and exceptions *)

Definition M (A : Type) : Type := State -> result A * State.

Definition ret {A} (a : A) : M A := fun st => (Ok a, st).
Definition raise {A} (e : exn) : M A := fun st => (Raise e, st).
Definition lift {A} (r : result A) : M A := fun st => (r, st).

Definition bind {A B} (m : M A) (k : A -> M B) : M B :=
  fun st =>
    match m st with
    | (Ok a, st') => k a st'
    | (Raise e, st') => (Raise e, st')
    end.

(** [try: body  except Exception as e: handler] *)
Definition try_except {A} (body : M A) (handler : exn -> M A) : M A :=
  fun st =>
    match body st with
    | (Ok a, st') => (Ok a, st')
    | (Raise e, st') => handler e st'
    end.

Notation "x <- c1 ;; c2" := (bind c1 (fun x => c2))
  (at level 61, c1 at next level, right associativity).
Notation "c1 ;; c2" := (bind c1 (fun _ => c2))
  (at level 61, right associativity).

(** [self.conversation_history.append(turn)] *)
Definition append (turn : Turn) : M unit :=
  fun st =>
    (Ok tt,
     {| self := {| llm := llm (self st);
                   mcp := mcp (self st);
                   tools := tools (self st);
                   conversation_history := conversation_history (self st) ++ [turn] |};
        world := world st;
        journal := journal st |}).

Definition record (ev : Event) : M unit :=
  fun st => (Ok tt, {| self := self st; world := world st; journal := journal st ++ [ev] |}).

(** [await self.llm.chat(messages=self.conversation_history, tools=ollama_tools)] *)
Definition llm_chat (ollama_tools : option (list value)) : M value :=
  fun st =>
    let (r, w') := chat (llm (self st)) (history st) ollama_tools (world st) in
    (r, {| self := self st; world := w';
           journal := journal st ++ [EvChat (history st) ollama_tools r] |}).

(** [await self.mcp.call_tool(tool_name, arguments)] *)
Definition mcp_call_tool (tool_name arguments : value) : M value :=
  fun st =>
    let (r, w') := call_tool (mcp (self st)) tool_name arguments (world st) in
    (r, {| self := self st; world := w';
           journal := journal st ++ [EvCallTool tool_name arguments r] |}).

(** *** [print]

    The standard output is a UTF-8 text stream, as Python sets it up: every
    scalar value can be written, a lone surrogate only if the error handler
    of the stream lets it through. *)
Definition stdout_encodes (c : codepoint) : bool := scalar_value c || surrogate_passes c.

Definition printable (text : str) : bool := forallb stdout_encodes text.

(** [print(text)] *)
Definition print (text : str) : M unit :=
  fun st =>
    if printable text then (Ok tt, st)
    else (Raise (UnicodeEncodeError (encode_error_text text)), st).

(** *** [process_query] *)

Definition max_iterations : nat := 5.

Definition exhausted_message : str :=
  lit "I apologize, but I couldn't complete your request after multiple attempts.".

Definition ollama_unreachable_message : str :=
  lit "Could not connect to Ollama. Please ensure it's running:" ++ [newline] ++
  lit "  ollama serve".

(** The content of the turn appended for a tool result. *)
Definition result_content_of (tool_result : value) : str :=
  if is_dict tool_result then json_dumps tool_result else py_str tool_result.

Definition tool_turn (text : str) : Turn :=
  {| role := Tool; content := VStr text; tool_calls := None |}.

Definition error_content (e : exn) : str :=
  json_dumps (VDict [(lit "error", VStr (exn_str e))]).

(** The lines that [process_query] prints: the arrow is U+2192, the check
    mark U+2713 and the ballot x U+2717. *)
Definition detected_line (count : nat) : str :=
  lit "[Tool calls detected: " ++ N_repr (N.of_nat count) ++ lit "]".

Definition calling_line (tool_name arguments : value) : str :=
  [32; 32; 8594] ++ lit " Calling " ++ py_str tool_name ++ lit " with " ++ py_str arguments.

Definition received_line : str := [32; 32; 10003] ++ lit " Result received".

Definition error_line (e : exn) : str := [32; 32; 10007; 32] ++ exn_str e.

(** The body of [for tool_call in tool_calls]: the first [print] stands
    before the [try], the last one in its handler, before the [append]. *)
Definition execute_tool_call (tool_call : value) : M unit :=
  function <- lift (py_get tool_call (lit "function") (VDict [])) ;;
  tool_name <- lift (py_get function (lit "name") VNone) ;;
  arguments <- lift (py_get function (lit "arguments") (VDict [])) ;;
  print (calling_line tool_name arguments) ;;
  try_except
    (tool_result <- mcp_call_tool tool_name arguments ;;
     let result_content := result_content_of tool_result in
     print received_line ;;
     append (tool_turn result_content))
    (fun e =>
       print (error_line e) ;;
       append (tool_turn (error_content e))).

Fixpoint for_each_tool_call (items : list value) : M unit :=
  match items with
  | [] => ret tt
  | tool_call :: rest => execute_tool_call tool_call ;; for_each_tool_call rest
  end.

(** One pass of the [while] loop after the counter was incremented:
    [Some content] is [return content], [None] falls through to the next
    test of the loop condition. *)
Definition loop_body (iteration : nat) (ollama_tools : option (list value))
  : M (option value) :=
  record (EvIteration iteration) ;;
  response <- try_except (llm_chat ollama_tools)
                (fun _ => raise (RuntimeError ollama_unreachable_message)) ;;
  message <- lift (py_get response (lit "message") (VDict [])) ;;
  content <- lift (py_get message (lit "content") (VStr [])) ;;
  tool_calls <- lift (py_get message (lit "tool_calls") (VList [])) ;;
  if negb (truthy tool_calls) then
    append {| role := Assistant; content := content; tool_calls := None |} ;;
    ret (Some content)
  else
    count <- lift (py_len tool_calls) ;;
    print (detected_line count) ;;
    append {| role := Assistant; content := content; tool_calls := Some tool_calls |} ;;
    items <- lift (py_iter tool_calls) ;;
    for_each_tool_call items ;;
    ret None.

(** [while iteration < max_iterations], by recursion on the variant
    [max_iterations - iteration]: the test fails exactly when nothing
    remains. *)
Fixpoint while_loop (remaining iteration : nat) (ollama_tools : option (list value))
  : M value :=
  match remaining with
  | O => ret (VStr exhausted_message)
  | S remaining' =>
      let iteration := S iteration in
      returned <- loop_body iteration ollama_tools ;;
      match returned with
      | Some content => ret content
      | None => while_loop remaining' iteration ollama_tools
      end
  end.

Definition prepare_tools : M (option (list value)) :=
  fun st =>
    match tools (self st) with
    | [] => (Ok None, st)
    | _ :: _ =>
        match convert_mcp_tools_to_ollama_format (tools (self st)) with
        | Ok ollama_tools => (Ok (Some ollama_tools), st)
        | Raise e => (Raise e, st)
        end
    end.

Definition process_query (user_input : str) : M value :=
  append {| role := User; content := VStr user_input; tool_calls := None |} ;;
  ollama_tools <- prepare_tools ;;
  while_loop max_iterations 0 ollama_tools.

(** ** [client/main.py] *)

(** [str.isspace] on one code point. *)
Definition py_isspace (c : codepoint) : bool :=
  ((9 <=? c) && (c <=? 13)) || ((28 <=? c) && (c <=? 32)) || (c =? 133) || (c =? 160) ||
  (c =? 5760) || ((8192 <=? c) && (c <=? 8202)) || (c =? 8232) || (c =? 8233) ||
  (c =? 8239) || (c =? 8287) || (c =? 12288).

Fixpoint lstrip (s : str) : str :=
  match s with
  | c :: r => if py_isspace c then lstrip r else s
  | [] => []
  end.

(** [s.strip()] *)
Definition strip (s : str) : str := rev (lstrip (rev (lstrip s))).

Definition is_exit_command (user_input : str) : bool :=
  let lowered := str_lower user_input in
  str_eqb lowered (lit "exit") || str_eqb lowered (lit "quit") || str_eqb lowered (lit "q").

(** What [main] prints in answer to a line. *)
Inductive Printed : Type :=
| Goodbye
| AssistantSays (response : value)
| ErrorSays (text : str).

Definition assistant_line (response : value) : str :=
  newline :: lit "Assistant: " ++ py_str response ++ [newline].

(** The answer to a line: the response, or the error when [process_query]
    raised or when the response could not be printed, which the same handler
    catches.  The error texts are messages of the interpreter and of the
    client; that of a [UnicodeEncodeError] shows the offending character
    escaped. *)
Definition reply (r : result value) : Printed :=
  match r with
  | Ok response =>
      if printable (assistant_line response) then AssistantSays response
      else ErrorSays (encode_error_text (assistant_line response))
  | Raise e => ErrorSays (exn_str e)
  end.

(** The [while True] loop of [main] over the lines that [input] will return;
    the end of the list is [EOFError]. *)
Fixpoint main_loop (lines : list str) (st : State) : list Printed * State :=
  match lines with
  | [] => ([], st)
  | line :: rest =>
      let user_input := strip line in
      match user_input with
      | [] => main_loop rest st
      | _ :: _ =>
          if is_exit_command user_input then ([Goodbye], st)
          else
            let (r, st') := process_query user_input st in
            let (printed, st'') := main_loop rest st' in
            (reply r :: printed, st'')
      end
  end.


(** ** A scripted world

    A concrete inference endpoint and tool provider that answer from two
    scripts, used to run the client on concrete inputs. *)

Definition Script : Type := list PostOutcome * list CallOutcome.

Definition scripted_post (w : Script) (url : str) (payload : Payload)
  : PostOutcome * Script :=
  match fst w with
  | outcome :: rest => (outcome, (rest, snd w))
  | [] => (ConnectError (lit "All connection attempts failed"), w)
  end.

Definition scripted_call_tool (w : Script) (tool_name arguments : value)
  : CallOutcome * Script :=
  match snd w with
  | outcome :: rest => (outcome, (fst w, rest))
  | [] => (Failed (lit "Connection closed"), w)
  end.

(** Stand-ins for the interpreter's own functions, exact on the ASCII inputs
    they are used with. *)
Definition ascii_isprintable (c : codepoint) : bool := true.
Definition lexeme_text (lexeme : str) : str := lexeme.
Definition lexeme_truth (lexeme : str) : bool := true.
Definition expecting_value (text : str) : str :=
  lit "Expecting value: line 1 column 1 (char 0)".
Definition ascii_lower (s : str) : str :=
  map (fun c => if (65 <=? c) && (c <=? 90) then c + 32 else c) s.

(** The message of the schema validator, exact on arguments without a
    [city]. *)
Definition required_city_message (arguments : list (str * value)) : str :=
  lit "'city' is a required property".

(** An interpreter with room for 900 nested arrays and objects, and a
    standard output with the [strict] error handler and its message. *)
Definition demo_headroom : nat := 900.

Definition strict_handler (c : codepoint) : bool := false.

Fixpoint surrogate_run (s : str) : N :=
  match s with
  | c :: r => if scalar_value c then 0 else 1 + surrogate_run r
  | [] => 0
  end.

Fixpoint utf8_error_from (pos : N) (s : str) : str :=
  match s with
  | [] => []
  | c :: r =>
      if scalar_value c then utf8_error_from (pos + 1) r
      else
        lit "'utf-8' codec can't encode character" ++
        (if surrogate_run s =? 1
         then lit " '\u" ++ hex_fixed 4 c ++ lit "' in position " ++ N_repr pos
         else lit "s in position " ++ N_repr pos ++ lit "-" ++
              N_repr (pos + surrogate_run s - 1)) ++
        lit ": surrogates not allowed"
  end.

Definition utf8_strict_error (text : str) : str := utf8_error_from 0 text.

(** ** Vocabulary of the statements *)

(** The kinds of failure of [chat], told apart by the message alone. *)
Inductive ErrorKind : Type :=
| ConnectionFailure
| Timeout
| MissingModel
| BackendError
| Unexpected.

Definition starts_with (p s : str) : bool :=
  match strip_prefix p s with Some _ => true | None => false end.

Definition classify (msg : str) : option ErrorKind :=
  if starts_with (lit "Cannot connect to Ollama at ") msg then Some ConnectionFailure
  else if starts_with (lit "Ollama request timed out.") msg then Some Timeout
  else if starts_with (lit "Model '") msg then Some MissingModel
  else if starts_with (lit "Ollama API error: ") msg then Some BackendError
  else if starts_with (lit "Unexpected error communicating with Ollama: ") msg
       then Some Unexpected
  else None.

(** Which outcome of the request is reported as which kind, with which
    message. *)
Inductive reported (self : OllamaClient) : PostOutcome -> ErrorKind -> str -> Prop :=
| reported_connection text :
    reported self (ConnectError text) ConnectionFailure (connect_error_message self)
| reported_timeout text :
    reported self (TimeoutException text) Timeout timeout_message
| reported_missing_model text :
    reported self (Response 404 text) MissingModel (missing_model_message self)
| reported_backend status_code text :
    is_success status_code = false -> status_code <> 404%Z ->
    reported self (Response status_code text) BackendError (api_error_message text)
| reported_exception text :
    reported self (OtherException text) Unexpected (unexpected_error_message text)
| reported_body status_code text :
    is_success status_code = true -> json_loads text = JSONDecodeError ->
    reported self (Response status_code text) Unexpected
             (unexpected_error_message (json_error_text text))
| reported_decoder status_code text e :
    is_success status_code = true -> json_loads text = Raising e ->
    reported self (Response status_code text) Unexpected
             (unexpected_error_message (exn_str e)).

(** A descriptor with the three fields, and the entry it is converted to. *)
Definition converted (mcp_tool : dict) (ollama_tool : value) : Prop :=
  exists name description schema,
    dict_get mcp_tool (lit "name") = Some name /\
    dict_get mcp_tool (lit "description") = Some description /\
    dict_get mcp_tool (lit "inputSchema") = Some schema /\
    ollama_tool =
      VDict [(lit "type", VStr (lit "function"));
             (lit "function",
              VDict [(lit "name", name);
                     (lit "description", description);
                     (lit "parameters", schema)])].


(** The tool name and the arguments a tool-call request asks for, as the
    three [.get] calls of the dispatch loop read them. *)
Definition requested (tool_call : value) : result (value * value) :=
  match py_get tool_call (lit "function") (VDict []) with
  | Raise e => Raise e
  | Ok function =>
      match py_get function (lit "name") VNone with
      | Raise e => Raise e
      | Ok tool_name =>
          match py_get function (lit "arguments") (VDict []) with
          | Raise e => Raise e
          | Ok arguments => Ok (tool_name, arguments)
          end
      end
  end.

(** The content of the [tool] turn appended for what [call_tool] gave back. *)
Definition turn_content (ret : result value) : str :=
  match ret with
  | Ok tool_result => result_content_of tool_result
  | Raise e => error_content e
  end.

Definition is_call_tool (ev : Event) : Prop :=
  match ev with EvCallTool _ _ _ => True | _ => False end.

(** The turn appended for a journal entry of a tool call: none when the call
    failed and the line that reports it could not be printed. *)
Definition event_turns (ev : Event) : list Turn :=
  match ev with
  | EvCallTool _ _ (Ok tool_result) => [tool_turn (result_content_of tool_result)]
  | EvCallTool _ _ (Raise e) =>
      if printable (error_line e) then [tool_turn (error_content e)] else []
  | _ => []
  end.

(** [ev] is the call of the Tool Executor made for [tool_call]. *)
Definition answers (tool_call : value) (ev : Event) : Prop :=
  exists tool_name arguments ret,
    requested tool_call = Ok (tool_name, arguments) /\
    ev = EvCallTool tool_name arguments ret.

Definition chat_count (evs : list Event) : nat :=
  length (filter (fun ev => match ev with EvChat _ _ _ => true | _ => false end) evs).

(** The values the loop counter took, in order. *)
Definition iterations (evs : list Event) : list nat :=
  flat_map (fun ev => match ev with EvIteration n => [n] | _ => [] end) evs.

(** [response.get("message", {}).get("tool_calls", [])] *)
Definition response_tool_calls (response : value) : result value :=
  match py_get response (lit "message") (VDict []) with
  | Raise e => Raise e
  | Ok message => py_get message (lit "tool_calls") (VList [])
  end.

(** The backend answered and asked for tools. *)
Definition requests_tools (ret : result value) : Prop :=
  exists response calls,
    ret = Ok response /\ response_tool_calls response = Ok calls /\ truthy calls = true.

Definition every_chat_requests_tools (evs : list Event) : Prop :=
  forall messages ollama_tools ret,
    In (EvChat messages ollama_tools ret) evs -> requests_tools ret.

(** The backend answered and asked for tools with a batch of well-formed
    requests: a sequence of objects whose [function] member, when present, is
    an object. *)
Definition requests_well_formed_tools (ret : result value) : Prop :=
  exists response calls items,
    ret = Ok response /\ response_tool_calls response = Ok calls /\ truthy calls = true /\
    py_iter calls = Ok items /\
    Forall (fun tool_call => exists tool_name arguments,
                requested tool_call = Ok (tool_name, arguments)) items.

Definition every_chat_requests_well_formed_tools (evs : list Event) : Prop :=
  forall messages ollama_tools ret,
    In (EvChat messages ollama_tools ret) evs -> requests_well_formed_tools ret.



(** The lines of a batch can be printed: the line that announces each
    request, and the line that reports each failed call. *)
Definition request_printable (tool_call : value) : Prop :=
  forall tool_name arguments,
    requested tool_call = Ok (tool_name, arguments) ->
    printable (calling_line tool_name arguments) = true.

Definition lines_printable (ev : Event) : Prop :=
  match ev with
  | EvChat _ _ (Ok response) =>
      forall calls items,
        response_tool_calls response = Ok calls -> py_iter calls = Ok items ->
        Forall request_printable items
  | EvCallTool _ _ (Raise e) => printable (error_line e) = true
  | _ => True
  end.

(** The same as tests that can be run. *)
Definition request_printable_b (tool_call : value) : bool :=
  match requested tool_call with
  | Ok (tool_name, arguments) => printable (calling_line tool_name arguments)
  | Raise _ => true
  end.

Definition lines_printable_b (ev : Event) : bool :=
  match ev with
  | EvChat _ _ (Ok response) =>
      match response_tool_calls response with
      | Ok calls =>
          match py_iter calls with
          | Ok items => forallb request_printable_b items
          | Raise _ => true
          end
      | Raise _ => true
      end
  | EvCallTool _ _ (Raise e) => printable (error_line e)
  | _ => true
  end.

Definition user_turn (user_input : str) : Turn :=
  {| role := User; content := VStr user_input; tool_calls := None |}.

(** [st] after more turns were appended, the collaborators moved on to [w]
    and [evs] was journalled; nothing else of the orchestrator changes. *)
Definition advance (st : State) (turns : list Turn) (w : World) (evs : list Event) : State :=
  {| self := {| llm := llm (self st);
                mcp := mcp (self st);
                tools := tools (self st);
                conversation_history := history st ++ turns |};
     world := w;
     journal := journal st ++ evs |}.

(** The journal of a batch ends with a tool call whose turn is the last one. *)
Definition ends_with_tool_turn (evs : list Event) (turns : list Turn) : Prop :=
  exists evs0 tool_name arguments ret turns0,
    evs = evs0 ++ [EvCallTool tool_name arguments ret] /\
    turns = turns0 ++ [tool_turn (turn_content ret)].

(** ** Sample data *)

(** JSON text written with single quotes standing for double quotes. *)
Definition json_text (s : string) : str :=
  map (fun c => if c =? squote then dquote else c) (lit s).
Arguments json_text s%_string.

Definition demo_llm : OllamaClient :=
  {| base_url := lit "http://localhost:11434"; model := lit "qwen2.5:7b" |}.

Definition connected : MCPClient := {| session := Some tt |}.

Definition demo_tools : list dict :=
  [[(lit "name", VStr (lit "get_current_weather"));
    (lit "description", VStr (lit "Get the current weather for a specified city."));
    (lit "inputSchema", VDict [(lit "type", VStr (lit "object"))])]].

Definition demo_orchestrator : WeatherOrchestrator :=
  {| llm := demo_llm; mcp := connected; tools := demo_tools; conversation_history := [] |}.

Definition initial_state (orchestrator : WeatherOrchestrator) (w : World) : State :=
  {| self := orchestrator; world := w; journal := [] |}.

Definition weather_call : value :=
  VDict [(lit "function",
          VDict [(lit "name", VStr (lit "get_current_weather"));
                 (lit "arguments", VDict [(lit "city", VStr (lit "Paris"))])])].

Definition forecast_call : value :=
  VDict [(lit "function", VDict [(lit "name", VStr (lit "get_forecast"))])].

Definition tools_response : PostOutcome :=
  Response 200
    (json_text "{'message': {'content': '', 'tool_calls': [{'function': {'name': 'get_current_weather', 'arguments': {'city': 'Paris'}}}]}}").

Definition final_response : PostOutcome :=
  Response 200 (json_text "{'message': {'content': 'It is sunny in Paris.'}}").




(** The JSON text of an integer of 4301 digits. *)
Definition long_integer_text : str := repeat 49 4301.

Definition long_integer_result : CallOutcome :=
  Returned {| result_content := [TextContent long_integer_text]; isError := false |}.

Definition weather_result : CallOutcome :=
  Returned {| result_content := [TextContent (json_text "{'city': 'Paris', 'humidity': 40}")];
              isError := false |}.

Definition no_content_result : CallOutcome :=
  Returned {| result_content := []; isError := false |}.

Definition null_text_result : CallOutcome :=
  Returned {| result_content := [TextContent (lit "null")]; isError := false |}.

(** A provider that gives the same answer to every call. *)
Definition constant_provider (outcome : CallOutcome) (w : unit) (tool_name arguments : value)
  : CallOutcome * unit := (outcome, w).

Definition failing_weather_service (city country : value) : ServiceOutcome :=
  ServiceRaised (lit "City 'Atlantis' not found. Please check the city name and country code.").

(** ** More vocabulary: the shape of what a query appends *)

(** The turns of the rounds of a query: each round is one assistant turn
    followed by the [tool] turns of its batch, and only an assistant turn that
    carries [tool_calls] is followed by [tool] turns. *)
Inductive rounds : list Turn -> Prop :=
| rounds_nil : rounds []
| rounds_cons turn answers_ rest :
    role turn = Assistant ->
    Forall (fun t => role t = Tool) answers_ ->
    (answers_ <> [] -> tool_calls turn <> None) ->
    rounds rest ->
    rounds (turn :: answers_ ++ rest).

(** What [json.loads] raises when it is not a [JSONDecodeError]. *)
Definition decoder_exception (e : exn) : Prop :=
  (exists digits,
      int_max_str_digits < digits /\ e = ValueError (int_too_long_message digits)) \/
  e = RecursionError (recursion_message "object") \/
  e = RecursionError (recursion_message "array").

(** [response.get("message", {}).get("content", default)], the default being
    the empty string. *)
Definition response_content (response : value) : result value :=
  match py_get response (lit "message") (VDict []) with
  | Raise e => Raise e
  | Ok message => py_get message (lit "content") (VStr [])
  end.

(** [line] is one of the lines of the batch that [ret] asks for, or of the
    calls journalled in [evs], and it cannot be printed. *)
Definition unprintable_line_of (ret : result value) (evs : list Event) (line : str) : Prop :=
  printable line = false /\
  ((exists response calls items tool_call tool_name arguments,
       ret = Ok response /\ response_tool_calls response = Ok calls /\
       py_iter calls = Ok items /\ In tool_call items /\
       requested tool_call = Ok (tool_name, arguments) /\
       line = calling_line tool_name arguments) \/
   (exists tool_name arguments e,
       In (EvCallTool tool_name arguments (Raise e)) evs /\ line = error_line e)).

(** How a batch can stop: at an entry that is not a request, at a request
    whose line cannot be printed, or at a failed call whose line cannot be
    printed. *)
Definition stopped_at (bad : value) (e : exn) (done : list value) (evs : list Event) : Prop :=
  (requested bad = Raise e /\ Forall2 answers done evs /\ Forall lines_printable evs) \/
  (exists tool_name arguments,
      requested bad = Ok (tool_name, arguments) /\
      printable (calling_line tool_name arguments) = false /\
      e = UnicodeEncodeError (encode_error_text (calling_line tool_name arguments)) /\
      Forall2 answers done evs /\ Forall lines_printable evs) \/
  (exists tool_name arguments e0 evs0,
      requested bad = Ok (tool_name, arguments) /\
      printable (calling_line tool_name arguments) = true /\
      evs = evs0 ++ [EvCallTool tool_name arguments (Raise e0)] /\
      Forall2 answers done evs0 /\ Forall lines_printable evs0 /\
      printable (error_line e0) = false /\
      e = UnicodeEncodeError (encode_error_text (error_line e0))).

Definition is_failed_chat (ev : Event) : Prop :=
  match ev with EvChat _ _ (Raise _) => True | _ => False end.

Definition assistant_turn (content : value) (calls : option value) : Turn :=
  {| role := Assistant; content := content; tool_calls := calls |}.

(** A response as the loop expects it: an object whose [message], when
    there, is an object, and whose [tool_calls], when true, is a sequence of
    request objects. *)
Definition well_formed_response (response : value) : Prop :=
  exists content calls,
    response_content response = Ok content /\
    response_tool_calls response = Ok calls /\
    (truthy calls = false \/
     exists items,
       py_iter calls = Ok items /\
       Forall (fun tool_call => exists tool_name arguments,
                   requested tool_call = Ok (tool_name, arguments)) items).

(** Why a pass of the loop raised [e], given what the inference call gave
    and the tool calls made after it: the inference call failed; the response
    is not as the loop expects it; or a line could not be printed. *)
Definition raised_because (e : exn) (answer : result value) (tevs : list Event) : Prop :=
  match e with
  | RuntimeError msg =>
      msg = ollama_unreachable_message /\ tevs = [] /\ exists e', answer = Raise e'
  | AttributeError _ | TypeError _ =>
      exists response, answer = Ok response /\ ~ well_formed_response response
  | UnicodeEncodeError msg =>
      exists response line,
        answer = Ok response /\ requests_tools answer /\
        unprintable_line_of answer tevs line /\ msg = encode_error_text line
  | KeyError _ | ValueError _ | RecursionError _ => False
  end.

(** What one pass of the loop can come to: an exception, before anything was
    appended or in the middle of a batch; a final answer; or a batch
    dispatched to the end. *)
Definition pass_shape (answer : result value) (r : result (option value))
    (tevs : list Event) (turns : list Turn) : Prop :=
  (exists e,
     r = Raise e /\ raised_because e answer tevs /\
     ((turns = [] /\ tevs = []) \/
      (exists response content calls,
         answer = Ok response /\ requests_tools answer /\
         turns = assistant_turn content (Some calls) :: flat_map event_turns tevs))) \/
  (exists response content,
     answer = Ok response /\ ~ requests_tools answer /\ tevs = [] /\
     response_content response = Ok content /\
     turns = [assistant_turn content None] /\ r = Ok (Some content)) \/
  (exists response content calls,
     answer = Ok response /\ requests_tools answer /\
     turns = assistant_turn content (Some calls) :: flat_map event_turns tevs /\
     r = Ok None /\ tevs <> [] /\ Forall lines_printable tevs).

(** Counting what [main] prints against what it appends. *)
Definition is_user_turn (turn : Turn) : bool :=
  match role turn with User => true | _ => false end.

Definition is_reply (p : Printed) : bool :=
  match p with Goodbye => false | _ => true end.

Definition is_blank (line : str) : bool :=
  match strip line with [] => true | _ :: _ => false end.

(** The invariant of the scanner on its budget [f]: a scan that yields a value
    has consumed input, and a budget above twice the length of the input is
    not exhausted. *)
Definition scan_progress (f : nat) : Prop :=
  (forall d s,
      (forall v r, scan_once f d s = Scanned v r -> (length r < length s)%nat) /\
      ((2 * length s < f)%nat -> scan_once f d s <> OutOfFuel)) /\
  (forall d pairs s,
      (forall v r, JSONObject f d pairs s = Scanned v r -> (length r < length s)%nat) /\
      ((2 * length s < f)%nat -> JSONObject f d pairs s <> OutOfFuel)) /\
  (forall d values s,
      (forall v r, JSONArray f d values s = Scanned v r -> (length r < length s)%nat) /\
      ((2 * length s + 1 < f)%nat -> JSONArray f d values s <> OutOfFuel)).
(** ** [weather_mcp/tools/weather.py] and [weather_mcp/server.py]: the tools the server has *)

(** A tool object as the provider lists it, with the three attributes that
    [list_tools] reads. *)
Record McpTool : Type := {
  Tool_name : value;
  Tool_description : value;
  Tool_inputSchema : value
}.

(** [get_weather_tool] *)
Definition get_weather_tool : McpTool :=
  {| Tool_name := VStr (lit "get_current_weather");
     Tool_description :=
       VStr (lit "Get the current weather for a specified city. Returns temperature, humidity, conditions, and more.");
     Tool_inputSchema :=
       VDict [(lit "type", VStr (lit "object"));
              (lit "properties",
               VDict [(lit "city",
                       VDict [(lit "type", VStr (lit "string"));
                              (lit "description",
                               VStr (lit "The city name (e.g., 'London', 'San Francisco')"))]);
                      (lit "country",
                       VDict [(lit "type", VStr (lit "string"));
                              (lit "description",
                               VStr (lit "Optional ISO 3166 country code (e.g., 'US', 'GB', 'FR')"))])]);
              (lit "required", VList [VStr (lit "city")])] |}.

(** The [list_tools] handler of the server. *)
Definition server_list_tools : list McpTool := [get_weather_tool].

(** ** [weather_mcp/server.py]: the [call_tool] handler *)

(** The function under [@self.server.call_tool()].  Its [try] around
    [handle_get_current_weather] guards a call that catches every exception
    itself. *)
Definition call_tool_function (weather_service : value -> value -> ServiceOutcome)
    (name : str) (arguments : dict) : list ContentItem :=
  if str_eqb name (lit "get_current_weather") then
    let city := match dict_get arguments (lit "city") with Some x => x | None => VNone end in
    let country := match dict_get arguments (lit "country") with Some x => x | None => VNone end in
    if negb (truthy city) then
      [TextContent (json_text "{'error': 'Missing required parameter: city'}")]
    else handle_get_current_weather weather_service city country
  else
    [TextContent (json_text "{'error': 'Unknown tool: " ++ name ++ json_text "'}")].

(** What the decorator does before it calls the function: it looks the tool
    up among the listed ones and validates the arguments against its input
    schema; the arguments of a tool that is not listed are not validated. *)
Definition tool_definition (name : str) : option McpTool :=
  find (fun t => match Tool_name t with VStr n => str_eqb name n | _ => false end)
       server_list_tools.

(** [jsonschema] on the keywords of the schema of [get_weather_tool]: a
    [required] member is there, and a member listed under [properties] with
    [type] [string] is a [str] when it is there.  The arguments of a request
    are always an object. *)
Definition is_str (v : value) : bool :=
  match v with VStr _ => true | _ => false end.

Definition required_there (arguments : dict) (key : value) : bool :=
  match key with
  | VStr k => match dict_get arguments k with Some _ => true | None => false end
  | _ => true
  end.

Definition property_valid (arguments : dict) (property : str * value) : bool :=
  match dict_get arguments (fst property) with
  | None => true
  | Some x =>
      match snd property with
      | VDict subschema =>
          match dict_get subschema (lit "type") with
          | Some (VStr t) => if str_eqb t (lit "string") then is_str x else true
          | _ => true
          end
      | _ => true
      end
  end.

Definition validates (schema : value) (arguments : dict) : bool :=
  match schema with
  | VDict keywords =>
      match dict_get keywords (lit "required") with
      | Some (VList keys) => forallb (required_there arguments) keys
      | _ => true
      end &&
      match dict_get keywords (lit "properties") with
      | Some (VDict properties) => forallb (property_valid arguments) properties
      | _ => true
      end
  | _ => true
  end.

(** The message of the [ValidationError] that [jsonschema] picks. *)
Variable validation_error_text : dict -> str.

(** The handler that [@self.server.call_tool()] registers: what it returns
    for a request. *)
Definition handle_call_tool (weather_service : value -> value -> ServiceOutcome)
    (name : str) (arguments : dict) : CallToolResult :=
  match tool_definition name with
  | Some tool =>
      if validates (Tool_inputSchema tool) arguments
      then {| result_content := call_tool_function weather_service name arguments;
              isError := false |}
      else {| result_content :=
                [TextContent (lit "Input validation error: " ++
                              validation_error_text arguments)];
              isError := true |}
  | None =>
      {| result_content := call_tool_function weather_service name arguments;
         isError := false |}
  end.

(** The content of the answer to a request. *)
Definition server_call_tool (weather_service : value -> value -> ServiceOutcome)
    (name : str) (arguments : dict) : list ContentItem :=
  result_content (handle_call_tool weather_service name arguments).

(** Characters that stand for themselves between the quotes of a JSON
    string. *)
Definition plain_char (c : codepoint) : bool :=
  negb (c =? dquote) && negb (c =? backslash) && negb (c <? 32).

Definition plain_text (s : str) : bool := forallb plain_char s.

(** ** [client/mcp.py]: [list_tools] *)

(** What [self.session.list_tools] does: it returns a result whose [tools]
    are given, or raises. *)
Inductive ListOutcome : Type :=
| Listed (listed_tools : list McpTool)
| ListFailed (text : str).

Variable session_list_tools : World -> ListOutcome * World.

Definition tool_dict (t : McpTool) : dict :=
  [(lit "name", Tool_name t);
   (lit "description", Tool_description t);
   (lit "inputSchema", Tool_inputSchema t)].

(** [MCPClient.list_tools] *)
Definition list_tools (self : MCPClient) (w : World) : result (list dict) * World :=
  match session self with
  | None => (Raise (RuntimeError (lit "MCP client not connected")), w)
  | Some _ =>
      let (outcome, w') := session_list_tools w in
      match outcome with
      | Listed listed_tools => (Ok (map tool_dict listed_tools), w')
      | ListFailed text =>
          (Raise (RuntimeError (lit "Cannot list tools from MCP server: " ++ text)), w')
      end
  end.

(** ** [client/mcp.py]: [connect] and [close] *)

(** The fields of [MCPClient] besides [session]. *)
Record MCPClientFields : Type := {
  server_command : str;
  server_args : list str;
  cwd : str;
  _context_manager : option unit
}.

(** How far [connect] gets before something raises: not as far as holding the
    context manager of [stdio_client]; holding it but no session yet (its
    [__aenter__] or the [ClientSession] constructor raised); or holding the
    session too (its [__aenter__] or [initialize] raised). *)
Inductive ConnectOutcome : Type :=
| Connected
| FailedBeforeTransport (text : str)
| FailedTransport (text : str)
| FailedHandshake (text : str).

Variable stdio_connect : World -> str -> list str -> str -> ConnectOutcome * World.

(** What the three [aclose] and [__aexit__] calls of the teardown do: [Some]
    is an exception with its text. *)
Variable client_aclose : World -> option str * World.
Variable session_aexit : World -> option str * World.
Variable context_aexit : World -> option str * World.

Definition with_context_manager (fields : MCPClientFields) : MCPClientFields :=
  {| server_command := server_command fields;
     server_args := server_args fields;
     cwd := cwd fields;
     _context_manager := Some tt |}.

Definition cannot_connect_message (fields : MCPClientFields) (text : str) : str :=
  lit "Cannot connect to MCP server." ++ [newline] ++
  lit "Command: " ++ server_command fields ++ lit " " ++
    join (lit " ") (server_args fields) ++ [newline] ++
  lit "Working directory: " ++ cwd fields ++ [newline] ++
  lit "Error: " ++ text.

(** [MCPClient.connect] *)
Definition connect (self : MCPClient) (fields : MCPClientFields) (w : World)
  : result unit * (MCPClient * MCPClientFields) * World :=
  let (outcome, w') :=
    stdio_connect w (server_command fields) (server_args fields) (cwd fields) in
  match outcome with
  | Connected =>
      (Ok tt, ({| session := Some tt |}, with_context_manager fields), w')
  | FailedBeforeTransport text =>
      (Raise (RuntimeError (cannot_connect_message fields text)), (self, fields), w')
  | FailedTransport text =>
      (Raise (RuntimeError (cannot_connect_message fields text)),
       (self, with_context_manager fields), w')
  | FailedHandshake text =>
      (Raise (RuntimeError (cannot_connect_message fields text)),
       ({| session := Some tt |}, with_context_manager fields), w')
  end.





(** ** [client/orchestrator.py]: [__init__], [initialize] and [cleanup] *)

(** The orchestrator with the fields of its [MCPClient] that [State] leaves
    out. *)
Record Session : Type := {
  state : State;
  mcp_fields : MCPClientFields
}.



Definition server_unreachable_message : str :=
  lit "Could not connect to MCP Server. Please ensure the server is running:" ++ [newline] ++
  lit "  uv run python -m weather_mcp.main".

Definition discovery_failed_message : str :=
  lit "Could not discover tools from MCP Server".

Definition with_mcp (st : State) (client : MCPClient) (w : World) : State :=
  {| self := {| llm := llm (self st);
                mcp := client;
                tools := tools (self st);
                conversation_history := conversation_history (self st) |};
     world := w;
     journal := journal st |}.

Definition with_world (st : State) (w : World) : State :=
  {| self := self st; world := w; journal := journal st |}.

Definition with_tools (st : State) (mcp_tools : list dict) (w : World) : State :=
  {| self := {| llm := llm (self st);
                mcp := mcp (self st);
                tools := mcp_tools;
                conversation_history := conversation_history (self st) |};
     world := w;
     journal := journal st |}.

(** [WeatherOrchestrator.initialize] *)
Definition initialize (s : Session) : result unit * Session :=
  match connect (mcp (self (state s))) (mcp_fields s) (world (state s)) with
  | (Raise _, (client, fields), w1) =>
      (Raise (RuntimeError server_unreachable_message),
       {| state := with_mcp (state s) client w1; mcp_fields := fields |})
  | (Ok _, (client, fields), w1) =>
      let st1 := with_mcp (state s) client w1 in
      match list_tools client w1 with
      | (Raise _, w2) =>
          (Raise (RuntimeError discovery_failed_message),
           {| state := with_world st1 w2; mcp_fields := fields |})
      | (Ok mcp_tools, w2) =>
          (Ok tt, {| state := with_tools st1 mcp_tools w2; mcp_fields := fields |})
      end
  end.


(** ** [client/main.py]: [main] *)



(** ** [weather_mcp/config/settings.py] and [weather_mcp/services/openweather.py] *)

Record Settings : Type := {
  openweathermap_api_key : str;
  openweathermap_base_url : str;
  request_timeout : Z
}.

(** [Settings.weather_api_url] *)
Definition weather_api_url (settings : Settings) : str :=
  openweathermap_base_url settings ++ lit "/weather".

(** What subscripting raises: [KeyError], or a [TypeError] or [IndexError]
    about the object that was subscripted. *)
Inductive subscripted (A : Type) : Type :=
| Got (a : A)
| MissingKey
| NotSubscriptable (culprit : value).
Arguments Got {A} a.
Arguments MissingKey {A}.
Arguments NotSubscriptable {A} culprit.

(** [v[k]] for a [str] key *)
Definition getitem (v : value) (k : str) : subscripted value :=
  match v with
  | VDict d => match dict_get d k with Some x => Got x | None => MissingKey end
  | _ => NotSubscriptable v
  end.

(** [v[0]]: the keys of a [dict] are strings, so [0] is a missing key. *)
Definition getitem_0 (v : value) : subscripted value :=
  match v with
  | VList (x :: _) => Got x
  | VStr (c :: _) => Got (VStr [c])
  | VDict _ => MissingKey
  | _ => NotSubscriptable v
  end.

Definition and_then {A B} (x : subscripted A) (k : A -> subscripted B) : subscripted B :=
  match x with
  | Got a => k a
  | MissingKey => MissingKey
  | NotSubscriptable culprit => NotSubscriptable culprit
  end.

(** The keyword arguments of [WeatherData(...)], in the order in which they
    are evaluated. *)
Inductive WeatherFields : Type :=
| weather_fields (city country temperature feels_like humidity pressure
                  description wind_speed clouds : value).

Definition read_weather_fields (data : value) : subscripted WeatherFields :=
  and_then (getitem data (lit "name")) (fun city =>
  and_then (and_then (getitem data (lit "sys")) (fun x => getitem x (lit "country")))
    (fun country =>
  and_then (and_then (getitem data (lit "main")) (fun x => getitem x (lit "temp")))
    (fun temperature =>
  and_then (and_then (getitem data (lit "main")) (fun x => getitem x (lit "feels_like")))
    (fun feels_like =>
  and_then (and_then (getitem data (lit "main")) (fun x => getitem x (lit "humidity")))
    (fun humidity =>
  and_then (and_then (getitem data (lit "main")) (fun x => getitem x (lit "pressure")))
    (fun pressure =>
  and_then (and_then (and_then (getitem data (lit "weather")) getitem_0)
                     (fun x => getitem x (lit "description")))
    (fun description =>
  and_then (and_then (getitem data (lit "wind")) (fun x => getitem x (lit "speed")))
    (fun wind_speed =>
  and_then (and_then (getitem data (lit "clouds")) (fun x => getitem x (lit "all")))
    (fun clouds =>
  Got (weather_fields city country temperature feels_like humidity pressure
                      description wind_speed clouds)))))))))).

(** Left to pydantic and the interpreter: the validation of [WeatherData] with
    its [model_dump_json(indent=2)] ([None] is a [ValidationError]), and the
    message of the [TypeError] or [IndexError] of a subscript. *)
Variable validate_weather_data : WeatherFields -> option str.
Variable subscript_error_text : value -> str.

Variable weather_get : World -> str -> dict -> PostOutcome * World.

(** The [q] parameter: [f"{city},{country}" if country else city] *)
Definition location_of (city country : value) : value :=
  if truthy country then VStr (py_str city ++ lit "," ++ py_str country) else city.

Definition invalid_response_message : str :=
  lit "Invalid response from weather service. Please try again.".

Definition unexpected_weather_error (text : str) : str :=
  lit "Unexpected error fetching weather data: " ++ text.

(** [WeatherService.get_current_weather]: a [ValueError] of [response.json()],
    be it a [JSONDecodeError] or not, is caught with [KeyError]; what else it
    raises goes to the last handler. *)
Definition get_current_weather (settings : Settings) (city country : value) (w : World)
  : ServiceOutcome * World :=
  let location := location_of city country in
  let params := [(lit "q", location);
                 (lit "appid", VStr (openweathermap_api_key settings));
                 (lit "units", VStr (lit "metric"))] in
  let (outcome, w') := weather_get w (weather_api_url settings) params in
  match outcome with
  | Response status_code text =>
      if is_success status_code then
        match json_loads text with
        | JSONDecodeError => (ServiceRaised invalid_response_message, w')
        | Raising (ValueError _) | Raising (KeyError _) =>
            (ServiceRaised invalid_response_message, w')
        | Raising e => (ServiceRaised (unexpected_weather_error (exn_str e)), w')
        | Parsed data =>
            match read_weather_fields data with
            | Got fields =>
                match validate_weather_data fields with
                | Some dumped => (WeatherData dumped, w')
                | None => (ServiceRaised invalid_response_message, w')
                end
            | MissingKey => (ServiceRaised invalid_response_message, w')
            | NotSubscriptable culprit =>
                (ServiceRaised (unexpected_weather_error (subscript_error_text culprit)), w')
            end
        end
      else if (status_code =? 401)%Z then
        (ServiceRaised (lit "Invalid API key. Please check your OPENWEATHERMAP_API_KEY."), w')
      else if (status_code =? 404)%Z then
        (ServiceRaised (lit "City '" ++ py_str location ++
                        lit "' not found. Please check the city name and country code."), w')
      else
        (ServiceRaised (lit "Weather service error: " ++ text), w')
  | ConnectError _ =>
      (ServiceRaised
         (lit "Cannot connect to weather service. Please check your internet connection."), w')
  | TimeoutException _ =>
      (ServiceRaised (lit "Weather service request timed out. Please try again."), w')
  | OtherException text => (ServiceRaised (unexpected_weather_error text), w')
  end.

(** [data[k1][k2]] is there and is [x]. *)
Definition nested_member (data : dict) (k1 k2 : str) (x : value) : Prop :=
  exists inner, dict_get data k1 = Some (VDict inner) /\ dict_get inner k2 = Some x.

(** * Properties *)

(** ** The [json] library *)








(** *** [scanstring] undoes [encode_basestring_ascii] *)

Lemma scanstring_cons (c : codepoint) (r : str) :
  (c =? dquote) = false -> (c =? backslash) = false -> (c <? 32) = false ->
  scanstring (c :: r) = cons_char c (scanstring r).
Proof. intros E1 E2 E3. cbn [scanstring]. now rewrite E1, E2, E3. Qed.





(** *** Every successful scan consumes input, and the budget is never spent *)

Ltac break_match_hyp H :=
  match type of H with
  | context [match ?x with _ => _ end] => destruct x eqn:?
  | context [if ?x then _ else _] => destruct x eqn:?
  end.

Lemma skip_ws_length (s : str) : (length (skip_ws s) <= length s)%nat.
Proof.
  induction s as [|c s IH]; cbn [skip_ws]; [lia|].
  destruct (is_ws c); cbn [length]; lia.
Qed.

Lemma cons_char_inv (c : codepoint) (o : option (str * str)) (t r : str) :
  cons_char c o = Some (t, r) -> exists t', o = Some (t', r).
Proof.
  destruct o as [[t' r']|]; cbn; intros H; [|discriminate].
  injection H as _ <-. now exists t'.
Qed.

Lemma scanstring_length_bounded (n : nat) :
  forall s t r, (length s <= n)%nat -> scanstring s = Some (t, r) ->
  (length r < length s)%nat.
Proof.
  induction n as [|n IH]; intros s t r L H.
  - destruct s; [discriminate | cbn in L; lia].
  - destruct s as [|c s]; [discriminate|].
    cbn [scanstring] in H. cbn [length] in *.
    repeat (first
      [ discriminate
      | match type of H with
        | Some _ = Some _ => injection H as _ <-; lia
        | cons_char _ (scanstring ?x) = Some _ =>
            apply cons_char_inv in H as [? H]; apply IH in H; cbn [length] in *; lia
        end
      | break_match_hyp H; cbn [length] in * ]).
Qed.

Lemma scanstring_length (s t r : str) :
  scanstring s = Some (t, r) -> (length r < length s)%nat.
Proof. apply (scanstring_length_bounded (length s)). lia. Qed.

Lemma strip_prefix_length (p s r : str) :
  strip_prefix p s = Some r -> (length r + length p = length s)%nat.
Proof.
  revert s. induction p as [|x p IH]; intros s H; cbn in H.
  - injection H as <-. cbn. lia.
  - destruct s as [|y s]; [discriminate|].
    destruct (x =? y); [|discriminate]. apply IH in H. cbn. lia.
Qed.

Lemma span_digits_length (s : str) : (length (snd (span_digits s)) <= length s)%nat.
Proof.
  induction s as [|c s IH]; cbn [span_digits]; [cbn; lia|].
  destruct (is_digit c); [|cbn; lia].
  destruct (span_digits s). cbn in *. lia.
Qed.

Lemma match_integer_length (s i r : str) :
  match_integer s = Some (i, r) -> (length r < length s)%nat.
Proof.
  unfold match_integer. intros H.
  destruct s as [|c s]; [discriminate|].
  destruct (c =? 45).
  - destruct s as [|d s]; [discriminate|].
    destruct (d =? 48); [injection H as _ <-; cbn; lia|].
    destruct (is_digit d); [|discriminate].
    pose proof (span_digits_length s). destruct (span_digits s).
    injection H as _ <-. cbn in *. lia.
  - destruct (c =? 48); [injection H as _ <-; cbn; lia|].
    destruct (is_digit c); [|discriminate].
    pose proof (span_digits_length s). destruct (span_digits s).
    injection H as _ <-. cbn in *. lia.
Qed.

Lemma match_frac_length (s : str) : (length (snd (match_frac s)) <= length s)%nat.
Proof.
  unfold match_frac. destruct s as [|dot [|d r]]; cbn [snd]; try lia.
  destruct ((dot =? 46) && is_digit d); cbn [snd]; try lia.
  pose proof (span_digits_length r). destruct (span_digits r). cbn in *. lia.
Qed.

Lemma match_exp_length (s : str) : (length (snd (match_exp s)) <= length s)%nat.
Proof.
  unfold match_exp. destruct s as [|e r]; cbn [snd]; try lia.
  destruct ((e =? 101) || (e =? 69)); cbn [snd]; try lia.
  destruct r as [|c r']; cbn [snd]; try lia.
  destruct ((c =? 45) || (c =? 43)).
  - destruct r' as [|d r2]; cbn [snd]; try lia.
    destruct (is_digit d); cbn [snd]; try lia.
    pose proof (span_digits_length r2). destruct (span_digits r2). cbn in *. lia.
  - destruct (is_digit c); cbn [snd]; try lia.
    pose proof (span_digits_length r'). destruct (span_digits r'). cbn in *. lia.
Qed.

Lemma match_number_length (s : str) (v : value) (r : str) :
  match_number s = Scanned v r -> (length r < length s)%nat.
Proof.
  unfold match_number. intros H.
  destruct (match_integer s) as [[i s1]|] eqn:E; [|discriminate].
  apply match_integer_length in E.
  pose proof (match_frac_length s1). destruct (match_frac s1) as [frac s2].
  pose proof (match_exp_length s2). destruct (match_exp s2) as [exp s3].
  cbn [snd] in *.
  destruct frac, exp; try (injection H as _ <-; lia).
  destruct (int_max_str_digits <? count_digits i); [discriminate|].
  injection H as _ <-; lia.
Qed.

Lemma match_number_fuel (s : str) : match_number s <> OutOfFuel.
Proof.
  unfold match_number.
  destruct (match_integer s) as [[i s1]|]; [|discriminate].
  destruct (match_frac s1) as [frac s2]. destruct (match_exp s2) as [exp s3].
  destruct frac, exp; try discriminate.
  destruct (int_max_str_digits <? count_digits i); discriminate.
Qed.

Lemma scan_constant_spec (s : str) :
  scan_constant s <> OutOfFuel /\
  forall v r, scan_constant s = Scanned v r -> (length r < length s)%nat.
Proof.
  unfold scan_constant.
  repeat match goal with
  | |- context [strip_prefix ?p s] =>
      let E := fresh "E" in
      destruct (strip_prefix p s) eqn:E;
      [apply strip_prefix_length in E; cbn in E;
       split; [discriminate | intros ? ? [= _ <-]; lia]|]
  | |- context [match_number s] =>
      let E := fresh "E" in
      pose proof (match_number_fuel s);
      destruct (match_number s) as [? ?| | |] eqn:E;
      [apply match_number_length in E;
       split; [discriminate | intros ? ? [= _ <-]; lia]
      | | split; discriminate | contradiction ]
  end.
  split; [discriminate | discriminate].
Qed.

Lemma scan_progress_all (f : nat) : scan_progress f.
Proof.
  induction f as [|f (IHs & IHo & IHa)].
  - repeat split; cbn; try discriminate; lia.
  - split; [|split].
    + (* scan_once *)
      intros d s. destruct s as [|c r]; [split; cbn; [discriminate | discriminate]|].
      cbn [scan_once length].
      destruct (c =? dquote).
      { destruct (scanstring r) as [[t rest]|] eqn:E.
        - apply scanstring_length in E.
          split; [intros ? ? [= _ <-]; lia | discriminate].
        - split; discriminate. }
      destruct (c =? 123).
      { destruct d as [|d]; [split; discriminate|].
        pose proof (skip_ws_length r) as W.
        destruct (skip_ws r) as [|c1 r1]; [split; discriminate|]. cbn [length] in W.
        destruct (c1 =? 125); [split; [intros ? ? [= _ <-]; lia | discriminate]|].
        destruct (c1 =? dquote); [|split; discriminate].
        destruct (IHo d [] r1) as [P Q].
        split; [intros v r' H; apply P in H; lia | intros L; apply Q; lia]. }
      destruct (c =? 91).
      { destruct d as [|d]; [split; discriminate|].
        pose proof (skip_ws_length r) as W.
        destruct (skip_ws r) as [|c1 r1]; [split; discriminate|].
        destruct (c1 =? 93);
          [split; [intros ? ? [= _ <-]; cbn [length] in W; lia | discriminate]|].
        destruct (IHa d [] (c1 :: r1)) as [P Q].
        split; [intros v r' H; apply P in H; lia | intros L; apply Q; lia]. }
      destruct (scan_constant_spec (c :: r)) as [N P]. cbn [length] in P.
      split; [exact P | intros _; exact N].
    + (* JSONObject *)
      intros d pairs s. cbn [JSONObject].
      destruct (scanstring s) as [[key s1]|] eqn:E; [|split; discriminate].
      apply scanstring_length in E.
      pose proof (skip_ws_length s1) as W1.
      destruct (skip_ws s1) as [|c s2]; [split; discriminate|]. cbn [length] in W1.
      destruct (c =? 58); [|split; discriminate].
      pose proof (skip_ws_length s2) as W2.
      destruct (IHs d (skip_ws s2)) as [P Q].
      destruct (scan_once f d (skip_ws s2)) as [v s3| | |] eqn:E3.
      * specialize (P _ _ eq_refl).
        pose proof (skip_ws_length s3) as W3.
        destruct (skip_ws s3) as [|c' s4]; [split; discriminate|]. cbn [length] in W3.
        destruct (c' =? 125); [split; [intros ? ? [= _ <-]; lia | discriminate]|].
        destruct (c' =? 44); [|split; discriminate].
        pose proof (skip_ws_length s4) as W4.
        destruct (skip_ws s4) as [|q s5]; [split; discriminate|]. cbn [length] in W4.
        destruct (q =? dquote); [|split; discriminate].
        destruct (IHo d (dict_set pairs key v) s5) as [P' Q'].
        split; [intros v' r' H; apply P' in H; lia | intros L; apply Q'; lia].
      * split; discriminate.
      * split; discriminate.
      * split; [discriminate|]. intros L. exfalso. apply Q; [lia | reflexivity].
    + (* JSONArray *)
      intros d values s. cbn [JSONArray].
      destruct (IHs d s) as [P Q].
      destruct (scan_once f d s) as [v s1| | |] eqn:E1.
      * specialize (P _ _ eq_refl).
        pose proof (skip_ws_length s1) as W1.
        destruct (skip_ws s1) as [|c s2]; [split; discriminate|]. cbn [length] in W1.
        destruct (c =? 93); [split; [intros ? ? [= _ <-]; lia | discriminate]|].
        destruct (c =? 44); [|split; discriminate].
        pose proof (skip_ws_length s2) as W2.
        destruct (IHa d (values ++ [v]) (skip_ws s2)) as [P' Q'].
        split; [intros v' r' H; apply P' in H; lia | intros L; apply Q'; lia].
      * split; discriminate.
      * split; discriminate.
      * split; [discriminate|]. intros L. exfalso. apply Q; [lia | reflexivity].
Qed.

(** [json.loads] always comes to a verdict: the budget of [raw_decode] is
    never the reason for a rejection. *)
Lemma json_loads_total (s : str) : raw_decode s <> OutOfFuel.
Proof.
  unfold raw_decode, decode_fuel.
  destruct (scan_progress_all (2 + 2 * length s)) as [H _].
  apply H. pose proof (skip_ws_length s). lia.
Qed.

(** *** Two facts about concrete shapes of text *)

Lemma scan_once_string (f d : nat) (r t rest : str) :
  scanstring r = Some (t, rest) ->
  scan_once (S f) d (dquote :: r) = Scanned (VStr t) rest.
Proof. intros H. cbn [scan_once]. change (dquote =? dquote) with true. cbv iota. now rewrite H. Qed.

Lemma scan_once_object (f d : nat) (r : str) :
  scan_once (S f) (S d) (123 :: dquote :: r) = JSONObject f d [] r.
Proof. reflexivity. Qed.

Lemma JSONObject_last (f d : nat) (pairs : dict) (s key s2 : str) (v : value) (rest : str) :
  scanstring s = Some (key, 58 :: s2) ->
  scan_once f d (skip_ws s2) = Scanned v (125 :: rest) ->
  JSONObject (S f) d pairs s = Scanned (VDict (dict_set pairs key v)) rest.
Proof.
  intros H1 H2. cbn [JSONObject]. rewrite H1.
  change (skip_ws (58 :: s2)) with (58 :: s2). cbv iota.
  change (58 =? 58) with true. cbv iota. rewrite H2.
  reflexivity.
Qed.



(** Text that opens a brace and goes on with a single quote is not JSON: after
    the brace only a double-quoted member name or the closing brace may
    come. *)
Lemma json_loads_single_quoted (rest : str) :
  json_loads (123 :: squote :: rest) = JSONDecodeError.
Proof. reflexivity. Qed.

(** *** What else [json.loads] raises *)

Lemma match_number_raises (s : str) (e : exn) :
  match_number s = Raised e -> decoder_exception e.
Proof.
  unfold match_number. intros H.
  destruct (match_integer s) as [[i s1]|]; [|discriminate].
  destruct (match_frac s1) as [frac s2]. destruct (match_exp s2) as [exp s3].
  destruct frac, exp; try discriminate.
  destruct (int_max_str_digits <? count_digits i) eqn:L; [|discriminate].
  injection H as <-. left. exists (count_digits i). split; [|reflexivity].
  now apply N.ltb_lt.
Qed.

Lemma scan_constant_raises (s : str) (e : exn) :
  scan_constant s = Raised e -> decoder_exception e.
Proof.
  unfold scan_constant. intros H.
  repeat match type of H with
  | context [strip_prefix ?p s] => destruct (strip_prefix p s); [discriminate|]
  end.
  destruct (match_number s) as [? ?| | |] eqn:E; try discriminate.
  - repeat match type of H with
    | context [strip_prefix ?p s] => destruct (strip_prefix p s); [discriminate|]
    end.
    discriminate.
  - injection H as <-. eapply match_number_raises, E.
Qed.

Lemma scan_raises (f : nat) :
  (forall d s e, scan_once f d s = Raised e -> decoder_exception e) /\
  (forall d pairs s e, JSONObject f d pairs s = Raised e -> decoder_exception e) /\
  (forall d values s e, JSONArray f d values s = Raised e -> decoder_exception e).
Proof.
  induction f as [|f (IHs & IHo & IHa)]; [repeat split; discriminate|].
  split; [|split].
  - intros d s e H. destruct s as [|c r]; [discriminate|].
    cbn [scan_once] in H.
    destruct (c =? dquote); [destruct (scanstring r) as [[? ?]|]; discriminate|].
    destruct (c =? 123).
    { destruct d as [|d]; [injection H as <-; right; now left|].
      destruct (skip_ws r) as [|c1 r1]; [discriminate|].
      destruct (c1 =? 125); [discriminate|].
      destruct (c1 =? dquote); [|discriminate]. eapply IHo, H. }
    destruct (c =? 91).
    { destruct d as [|d]; [injection H as <-; right; now right|].
      destruct (skip_ws r) as [|c1 r1]; [discriminate|].
      destruct (c1 =? 93); [discriminate|]. eapply IHa, H. }
    eapply scan_constant_raises, H.
  - intros d pairs s e H. cbn [JSONObject] in H.
    destruct (scanstring s) as [[key s1]|]; [|discriminate].
    destruct (skip_ws s1) as [|c s2]; [discriminate|].
    destruct (c =? 58); [|discriminate].
    destruct (scan_once f d (skip_ws s2)) as [v s3| |e'|] eqn:E; try discriminate.
    + destruct (skip_ws s3) as [|c' s4]; [discriminate|].
      destruct (c' =? 125); [discriminate|].
      destruct (c' =? 44); [|discriminate].
      destruct (skip_ws s4) as [|q s5]; [discriminate|].
      destruct (q =? dquote); [|discriminate]. eapply IHo, H.
    + injection H as <-. eapply IHs, E.
  - intros d values s e H. cbn [JSONArray] in H.
    destruct (scan_once f d s) as [v s1| |e'|] eqn:E; try discriminate.
    + destruct (skip_ws s1) as [|c s2]; [discriminate|].
      destruct (c =? 93); [discriminate|].
      destruct (c =? 44); [|discriminate]. eapply IHa, H.
    + injection H as <-. eapply IHs, E.
Qed.

(** Besides [JSONDecodeError], [json.loads] raises only the [ValueError] of an
    integer literal of more than 4300 digits and the [RecursionError] of the
    scanner. *)
Lemma json_loads_raising (s : str) (e : exn) :
  json_loads s = Raising e -> decoder_exception e.
Proof.
  unfold json_loads, raw_decode. intros H.
  destruct (scan_once _ _ _) as [v rest| |e'|] eqn:E; try discriminate.
  - destruct (skip_ws rest); discriminate.
  - injection H as <-. eapply (proj1 (scan_raises _)), E.
Qed.

(** ** The Tool Registry Adapter *)


Lemma convert_ok (mcp_tools : list dict) (ollama_tools : list value) :
  convert_mcp_tools_to_ollama_format mcp_tools = Ok ollama_tools ->
  Forall2 converted mcp_tools ollama_tools.
Proof.
  revert ollama_tools.
  induction mcp_tools as [|t rest IH]; intros out H; cbn [convert_mcp_tools_to_ollama_format] in H.
  - injection H as <-. constructor.
  - unfold subscript in H.
    destruct (dict_get t (lit "name")) as [n|] eqn:En; [|discriminate].
    destruct (dict_get t (lit "description")) as [d|] eqn:Ed; [|discriminate].
    destruct (dict_get t (lit "inputSchema")) as [s|] eqn:Es; [|discriminate].
    destruct (convert_mcp_tools_to_ollama_format rest) as [out'|e] eqn:Er; [|discriminate].
    injection H as <-. constructor; [|now apply IH].
    now exists n, d, s.
Qed.



(** ** The Model Backend Client *)

Lemma strip_prefix_app (p s : str) : strip_prefix p (p ++ s) = Some s.
Proof.
  induction p as [|x p IH]; cbn; [reflexivity|]. now rewrite N.eqb_refl.
Qed.

Lemma starts_with_app (p s : str) : starts_with p (p ++ s) = true.
Proof. unfold starts_with. now rewrite strip_prefix_app. Qed.

Lemma classify_reported (self : OllamaClient) (o : PostOutcome) (k : ErrorKind) (msg : str) :
  reported self o k msg -> classify msg = Some k.
Proof.
  intros R. destruct R; unfold classify.
  - unfold connect_error_message. now rewrite starts_with_app.
  - reflexivity.
  - reflexivity.
  - reflexivity.
  - reflexivity.
  - reflexivity.
  - reflexivity.
Qed.

(** C7, as amended.  A failing [chat] raises [RuntimeError], and the failure
    is reported as one of five kinds that the message alone tells apart: a
    connection failure and a timeout, each with a fixed remediation hint; a
    missing model (status 404), with a hint that names the requested model; a
    backend error (any other status outside 2xx), with the raw body text; and
    an unexpected error, with the text of the exception: any other exception
    of the request, and a 2xx body that [json.loads] does not accept, because
    it is not JSON or because it holds an integer of more than 4300 digits or
    is nested too deep.  [chat] returns exactly when the status is 2xx and
    the body is parsed, and it returns the parsed body. *)
Theorem chat_failure_kinds (self : OllamaClient) (messages : list Turn)
    (tools : option (list value)) (w : World) :
  match fst (chat self messages tools w) with
  | Ok result =>
      exists status_code text,
        fst (client_post w (chat_url self) (chat_payload self messages tools)) =
          Response status_code text /\
        is_success status_code = true /\ json_loads text = Parsed result
  | Raise e =>
      exists kind msg,
        e = RuntimeError msg /\
        classify msg = Some kind /\
        reported self (fst (client_post w (chat_url self) (chat_payload self messages tools)))
                 kind msg
  end.
Proof.
  unfold chat.
  destruct (client_post w (chat_url self) (chat_payload self messages tools))
    as [outcome w'] eqn:E.
  assert (G : forall kind msg,
             reported self outcome kind msg ->
             exists kind0 msg0,
               RuntimeError msg = RuntimeError msg0 /\
               classify msg0 = Some kind0 /\ reported self outcome kind0 msg0).
  { intros kind msg R. exists kind, msg. repeat split; [|assumption].
    eapply classify_reported, R. }
  cbn [fst].
  destruct outcome as [t|t|t|status_code t]; cbn [fst].
  - eapply G. constructor.
  - eapply G. constructor.
  - eapply G. constructor.
  - destruct (is_success status_code) eqn:S.
    + destruct (json_loads t) eqn:J; cbn [fst].
      * now exists status_code, t.
      * eapply G. now constructor.
      * eapply G. now apply reported_decoder.
    + destruct (status_code =? 404)%Z eqn:N; cbn [fst].
      * apply Z.eqb_eq in N. subst. eapply G. constructor.
      * apply Z.eqb_neq in N. eapply G. now constructor.
Qed.

(** ** The Tool Executor *)

Lemma json_loads_samples :
  json_loads (lit "null") = Parsed VNone /\
  json_loads (lit "{" ++ dquote :: lit "a" ++ dquote :: lit ":1}") =
    Parsed (VDict [(lit "a", VInt 1)]) /\
  json_loads (lit "hello") = JSONDecodeError.
Proof. repeat split. Qed.

(** C4, as amended.  When the provider returns a result to a connected
    client, the text of its first content item decides: a text that
    [json.loads] parses is returned parsed; a text that is not JSON
    ([JSONDecodeError]) is returned unchanged as a string; and a text on
    which [json.loads] raises another exception, which is the [ValueError] of
    an integer of more than 4300 digits or the [RecursionError] of too deep a
    nesting, makes [call_tool] raise a [RuntimeError] that names the tool and
    carries the text of that exception.  For an empty content list [None] is
    returned, which differs from the empty string but is the very value that
    the JSON text [null] is parsed to.  The sample texts of the specification
    behave accordingly. *)
Theorem call_tool_normalization (self : MCPClient) (tool_name arguments : value)
    (w w' : World) (r : CallToolResult) :
  session self <> None ->
  session_call_tool w tool_name arguments = (Returned r, w') ->
  (forall text rest parsed,
      result_content r = TextContent text :: rest -> json_loads text = Parsed parsed ->
      call_tool self tool_name arguments w = (Ok parsed, w')) /\
  (forall text rest,
      result_content r = TextContent text :: rest -> json_loads text = JSONDecodeError ->
      call_tool self tool_name arguments w = (Ok (VStr text), w')) /\
  (forall text rest e,
      result_content r = TextContent text :: rest -> json_loads text = Raising e ->
      decoder_exception e /\
      call_tool self tool_name arguments w =
        (Raise (RuntimeError (lit "Tool '" ++ py_str tool_name ++
                              lit "' execution failed: " ++ exn_str e)), w')) /\
  (result_content r = [] -> call_tool self tool_name arguments w = (Ok VNone, w')) /\
  VNone <> VStr [] /\
  json_loads (lit "null") = Parsed VNone /\
  json_loads (lit "{" ++ dquote :: lit "a" ++ dquote :: lit ":1}") =
    Parsed (VDict [(lit "a", VInt 1)]) /\
  json_loads (lit "hello") = JSONDecodeError.
Proof.
  intros C E. unfold call_tool.
  destruct (session self) as [s|]; [|contradiction]. rewrite E.
  split; [|split; [|split; [|split; [|split]]]].
  - intros text rest parsed -> J. now rewrite J.
  - intros text rest -> J. now rewrite J.
  - intros text rest e -> J. rewrite J. split; [|reflexivity].
    eapply json_loads_raising, J.
  - now intros ->.
  - discriminate.
  - exact json_loads_samples.
Qed.


(** C10.  When the weather service raises, [handle_get_current_weather]
    returns normally a single text item; the text is [str()] of the dict with
    the keys [error], [city] and [country], so it opens with a brace and a
    single-quoted key and is not valid JSON; a connected client that receives
    it from the provider returns it as a raw string. *)
Theorem weather_error_text_is_not_json
    (weather_service : value -> value -> ServiceOutcome) (city country : value)
    (text : str) :
  weather_service city country = ServiceRaised text ->
  exists shown,
    handle_get_current_weather weather_service city country = [TextContent shown] /\
    shown = py_str (VDict [(lit "error", VStr text); (lit "city", city);
                           (lit "country", country)]) /\
    (exists rest, shown = lit "{'error': " ++ rest) /\
    json_loads shown = JSONDecodeError /\
    forall (self : MCPClient) tool_name arguments w w' flag,
      session self <> None ->
      session_call_tool w tool_name arguments =
        (Returned {| result_content := handle_get_current_weather weather_service city country;
                     isError := flag |}, w') ->
      call_tool self tool_name arguments w = (Ok (VStr shown), w') /\
      is_dict (VStr shown) = false /\
      result_content_of (VStr shown) = shown.
Proof.
  intros E. unfold handle_get_current_weather. rewrite E.
  eexists. split; [reflexivity|]. split; [reflexivity|].
  assert (P : exists rest,
             py_str (VDict [(lit "error", VStr text); (lit "city", city);
                            (lit "country", country)]) = lit "{'error': " ++ rest).
  { eexists. cbn [py_str py_repr map join].
    change (repr_str (lit "error")) with (lit "'error'").
    reflexivity. }
  split; [exact P|].
  destruct P as [rest P].
  assert (J : json_loads (py_str (VDict [(lit "error", VStr text); (lit "city", city);
                                         (lit "country", country)])) = JSONDecodeError).
  { rewrite P. apply json_loads_single_quoted. }
  split; [exact J|].
  intros self tool_name arguments w w' flag C S.
  unfold call_tool. destruct (session self); [|contradiction].
  rewrite S. cbn [result_content]. rewrite J. repeat split.
Qed.
(** ** The answers of the server as the client reads them *)

Lemma scanstring_plain (s rest : str) :
  plain_text s = true -> scanstring (s ++ dquote :: rest) = Some (s, rest).
Proof.
  induction s as [|c s IH]; intros P; [reflexivity|].
  cbn [plain_text forallb] in P. apply andb_true_iff in P as [Pc Ps].
  unfold plain_char in Pc. apply andb_true_iff in Pc as [Pc P3].
  apply andb_true_iff in Pc as [P1 P2].
  apply negb_true_iff in P1, P2, P3.
  cbn [app]. rewrite scanstring_cons by assumption.
  unfold plain_text in IH. now rewrite IH.
Qed.

(** An object with the single member [error] and a raw message between the
    quotes. *)
Lemma json_loads_raw_error (msg : str) :
  plain_text msg = true ->
  json_loads (json_text "{'error': '" ++ msg ++ json_text "'}") =
  Parsed (VDict [(lit "error", VStr msg)]).
Proof.
  intros P.
  change (json_text "{'error': '" ++ msg ++ json_text "'}")
    with (123 :: dquote :: lit "error" ++ dquote :: 58 :: 32 :: dquote :: msg ++ [dquote; 125]).
  set (body := msg ++ [dquote; 125]).
  unfold json_loads, raw_decode, decode_fuel. cbn [length].
  match goal with
  | |- context [scan_once (2 + 2 * S ?n)%nat] =>
      change (2 + 2 * S n)%nat with (S (S (S (n + S (n + 0)))))
  end.
  change (skip_ws (123 :: ?r)) with (123 :: r).
  rewrite scan_once_object.
  rewrite (JSONObject_last _ _ [] _ (lit "error") (32 :: dquote :: body) (VStr msg) []).
  - reflexivity.
  - reflexivity.
  - change (skip_ws (32 :: dquote :: body)) with (dquote :: body).
    apply scan_once_string. subst body. now apply scanstring_plain.
Qed.

Lemma plain_text_app (a b : str) :
  plain_text a = true -> plain_text b = true -> plain_text (a ++ b) = true.
Proof. unfold plain_text. intros A B. rewrite forallb_app. now rewrite A, B. Qed.


Lemma unknown_tool_text (weather_service : value -> value -> ServiceOutcome)
    (name : str) (arguments : dict) :
  str_eqb name (lit "get_current_weather") = false ->
  server_call_tool weather_service name arguments =
  [TextContent (json_text "{'error': 'Unknown tool: " ++ name ++ json_text "'}")].
Proof.
  intros N. unfold server_call_tool, handle_call_tool, tool_definition, server_list_tools.
  cbn [find get_weather_tool Tool_name]. rewrite N. cbn [result_content].
  unfold call_tool_function. now rewrite N.
Qed.

Lemma unknown_tool_json (name : str) :
  plain_text name = true ->
  json_loads (json_text "{'error': 'Unknown tool: " ++ name ++ json_text "'}") =
  Parsed (VDict [(lit "error", VStr (lit "Unknown tool: " ++ name))]).
Proof.
  intros P.
  change (json_text "{'error': 'Unknown tool: " ++ name ++ json_text "'}")
    with (json_text "{'error': '" ++ (lit "Unknown tool: " ++ name) ++ json_text "'}").
  apply json_loads_raw_error. now apply plain_text_app.
Qed.

(** ** The orchestration loop: how each step moves the state *)

Lemma advance_nil (st : State) : advance st [] (world st) [] = st.
Proof. destruct st as [[l m t h] w j]. unfold advance, history. cbn. now rewrite !app_nil_r. Qed.

Lemma advance_advance (st : State) turns1 w1 evs1 turns2 w2 evs2 :
  advance (advance st turns1 w1 evs1) turns2 w2 evs2 =
  advance st (turns1 ++ turns2) w2 (evs1 ++ evs2).
Proof. unfold advance, history. cbn. now rewrite !app_assoc. Qed.

Lemma history_advance (st : State) turns w evs :
  history (advance st turns w evs) = history st ++ turns.
Proof. reflexivity. Qed.

Lemma append_spec (turn : Turn) (st : State) :
  append turn st = (Ok tt, advance st [turn] (world st) []).
Proof. unfold append, advance, history. now rewrite app_nil_r. Qed.

Lemma mcp_call_tool_spec (tool_name arguments : value) (st : State) :
  mcp_call_tool tool_name arguments st =
  (fst (call_tool (mcp (self st)) tool_name arguments (world st)),
   advance st [] (snd (call_tool (mcp (self st)) tool_name arguments (world st)))
           [EvCallTool tool_name arguments
              (fst (call_tool (mcp (self st)) tool_name arguments (world st)))]).
Proof.
  unfold mcp_call_tool.
  destruct (call_tool (mcp (self st)) tool_name arguments (world st)) as [r w'].
  destruct st as [[l m t h] w j]. unfold advance, history. cbn. now rewrite app_nil_r.
Qed.

Lemma llm_chat_spec (ollama_tools : option (list value)) (st : State) :
  llm_chat ollama_tools st =
  (fst (chat (llm (self st)) (history st) ollama_tools (world st)),
   advance st [] (snd (chat (llm (self st)) (history st) ollama_tools (world st)))
           [EvChat (history st) ollama_tools
              (fst (chat (llm (self st)) (history st) ollama_tools (world st)))]).
Proof.
  unfold llm_chat.
  destruct (chat (llm (self st)) (history st) ollama_tools (world st)) as [r w'].
  destruct st as [[l m t h] w j]. unfold advance, history. cbn. now rewrite app_nil_r.
Qed.

(** *** Printing *)

Lemma print_ok (text : str) (st : State) :
  printable text = true -> print text st = (Ok tt, st).
Proof. unfold print. now intros ->. Qed.

Lemma print_raise (text : str) (st : State) :
  printable text = false ->
  print text st = (Raise (UnicodeEncodeError (encode_error_text text)), st).
Proof. unfold print. now intros ->. Qed.

Lemma printable_app (a b : str) : printable (a ++ b) = printable a && printable b.
Proof. apply forallb_app. Qed.

Lemma printable_received : printable received_line = true.
Proof. reflexivity. Qed.

Lemma printable_uint (d : Decimal.uint) : printable (lit (NilEmpty.string_of_uint d)) = true.
Proof. induction d; cbn; try reflexivity; exact IHd. Qed.

Lemma printable_N_repr (n : N) : printable (N_repr n) = true.
Proof.
  unfold N_repr, NilZero.string_of_uint.
  destruct (N.to_uint n); try reflexivity; apply printable_uint.
Qed.

Lemma printable_detected (count : nat) : printable (detected_line count) = true.
Proof.
  unfold detected_line. rewrite !printable_app, printable_N_repr. reflexivity.
Qed.

(** *** One request of a batch

    A well-formed request whose line can be printed leads to exactly one call
    of the Tool Executor, and to one [tool] turn unless the call failed and
    the line that reports it cannot be printed. *)
Lemma execute_tool_call_ok (tool_call tool_name arguments : value) (st : State) :
  requested tool_call = Ok (tool_name, arguments) ->
  let ret := fst (call_tool (mcp (self st)) tool_name arguments (world st)) in
  let w1 := snd (call_tool (mcp (self st)) tool_name arguments (world st)) in
  execute_tool_call tool_call st =
  if printable (calling_line tool_name arguments) then
    (match ret with
     | Ok _ => Ok tt
     | Raise e =>
         if printable (error_line e) then Ok tt
         else Raise (UnicodeEncodeError (encode_error_text (error_line e)))
     end,
     advance st (event_turns (EvCallTool tool_name arguments ret)) w1
       [EvCallTool tool_name arguments ret])
  else (Raise (UnicodeEncodeError (encode_error_text (calling_line tool_name arguments))), st).
Proof.
  unfold requested, execute_tool_call. intros R.
  unfold bind at 1. unfold lift at 1.
  destruct (py_get tool_call (lit "function") (VDict [])) as [function|]; [|discriminate].
  unfold bind at 1. unfold lift at 1.
  destruct (py_get function (lit "name") VNone) as [n|]; [|discriminate].
  unfold bind at 1. unfold lift at 1.
  destruct (py_get function (lit "arguments") (VDict [])) as [a|]; [|discriminate].
  injection R as -> ->. cbv zeta.
  unfold bind at 1.
  destruct (printable (calling_line tool_name arguments)) eqn:P;
    [rewrite print_ok by assumption | now rewrite print_raise by assumption].
  unfold try_except, bind. rewrite mcp_call_tool_spec.
  destruct (call_tool (mcp (self st)) tool_name arguments (world st)) as [[v|e] w'];
    cbn [fst snd event_turns].
  - rewrite print_ok by apply printable_received.
    rewrite append_spec, advance_advance. reflexivity.
  - destruct (printable (error_line e)) eqn:Q.
    + rewrite print_ok by assumption. rewrite append_spec, advance_advance. reflexivity.
    + rewrite print_raise by assumption. reflexivity.
Qed.

Lemma execute_tool_call_raise (tool_call : value) (e : exn) (st : State) :
  requested tool_call = Raise e ->
  execute_tool_call tool_call st = (Raise e, st).
Proof.
  unfold requested, execute_tool_call. intros R.
  unfold bind at 1. unfold lift at 1.
  destruct (py_get tool_call (lit "function") (VDict [])) as [function|];
    [|now injection R as ->].
  unfold bind at 1. unfold lift at 1.
  destruct (py_get function (lit "name") VNone) as [n|]; [|now injection R as ->].
  unfold bind at 1. unfold lift at 1.
  destruct (py_get function (lit "arguments") (VDict [])) as [a|]; [discriminate|].
  now injection R as ->.
Qed.

Lemma request_printable_of (tool_call tool_name arguments : value) :
  requested tool_call = Ok (tool_name, arguments) ->
  printable (calling_line tool_name arguments) = true ->
  request_printable tool_call.
Proof. intros R P n a R'. rewrite R in R'. now injection R' as <- <-. Qed.

Lemma request_printable_raise (tool_call : value) (e : exn) :
  requested tool_call = Raise e -> request_printable tool_call.
Proof. intros R n a R'. rewrite R in R'. discriminate. Qed.

Lemma stopped_at_cons (tc : value) (ev : Event) (bad : value) (e : exn)
    (done : list value) (evs : list Event) :
  answers tc ev -> lines_printable ev ->
  stopped_at bad e done evs -> stopped_at bad e (tc :: done) (ev :: evs).
Proof.
  intros A L [(R & F & P) | [(n & a & R & U & E & F & P) |
                             (n & a & e0 & evs0 & R & U & E & F & P & Q & X)]].
  - left. repeat split; [assumption | now constructor | now constructor].
  - right. left. exists n, a. repeat split; try assumption; now constructor.
  - right. right. exists n, a, e0, (ev :: evs0). subst evs.
    repeat split; try assumption; now constructor.
Qed.

(** The whole batch. *)
Lemma for_each_tool_call_spec (items : list value) :
  forall st, exists evs w',
    snd (for_each_tool_call items st) = advance st (flat_map event_turns evs) w' evs /\
    Forall is_call_tool evs /\
    match fst (for_each_tool_call items st) with
    | Ok _ =>
        Forall2 answers items evs /\ Forall lines_printable evs /\
        Forall request_printable items
    | Raise e =>
        exists done bad rest,
          items = done ++ bad :: rest /\ Forall request_printable done /\
          stopped_at bad e done evs
    end.
Proof.
  induction items as [|tc rest IH]; intros st.
  - exists [], (world st). cbn. rewrite advance_nil. repeat constructor.
  - cbn [for_each_tool_call]. unfold bind.
    destruct (requested tc) as [[n a]|e] eqn:R.
    + rewrite (execute_tool_call_ok _ _ _ _ R). cbv zeta.
      set (ret := fst (call_tool (mcp (self st)) n a (world st))).
      set (w1 := snd (call_tool (mcp (self st)) n a (world st))).
      destruct (printable (calling_line n a)) eqn:P.
      2:{ exists [], (world st). cbn [fst snd flat_map]. rewrite advance_nil.
          split; [reflexivity|]. split; [constructor|].
          exists [], tc, rest. split; [reflexivity|]. split; [constructor|].
          right. left. exists n, a. repeat split; try assumption; constructor. }
      set (st1 := advance st (event_turns (EvCallTool n a ret)) w1 [EvCallTool n a ret]).
      assert (A : answers tc (EvCallTool n a ret)) by now exists n, a, ret.
      assert (RP : request_printable tc) by (eapply request_printable_of; eassumption).
      destruct ret as [v|e0] eqn:Eret.
      * destruct (IH st1) as (evs & w' & S & F & C).
        exists (EvCallTool n a (Ok v) :: evs), w'.
        split; [|split].
        -- rewrite S. subst st1. now rewrite advance_advance.
        -- constructor; [exact I | assumption].
        -- destruct (fst (for_each_tool_call rest st1)) as [u|e].
           ++ destruct C as (C1 & C2 & C3). repeat split; now constructor.
           ++ destruct C as (done & bad & rest' & -> & B & C).
              exists (tc :: done), bad, rest'. split; [reflexivity|].
              split; [now constructor|]. apply stopped_at_cons; [assumption | exact I | assumption].
      * destruct (printable (error_line e0)) eqn:Q.
        -- destruct (IH st1) as (evs & w' & S & F & C).
           exists (EvCallTool n a (Raise e0) :: evs), w'.
           split; [|split].
           ++ rewrite S. subst st1. now rewrite advance_advance.
           ++ constructor; [exact I | assumption].
           ++ destruct (fst (for_each_tool_call rest st1)) as [u|e].
              ** destruct C as (C1 & C2 & C3). repeat split; now constructor.
              ** destruct C as (done & bad & rest' & -> & B & C).
                 exists (tc :: done), bad, rest'. split; [reflexivity|].
                 split; [now constructor|].
                 apply stopped_at_cons; [assumption | exact Q | assumption].
        -- exists [EvCallTool n a (Raise e0)], w1. cbn [fst snd flat_map app].
           split; [subst st1; now rewrite app_nil_r|].
           split; [repeat constructor|].
           exists [], tc, rest. split; [reflexivity|]. split; [constructor|].
           right. right. exists n, a, e0, []. repeat split; try assumption; constructor.
    + rewrite (execute_tool_call_raise _ _ _ R). cbn [fst snd].
      exists [], (world st). rewrite advance_nil.
      repeat split; [constructor|].
      exists [], tc, rest. split; [reflexivity|]. split; [constructor|].
      left. repeat split; [assumption | constructor | constructor].
Qed.
(** ** Dispatching a batch *)

Lemma request_printable_test (items : list value) :
  forallb request_printable_b items = true -> Forall request_printable items.
Proof.
  intros T. apply Forall_forall. intros tc D n a R.
  rewrite forallb_forall in T. specialize (T tc D).
  unfold request_printable_b in T. now rewrite R in T.
Qed.

Lemma lines_printable_test (evs : list Event) :
  forallb lines_printable_b evs = true -> Forall lines_printable evs.
Proof.
  intros T. apply Forall_forall. intros ev D.
  rewrite forallb_forall in T. specialize (T ev D).
  destruct ev as [n|m t [response|e]|n a [v|e]]; cbn in *; try exact I; try exact T.
  intros calls items RT PI. rewrite RT, PI in T. now apply request_printable_test.
Qed.





(** ** One pass of the loop *)

Lemma advance_journalled (st : State) (w0 : World) evs0 turns w evs :
  advance {| self := self st; world := w0; journal := journal st ++ evs0 |} turns w evs =
  advance st turns w (evs0 ++ evs).
Proof. unfold advance, history. cbn. now rewrite app_assoc. Qed.

Lemma truthy_items_nonempty (calls : value) (items : list value) :
  truthy calls = true -> py_iter calls = Ok items -> items <> [].
Proof.
  destruct calls as [| | | |s|l|d]; cbn; try discriminate.
  - destruct s; [discriminate|]. intros _ [= <-]. discriminate.
  - destruct l; [discriminate|]. intros _ [= <-]. discriminate.
  - destruct d; [discriminate|]. intros _ [= <-]. discriminate.
Qed.

Lemma event_turns_printed (tool_name arguments : value) (ret : result value) :
  lines_printable (EvCallTool tool_name arguments ret) ->
  event_turns (EvCallTool tool_name arguments ret) = [tool_turn (turn_content ret)].
Proof. destruct ret as [v|e]; cbn; [reflexivity|]. now intros ->. Qed.

Lemma calls_end_with_tool_turn (evs : list Event) :
  evs <> [] -> Forall is_call_tool evs -> Forall lines_printable evs ->
  ends_with_tool_turn evs (flat_map event_turns evs).
Proof.
  intros E F P.
  destruct (exists_last E) as (evs0 & ev & ->).
  apply Forall_app in F as [_ F]. apply Forall_app in P as [_ P].
  inversion F as [|? ? Fe _]; subst. inversion P as [|? ? Pe _]; subst.
  destruct ev as [n|m t r|n a r]; try contradiction.
  exists evs0, n, a, r, (flat_map event_turns evs0).
  split; [reflexivity|]. rewrite flat_map_app. cbn [flat_map].
  now rewrite (event_turns_printed _ _ _ Pe), app_nil_r.
Qed.

Lemma requested_raises_attribute_error (tool_call : value) (e : exn) :
  requested tool_call = Raise e -> exists msg, e = AttributeError msg.
Proof.
  unfold requested, py_get. intros H.
  destruct tool_call; try (injection H as <-; eexists; reflexivity).
  destruct (match dict_get entries (lit "function") with Some x => x | None => VDict [] end);
    try (injection H as <-; eexists; reflexivity).
  discriminate.
Qed.

Lemma event_turns_tool_roles (evs : list Event) :
  Forall (fun t => role t = Tool) (flat_map event_turns evs).
Proof.
  induction evs as [|ev evs IH]; cbn [flat_map]; [constructor|].
  apply Forall_app. split; [|exact IH].
  destruct ev as [n|m t r|n a [v|e]]; cbn [event_turns]; try (repeat constructor; fail).
  destruct (printable (error_line e)); repeat constructor.
Qed.

Lemma well_formed_request_batch (response : value) :
  requests_well_formed_tools (Ok response) -> well_formed_response response.
Proof.
  intros (x & calls & items & [= <-] & RT & T & PI & W).
  unfold response_tool_calls in RT. unfold well_formed_response, response_content.
  destruct (py_get response (lit "message") (VDict [])) as [message|] eqn:Em; [|discriminate].
  destruct message; try discriminate.
  eexists _, calls. split; [reflexivity|]. split; [|right; now exists items].
  unfold response_tool_calls. now rewrite Em.
Qed.

(** What a batch that stopped says about the response that asked for it. *)
Lemma stopped_batch (response calls : value) (items done rest : list value) (bad : value)
    (e : exn) (tevs : list Event) :
  response_tool_calls response = Ok calls -> truthy calls = true ->
  py_iter calls = Ok items -> items = done ++ bad :: rest ->
  stopped_at bad e done tevs ->
  raised_because e (Ok response) tevs.
Proof.
  intros RT T PI -> [(B & _) | [(n & a & R & U & -> & _) |
                                (n & a & e0 & evs0 & R & U & -> & _ & _ & Q & ->)]].
  - pose proof B as B'. apply requested_raises_attribute_error in B' as [msg ->].
    exists response. split; [reflexivity|].
    intros (content & c & _ & D & [F | (i & I & W)]).
    + congruence.
    + assert (c = calls) as -> by congruence.
      assert (i = done ++ bad :: rest) as -> by congruence.
      rewrite Forall_forall in W.
      destruct (W bad) as (n & a & R); [apply in_elt|]. congruence.
  - exists response, (calling_line n a). split; [reflexivity|].
    split; [now exists response, calls|]. split; [|reflexivity].
    split; [exact U|]. left.
    exists response, calls, (done ++ bad :: rest), bad, n, a.
    repeat split; try assumption. apply in_elt.
  - exists response, (error_line e0). split; [reflexivity|].
    split; [now exists response, calls|]. split; [|reflexivity].
    split; [exact Q|]. right. exists n, a, e0. split; [|reflexivity].
    apply in_or_app. right. now left.
Qed.

Lemma loop_body_cases (iteration : nat) (ollama_tools : option (list value)) (st : State)
    (r : result (option value)) (st' : State) :
  loop_body iteration ollama_tools st = (r, st') ->
  exists answer tevs turns w',
    st' = advance st turns w'
            (EvIteration iteration :: EvChat (history st) ollama_tools answer :: tevs) /\
    Forall is_call_tool tevs /\
    pass_shape answer r tevs turns.
Proof.
  intros H. unfold loop_body in H.
  unfold bind at 1 in H. unfold record in H.
  set (st0 := {| self := self st; world := world st;
                 journal := journal st ++ [EvIteration iteration] |}) in H.
  unfold bind at 1 in H. unfold try_except in H. rewrite llm_chat_spec in H.
  change (self st0) with (self st) in H. change (world st0) with (world st) in H.
  change (history st0) with (history st) in H.
  set (answer := fst (chat (llm (self st)) (history st) ollama_tools (world st))) in H.
  set (w1 := snd (chat (llm (self st)) (history st) ollama_tools (world st))) in H.
  subst st0. rewrite advance_journalled in H. cbn [app] in H.
  exists answer.
  assert (Malformed : forall e response,
             answer = Ok response -> ~ well_formed_response response ->
             (exists msg, e = AttributeError msg \/ e = TypeError msg) ->
             exists tevs turns w',
               advance st [] w1 [EvIteration iteration; EvChat (history st) ollama_tools answer] =
               advance st turns w'
                 (EvIteration iteration :: EvChat (history st) ollama_tools answer :: tevs) /\
               Forall is_call_tool tevs /\
               pass_shape answer (Raise e) tevs turns).
  { intros e response A N (msg & D). exists [], [], w1.
    split; [reflexivity|]. split; [constructor|]. left.
    exists e. split; [reflexivity|]. split; [|now left].
    destruct D as [-> | ->]; now exists response. }
  destruct answer as [response|e] eqn:Eret.
  2:{ cbn [raise] in H. injection H as <- <-. exists [], [], w1.
      split; [reflexivity|]. split; [constructor|]. left.
      eexists. split; [reflexivity|]. split; [|now left].
      repeat split. now exists e. }
  unfold bind at 1 in H. unfold lift at 1 in H.
  destruct (py_get response (lit "message") (VDict [])) as [message|e] eqn:Em.
  2:{ injection H as <- <-.
      assert (N : ~ well_formed_response response).
      { intros (c & k & D & _). unfold response_content in D.
        rewrite Em in D. discriminate. }
      destruct response; try discriminate;
        (injection Em as <-; eapply Malformed;
         [reflexivity | exact N | eexists; left; reflexivity]). }
  unfold bind at 1 in H. unfold lift at 1 in H.
  destruct (py_get message (lit "content") (VStr [])) as [content|e] eqn:Ec.
  2:{ injection H as <- <-.
      assert (N : ~ well_formed_response response).
      { intros (c & k & D & _). unfold response_content in D.
        rewrite Em in D. congruence. }
      destruct message; try discriminate;
        (injection Ec as <-; eapply Malformed;
         [reflexivity | exact N | eexists; left; reflexivity]). }
  unfold bind at 1 in H. unfold lift at 1 in H.
  destruct (py_get message (lit "tool_calls") (VList [])) as [calls|e] eqn:Et.
  2:{ injection H as <- <-.
      assert (N : ~ well_formed_response response).
      { intros (c & k & _ & D & _). unfold response_tool_calls in D.
        rewrite Em in D. congruence. }
      destruct message; try discriminate;
        (injection Et as <-; eapply Malformed;
         [reflexivity | exact N | eexists; left; reflexivity]). }
  assert (RT : response_tool_calls response = Ok calls)
    by (unfold response_tool_calls; now rewrite Em).
  assert (RC : response_content response = Ok content)
    by (unfold response_content; now rewrite Em).
  destruct (truthy calls) eqn:T; cbn [negb] in H.
  - assert (NW : py_iter calls = Raise (TypeError (lit "'" ++ type_name calls ++
                                                   lit "' object is not iterable")) ->
                 ~ well_formed_response response).
    { intros PI (c & k & _ & D & [F | (i & I & _)]).
      - congruence.
      - assert (k = calls) as -> by congruence. congruence. }
    unfold bind at 1 in H. unfold lift at 1 in H.
    destruct (py_len calls) as [k|e] eqn:El.
    2:{ injection H as <- <-.
        destruct calls; try discriminate;
          (injection El as <-; eapply Malformed;
           [reflexivity | apply NW; reflexivity | eexists; right; reflexivity]). }
    unfold bind at 1 in H. rewrite print_ok in H by apply printable_detected.
    unfold bind at 1 in H. rewrite append_spec, advance_advance in H.
    cbn [app] in H.
    set (st2 := advance st _ _ _) in H.
    assert (RQ : requests_tools (Ok response)) by now exists response, calls.
    unfold bind at 1 in H. unfold lift at 1 in H.
    destruct (py_iter calls) as [items|e] eqn:Ei.
    2:{ destruct calls; discriminate. }
    unfold bind at 1 in H.
    destruct (for_each_tool_call_spec items st2) as (tevs & w' & S & F & C).
    destruct (for_each_tool_call items st2) as [[[]|e] st3] eqn:Ef; cbn [fst snd] in *.
    + unfold ret in H. injection H as <- <-. subst st3 st2. rewrite advance_advance.
      exists tevs, (assistant_turn content (Some calls) :: flat_map event_turns tevs), w'.
      split; [reflexivity|]. split; [assumption|]. right. right.
      exists response, content, calls. repeat split; try assumption.
      * pose proof (truthy_items_nonempty _ _ T Ei) as NE.
        destruct C as (C & _). destruct C; [contradiction | discriminate].
      * now destruct C as (_ & P & _).
    + injection H as <- <-. subst st3 st2. rewrite advance_advance.
      exists tevs, (assistant_turn content (Some calls) :: flat_map event_turns tevs), w'.
      split; [reflexivity|]. split; [assumption|]. left.
      exists e. split; [reflexivity|].
      destruct C as (done & bad & rest & Ei' & _ & B).
      split; [eapply stopped_batch; eassumption|].
      right. now exists response, content, calls.
  - unfold bind at 1 in H. rewrite append_spec, advance_advance in H.
    unfold ret in H. injection H as <- <-. cbn [app].
    exists [], [assistant_turn content None], w1.
    split; [reflexivity|]. split; [constructor|]. right. left.
    exists response, content. repeat split; [|exact RC].
    intros (response' & calls' & [= <-] & RT' & T'). congruence.
Qed.

(** A line that cannot be printed shows in the journal of the pass. *)
Lemma unprintable_line_in_journal (answer : result value) (tevs : list Event) (line : str)
    (messages : list Turn) (ollama_tools : option (list value)) :
  unprintable_line_of answer tevs line ->
  ~ Forall lines_printable (EvChat messages ollama_tools answer :: tevs).
Proof.
  intros (U & [(response & calls & items & tc & n & a & -> & RT & PI & D & R & ->) |
               (n & a & e & D & ->)]) L.
  - inversion L as [|? ? Lc _]; subst. cbn [lines_printable] in Lc.
    specialize (Lc calls items RT PI). rewrite Forall_forall in Lc.
    specialize (Lc tc D n a R). congruence.
  - inversion L as [|? ? _ Lt]; subst. rewrite Forall_forall in Lt.
    specialize (Lt _ D). cbn [lines_printable] in Lt. congruence.
Qed.

Lemma loop_body_spec (iteration : nat) (ollama_tools : option (list value)) (st : State)
    (r : result (option value)) (st' : State) :
  loop_body iteration ollama_tools st = (r, st') ->
  exists ret tevs turns w',
    st' = advance st turns w'
            (EvIteration iteration :: EvChat (history st) ollama_tools ret :: tevs) /\
    Forall is_call_tool tevs /\
    match r with
    | Ok (Some content) =>
        ~ requests_tools ret /\ (exists response, ret = Ok response) /\ tevs = [] /\
        turns = [{| role := Assistant; content := content; tool_calls := None |}]
    | Ok None =>
        requests_tools ret /\ ends_with_tool_turn tevs turns
    | Raise e =>
        (forall e', ret = Raise e' ->
           e = RuntimeError ollama_unreachable_message /\ tevs = [] /\ turns = []) /\
        (~ requests_well_formed_tools ret \/
         ~ Forall lines_printable (EvChat (history st) ollama_tools ret :: tevs))
    end.
Proof.
  intros H. apply loop_body_cases in H as (answer & tevs & turns & w' & -> & F & Sh).
  exists answer, tevs, turns, w'. split; [reflexivity|]. split; [exact F|].
  destruct Sh as [(e & -> & Why & Where) | [(response & content & -> & NR & -> & _ & -> & ->) |
                  (response & content & calls & -> & RQ & -> & -> & NE & P)]].
  - assert (Early : forall e', answer = Raise e' -> turns = [] /\ tevs = []).
    { intros e' ->. destruct Where as [W | (x & c & k & D & _)]; [exact W | discriminate]. }
    destruct e as [msg|key|msg|msg|msg|msg|msg]; cbn [raised_because] in Why;
      try contradiction.
    + destruct Why as (-> & -> & e' & ->). split.
      * intros e0 _. destruct (Early _ eq_refl) as [-> _]. repeat split.
      * left. intros (x & c & i & D & _). discriminate.
    + destruct Why as (response & -> & N). split; [discriminate|].
      left. intros W. now apply N, well_formed_request_batch.
    + destruct Why as (response & -> & N). split; [discriminate|].
      left. intros W. now apply N, well_formed_request_batch.
    + destruct Why as (response & line & -> & _ & U & ->). split; [discriminate|].
      right. eapply unprintable_line_in_journal, U.
  - repeat split; [exact NR | now exists response].
  - split; [exact RQ|].
    destruct (calls_end_with_tool_turn tevs NE F P) as (evs0 & n & a & x & turns0 & -> & E).
    exists evs0, n, a, x, (assistant_turn content (Some calls) :: turns0).
    split; [reflexivity|]. rewrite E. reflexivity.
Qed.

(** ** The bounded loop *)

Lemma chat_count_app (a b : list Event) : chat_count (a ++ b) = (chat_count a + chat_count b)%nat.
Proof. unfold chat_count. now rewrite filter_app, length_app. Qed.

Lemma iterations_app (a b : list Event) : iterations (a ++ b) = iterations a ++ iterations b.
Proof. unfold iterations. apply flat_map_app. Qed.

Lemma calls_have_no_chat (evs : list Event) :
  Forall is_call_tool evs ->
  chat_count evs = 0%nat /\ iterations evs = [] /\
  forall messages ollama_tools ret, ~ In (EvChat messages ollama_tools ret) evs.
Proof.
  induction 1 as [|ev evs C _ (IH1 & IH2 & IH3)].
  - repeat split. intros ? ? ? [].
  - destruct ev; try contradiction.
    repeat split; [exact IH1 | exact IH2 |].
    intros m t r [D|D]; [discriminate | now apply IH3 in D].
Qed.

Lemma ends_with_tool_turn_app (evs0 evs : list Event) (turns0 turns : list Turn) :
  ends_with_tool_turn evs turns -> ends_with_tool_turn (evs0 ++ evs) (turns0 ++ turns).
Proof.
  intros (e & n & a & r & t & -> & ->).
  exists (evs0 ++ e), n, a, r, (turns0 ++ t). now rewrite !app_assoc.
Qed.


Lemma while_loop_spec (remaining : nat) :
  forall iteration ollama_tools st r st',
    while_loop remaining iteration ollama_tools st = (r, st') ->
    exists evs turns w',
      st' = advance st turns w' evs /\
      (remaining = 0%nat -> evs = [] /\ turns = []) /\
      (chat_count evs <= remaining)%nat /\
      iterations evs = seq (S iteration) (chat_count evs) /\
      (forall v, r = Ok v -> every_chat_requests_tools evs ->
         v = VStr exhausted_message /\ chat_count evs = remaining /\
         (remaining <> 0%nat -> ends_with_tool_turn evs turns)) /\
      (every_chat_requests_well_formed_tools evs -> Forall lines_printable evs ->
       r = Ok (VStr exhausted_message)) /\
      (forall messages tl e, In (EvChat messages tl (Raise e)) evs ->
         r = Raise (RuntimeError ollama_unreachable_message) /\
         history st' = messages /\
         exists evs0, evs = evs0 ++ [EvChat messages tl (Raise e)]).
Proof.
  induction remaining as [|n IH]; intros iteration ollama_tools st r st' H.
  - cbn [while_loop] in H. unfold ret in H. injection H as <- <-.
    exists [], [], (world st). rewrite advance_nil.
    split; [reflexivity|]. split; [now split|]. split; [cbn; lia|].
    split; [reflexivity|]. split.
    + intros v [= <-] _. repeat split. intros N. now elim N.
    + split; [reflexivity|]. intros m t e [].
  - cbn [while_loop] in H. unfold bind at 1 in H.
    destruct (loop_body (S iteration) ollama_tools st) as [rb stb] eqn:B.
    apply loop_body_spec in B as (answer & tevs & turns_b & wb & -> & F & C).
    destruct (calls_have_no_chat tevs F) as (K1 & K2 & K3).
    set (body := EvIteration (S iteration) :: EvChat (history st) ollama_tools answer :: tevs)
      in *.
    assert (KC : chat_count body = 1%nat) by (subst body; unfold chat_count in *; cbn; now rewrite K1).
    assert (KI : iterations body = [S iteration]) by (subst body; unfold iterations in *; cbn; now rewrite K2).
    assert (KE : forall messages tl ret, In (EvChat messages tl ret) body ->
                   messages = history st /\ tl = ollama_tools /\ ret = answer).
    { intros m t x [D|[D|D]]; [discriminate | now injection D as <- <- <- | now apply K3 in D]. }
    destruct rb as [[content|]|e].
    + (* the final answer *)
      unfold ret in H. injection H as <- <-.
      destruct C as (NR & (response & ->) & -> & ->).
      eexists body, _, wb. split; [reflexivity|].
      split; [discriminate|]. split; [lia|]. split; [now rewrite KI, KC|]. split.
      * intros v _ A. exfalso. apply NR. eapply A. right. left. reflexivity.
      * split.
        -- intros A _. exfalso. apply NR.
           destruct (A (history st) ollama_tools (Ok response)) as (x & c & i & X & Y & Z & _);
             [right; left; reflexivity|].
           now exists x, c.
        -- intros m t e D. apply KE in D as (_ & _ & D). discriminate.
    + (* tools were called: next test of the loop condition *)
      destruct C as (RT & EW).
      apply IH in H as (evs2 & turns2 & w2 & -> & Z & LE & IT & EX & WF & FC).
      rewrite advance_advance.
      exists (body ++ evs2), (turns_b ++ turns2), w2. split; [reflexivity|].
      split; [discriminate|].
      rewrite chat_count_app, iterations_app, KC, KI, IT.
      split; [lia|]. split; [reflexivity|]. split.
      * intros v E A.
        destruct (EX v E) as (V & CC & EN).
        { intros m t x D. eapply A, in_or_app. right. exact D. }
        split; [exact V|]. split; [lia|]. intros _.
        destruct n as [|n].
        -- destruct (Z eq_refl) as [-> ->]. rewrite !app_nil_r.
           subst body.
           change (EvIteration (S iteration) :: EvChat (history st) ollama_tools answer :: tevs)
             with ([EvIteration (S iteration); EvChat (history st) ollama_tools answer] ++ tevs).
           rewrite <- (app_nil_l turns_b). now apply ends_with_tool_turn_app.
        -- apply ends_with_tool_turn_app, EN. discriminate.
      * split.
        { intros A L. apply WF; [intros m t x D; eapply A, in_or_app; right; exact D|].
          now apply Forall_app in L as [_ L]. }
        intros m t e D. apply in_app_or in D as [D|D].
        -- exfalso. apply KE in D as (_ & _ & D). destruct RT as (resp & calls & RT & _). congruence.
        -- destruct (FC m t e D) as (R & Hh & evs0 & ->).
           split; [exact R|]. split.
           ++ rewrite <- Hh. unfold advance, history. cbn. now rewrite app_assoc.
           ++ exists (body ++ evs0). now rewrite app_assoc.
    + (* an exception leaves the loop *)
      injection H as <- <-.
      exists body, turns_b, wb. split; [reflexivity|].
      split; [discriminate|]. split; [lia|]. split; [now rewrite KI, KC|]. split.
      * discriminate.
      * destruct C as (C & NW). split.
        { intros A L. exfalso. destruct NW as [NW|NW].
          - apply NW. eapply A. right. left. reflexivity.
          - apply NW. subst body. now inversion L. }
        intros m t e' D. apply KE in D as (-> & -> & <-).
        destruct (C e' eq_refl) as (-> & -> & ->).
        split; [reflexivity|]. split.
        -- unfold advance, history. cbn. now rewrite app_nil_r.
        -- subst body. now exists [EvIteration (S iteration)].
Qed.

(** ** A whole query *)

Lemma process_query_spec (user_input : str) (st : State) (r : result value) (st' : State) :
  process_query user_input st = (r, st') ->
  exists evs turns w',
    st' = advance st (user_turn user_input :: turns) w' evs /\
    (chat_count evs <= max_iterations)%nat /\
    iterations evs = seq 1 (chat_count evs) /\
    (forall v, r = Ok v -> every_chat_requests_tools evs ->
       v = VStr exhausted_message /\ chat_count evs = max_iterations /\
       ends_with_tool_turn evs turns) /\
    (chat_count evs = max_iterations -> every_chat_requests_well_formed_tools evs ->
       Forall lines_printable evs -> r = Ok (VStr exhausted_message)) /\
    (forall messages tl e, In (EvChat messages tl (Raise e)) evs ->
       r = Raise (RuntimeError ollama_unreachable_message) /\
       history st' = messages /\
       exists evs0, evs = evs0 ++ [EvChat messages tl (Raise e)]).
Proof.
  unfold process_query. intros H.
  unfold bind at 1 in H. rewrite append_spec in H.
  set (st1 := advance st _ _ _) in H.
  unfold bind at 1 in H.
  destruct (prepare_tools st1) as [[ollama_tools|e] st2] eqn:P.
  - assert (st2 = st1) as ->.
    { unfold prepare_tools in P. destruct (tools (self st1)); [now injection P|].
      destruct (convert_mcp_tools_to_ollama_format _); now injection P. }
    apply while_loop_spec in H as (evs & turns & w' & -> & _ & LE & IT & EX & WF & FC).
    subst st1. rewrite advance_advance. cbn [app].
    exists evs, turns, w'. split; [reflexivity|].
    split; [exact LE|]. split; [exact IT|]. split.
    + intros v E A. destruct (EX v E A) as (V & C & EN).
      repeat split; [exact V | exact C |]. apply EN. discriminate.
    + split; [intros _; exact WF|]. intros m t e D. destruct (FC m t e D) as (R & Hh & Ev).
      repeat split; [exact R | | exact Ev].
      rewrite <- Hh. unfold advance, history. cbn. now rewrite <- app_assoc.
  - injection H as <- <-.
    assert (st2 = st1) as ->.
    { unfold prepare_tools in P. destruct (tools (self st1)); [discriminate|].
      destruct (convert_mcp_tools_to_ollama_format _); [discriminate | now injection P]. }
    exists [], [], (world st). split; [reflexivity|].
    split; [cbn; lia|]. split; [reflexivity|]. split; [discriminate|].
    split; [discriminate|]. intros m t e' [].
Qed.

Lemma main_loop_cons (line : str) (rest : list str) (st : State) :
  strip line <> [] -> is_exit_command (strip line) = false ->
  main_loop (line :: rest) st =
  (reply (fst (process_query (strip line) st)) ::
     fst (main_loop rest (snd (process_query (strip line) st))),
   snd (main_loop rest (snd (process_query (strip line) st)))).
Proof.
  intros N X. cbn [main_loop].
  destruct (strip line) as [|c q]; [contradiction|]. rewrite X.
  destruct (process_query (c :: q) st) as [r st1]. cbn [fst snd].
  destruct (main_loop rest st1); reflexivity.
Qed.

Lemma main_loop_history (lines : list str) :
  forall st, exists suffix, history (snd (main_loop lines st)) = history st ++ suffix.
Proof.
  induction lines as [|line rest IH]; intros st; cbn [main_loop].
  - exists []. cbn. now rewrite app_nil_r.
  - destruct (strip line) as [|c q]; [apply IH|].
    destruct (is_exit_command (c :: q)); [exists []; cbn; now rewrite app_nil_r|].
    destruct (process_query (c :: q) st) as [r st1] eqn:E.
    apply process_query_spec in E as (evs & turns & w' & -> & _).
    destruct (IH (advance st (user_turn (c :: q) :: turns) w' evs)) as (suffix & S).
    exists ((user_turn (c :: q) :: turns) ++ suffix).
    destruct (main_loop rest _) as [p s2]; cbn [snd] in *;
      rewrite S, history_advance; now rewrite <- app_assoc.
Qed.

(** C5.  Whatever a query comes to (a final answer, the exhaustion message or
    an exception), the history after [process_query] is the history before
    it followed by at least one new turn: earlier turns keep their place and
    their content.  The same holds, with a possibly empty extension, for a
    whole session of [main]. *)
Theorem history_is_append_only (user_input : str) (st : State) :
  (exists suffix,
      suffix <> [] /\
      history (snd (process_query user_input st)) = history st ++ suffix) /\
  (forall lines, exists suffix,
      history (snd (main_loop lines st)) = history st ++ suffix).
Proof.
  split.
  - destruct (process_query user_input st) as [r st'] eqn:E.
    apply process_query_spec in E as (evs & turns & w' & -> & _).
    exists (user_turn user_input :: turns). split; [discriminate | reflexivity].
  - intros lines. apply main_loop_history.
Qed.


(** C6.  When an inference call of a query fails, [process_query] raises at
    once: the failed call is the last thing the query did, the history is
    exactly the transcript that was passed to that call (so no assistant
    turn was appended for it), and this transcript extends the history from
    before the query by the user turn and whatever earlier rounds of the
    query had appended.  [main] reports the error and goes on with the next
    line from that state. *)
Theorem backend_failure_aborts_query_only
    (user_input : str) (st : State) (evs : list Event)
    (messages : list Turn) (ollama_tools : option (list value)) (e : exn) :
  journal (snd (process_query user_input st)) = journal st ++ evs ->
  In (EvChat messages ollama_tools (Raise e)) evs ->
  fst (process_query user_input st) = Raise (RuntimeError ollama_unreachable_message) /\
  history (snd (process_query user_input st)) = messages /\
  (exists earlier, messages = history st ++ user_turn user_input :: earlier) /\
  (exists evs0, evs = evs0 ++ [EvChat messages ollama_tools (Raise e)]) /\
  (forall line rest,
      strip line = user_input -> user_input <> [] -> is_exit_command user_input = false ->
      main_loop (line :: rest) st =
      (ErrorSays ollama_unreachable_message ::
         fst (main_loop rest (snd (process_query user_input st))),
       snd (main_loop rest (snd (process_query user_input st))))).
Proof.
  intros J D.
  destruct (process_query user_input st) as [r st'] eqn:E.
  pose proof E as E0.
  apply process_query_spec in E as (evs' & turns & w' & S & _ & _ & _ & _ & FC).
  cbn [fst snd] in *.
  assert (evs' = evs) as ->.
  { rewrite S in J. cbn [advance journal] in J. now apply app_inv_head in J. }
  destruct (FC _ _ _ D) as (R & Hh & Ev).
  split; [exact R|]. split; [exact Hh|]. split; [|split; [exact Ev|]].
  - exists turns. rewrite <- Hh, S. reflexivity.
  - intros line rest L N X. subst user_input.
    rewrite main_loop_cons by assumption. now rewrite E0, R.
Qed.
(** * Further properties *)

(** ** What the bounded loop appends and journals *)

Lemma rounds_one (turn : Turn) (answers_ rest : list Turn) :
  role turn = Assistant -> Forall (fun t => role t = Tool) answers_ ->
  (answers_ <> [] -> tool_calls turn <> None) -> rounds rest ->
  rounds ((turn :: answers_) ++ rest).
Proof. intros. cbn [app]. now constructor. Qed.

Lemma while_loop_shape (remaining : nat) :
  forall iteration ollama_tools st r st',
    while_loop remaining iteration ollama_tools st = (r, st') ->
    exists evs turns w',
      st' = advance st turns w' evs /\
      rounds turns /\
      (forall messages tl answer, In (EvChat messages tl answer) evs ->
         tl = ollama_tools /\
         exists before after, messages = history st ++ before /\ turns = before ++ after) /\
      (forall messages tl answer, In (EvChat messages tl answer) evs ->
         ~ requests_tools answer ->
         exists evs0, evs = evs0 ++ [EvChat messages tl answer]) /\
      (forall e, r = Raise e ->
         exists evs0 messages tl answer tevs,
           evs = evs0 ++ EvChat messages tl answer :: tevs /\
           Forall is_call_tool tevs /\ raised_because e answer tevs) /\
      (forall v, r = Ok v ->
         (exists evs0 messages tl response turns0,
            evs = evs0 ++ [EvChat messages tl (Ok response)] /\
            ~ requests_tools (Ok response) /\
            response_content response = Ok v /\
            turns = turns0 ++ [assistant_turn v None]) \/
         (v = VStr exhausted_message /\ chat_count evs = remaining /\
          every_chat_requests_tools evs)).
Proof.
  induction remaining as [|n IH]; intros iteration ollama_tools st r st' H.
  - cbn [while_loop] in H. unfold ret in H. injection H as <- <-.
    exists [], [], (world st). rewrite advance_nil.
    split; [reflexivity|]. split; [constructor|].
    split; [intros m t a []|]. split; [intros m t a []|].
    split; [discriminate|].
    intros v [= <-]. right. repeat split. intros m t a [].
  - cbn [while_loop] in H. unfold bind at 1 in H.
    destruct (loop_body (S iteration) ollama_tools st) as [rb stb] eqn:B.
    apply loop_body_cases in B as (answer & tevs & turns_b & wb & -> & F & Sh).
    destruct (calls_have_no_chat tevs F) as (K1 & K2 & K3).
    set (body := EvIteration (S iteration) :: EvChat (history st) ollama_tools answer :: tevs)
      in *.
    assert (KC : chat_count body = 1%nat)
      by (subst body; unfold chat_count in *; cbn; now rewrite K1).
    assert (KE : forall messages tl a, In (EvChat messages tl a) body ->
                   messages = history st /\ tl = ollama_tools /\ a = answer).
    { intros m t x [D|[D|D]];
        [discriminate | now injection D as <- <- <- | now apply K3 in D]. }
    assert (Roles := event_turns_tool_roles tevs).
    destruct Sh as [(e & -> & Why & Where) |
                    [(response & content & -> & NR & -> & RC & -> & ->) |
                     (response & content & calls & -> & RQ & -> & -> & NE & P)]].
    + (* the pass raised *)
      injection H as <- <-.
      exists body, turns_b, wb. split; [reflexivity|].
      assert (NT : ~ requests_tools answer -> turns_b = [] /\ tevs = []).
      { intros N. destruct Where as [W | (x & c & k & _ & RQ & _)]; [exact W | contradiction]. }
      split.
      { destruct Where as [(-> & _) | (x & c & k & _ & _ & ->)]; [constructor|].
        rewrite <- (app_nil_r (flat_map event_turns tevs)).
        constructor; [reflexivity | exact Roles | discriminate | constructor]. }
      split; [|split; [|split]].
      * intros m t a D. apply KE in D as (-> & -> & _).
        split; [reflexivity|]. exists [], turns_b. now rewrite app_nil_r.
      * intros m t a D N. apply KE in D as (-> & -> & ->).
        destruct (NT N) as (_ & ->). now exists [EvIteration (S iteration)].
      * intros e0 [= <-].
        now exists [EvIteration (S iteration)], (history st), ollama_tools, answer, tevs.
      * discriminate.
    + (* the final answer *)
      unfold ret in H. injection H as <- <-.
      exists body, [assistant_turn content None], wb. split; [reflexivity|].
      split; [apply (rounds_cons _ [] []); [reflexivity | constructor | congruence | constructor]|].
      split; [|split; [|split]].
      * intros m t a D. apply KE in D as (-> & -> & _).
        split; [reflexivity|]. exists [], [assistant_turn content None]. now rewrite app_nil_r.
      * intros m t a D _. apply KE in D as (-> & -> & ->).
        now exists [EvIteration (S iteration)].
      * discriminate.
      * intros v [= <-]. left.
        now exists [EvIteration (S iteration)], (history st), ollama_tools, response, [].
    + (* a batch dispatched to the end: next test of the loop condition *)
      set (first := assistant_turn content (Some calls)) in *.
      apply IH in H as (evs2 & turns2 & w2 & -> & G & Sn & Fi & Ex & Re).
      rewrite advance_advance.
      exists (body ++ evs2), ((first :: flat_map event_turns tevs) ++ turns2), w2.
      split; [reflexivity|].
      split; [apply rounds_one; [reflexivity | exact Roles | discriminate | exact G]|].
      split; [|split; [|split]].
      * intros m t a D. apply in_app_or in D as [D|D].
        -- apply KE in D as (-> & -> & _). split; [reflexivity|].
           exists [], ((first :: flat_map event_turns tevs) ++ turns2). now rewrite app_nil_r.
        -- destruct (Sn m t a D) as (-> & before & after & -> & ->).
           split; [reflexivity|].
           exists ((first :: flat_map event_turns tevs) ++ before), after.
           rewrite history_advance. now rewrite !app_assoc.
      * intros m t a D N. apply in_app_or in D as [D|D].
        -- apply KE in D as (_ & _ & ->). contradiction.
        -- destruct (Fi m t a D N) as (evs0 & ->).
           exists (body ++ evs0). now rewrite app_assoc.
      * intros e E. destruct (Ex e E) as (evs0 & m & t & a & tv & -> & Fc & Why).
        exists (body ++ evs0), m, t, a, tv. now rewrite app_assoc.
      * intros v E. destruct (Re v E) as [(evs0 & m & t & resp & turns0 & -> & N & Rc & ->) |
                                          (-> & C & A)].
        -- left. exists (body ++ evs0), m, t, resp,
             ((first :: flat_map event_turns tevs) ++ turns0).
           now rewrite !app_assoc.
        -- right. split; [reflexivity|]. split; [rewrite chat_count_app, KC, C; reflexivity|].
           intros m t a D. apply in_app_or in D as [D|D].
           ++ apply KE in D as (_ & _ & ->). exact RQ.
           ++ eapply A, D.
Qed.

(** ** What a whole query appends and journals *)

Lemma prepare_tools_spec (st : State) : prepare_tools st = (fst (prepare_tools st), st).
Proof.
  unfold prepare_tools. destruct (tools (self st)); [reflexivity|].
  destruct (convert_mcp_tools_to_ollama_format _); reflexivity.
Qed.

Lemma prepare_tools_cases (st : State) :
  match fst (prepare_tools st) with
  | Ok None => tools (self st) = []
  | Ok (Some ollama_tools) =>
      tools (self st) <> [] /\
      convert_mcp_tools_to_ollama_format (tools (self st)) = Ok ollama_tools
  | Raise e =>
      tools (self st) <> [] /\
      convert_mcp_tools_to_ollama_format (tools (self st)) = Raise e
  end.
Proof.
  unfold prepare_tools. destruct (tools (self st)) as [|t l] eqn:E; [reflexivity|].
  destruct (convert_mcp_tools_to_ollama_format (t :: l)); cbn [fst]; split;
    (discriminate || reflexivity).
Qed.

Lemma prepare_tools_advance (st : State) turns w evs :
  fst (prepare_tools (advance st turns w evs)) = fst (prepare_tools st).
Proof.
  unfold prepare_tools. cbn [advance self tools].
  destruct (tools (self st)); [reflexivity|].
  destruct (convert_mcp_tools_to_ollama_format _); reflexivity.
Qed.

Lemma process_query_shape (user_input : str) (st : State) (r : result value) (st' : State) :
  process_query user_input st = (r, st') ->
  (exists e, fst (prepare_tools st) = Raise e /\ r = Raise e /\
             st' = advance st [user_turn user_input] (world st) []) \/
  (exists ollama_tools evs turns w',
      fst (prepare_tools st) = Ok ollama_tools /\
      st' = advance st (user_turn user_input :: turns) w' evs /\
      rounds turns /\
      (forall messages tl answer, In (EvChat messages tl answer) evs ->
         tl = ollama_tools /\
         exists before after,
           messages = history st ++ user_turn user_input :: before /\
           turns = before ++ after) /\
      (forall messages tl answer, In (EvChat messages tl answer) evs ->
         ~ requests_tools answer ->
         exists evs0, evs = evs0 ++ [EvChat messages tl answer]) /\
      (forall e, r = Raise e ->
         exists evs0 messages tl answer tevs,
           evs = evs0 ++ EvChat messages tl answer :: tevs /\
           Forall is_call_tool tevs /\ raised_because e answer tevs) /\
      (forall v, r = Ok v ->
         (exists evs0 messages tl response turns0,
            evs = evs0 ++ [EvChat messages tl (Ok response)] /\
            ~ requests_tools (Ok response) /\
            response_content response = Ok v /\
            turns = turns0 ++ [assistant_turn v None]) \/
         (v = VStr exhausted_message /\ chat_count evs = max_iterations /\
          every_chat_requests_tools evs))).
Proof.
  unfold process_query. intros H.
  unfold bind at 1 in H. rewrite append_spec in H.
  set (st1 := advance st _ _ _) in H.
  unfold bind at 1 in H. rewrite prepare_tools_spec in H.
  subst st1. rewrite prepare_tools_advance in H.
  set (st1 := advance st _ _ _) in H.
  destruct (fst (prepare_tools st)) as [ollama_tools|e] eqn:P.
  - right.
    apply while_loop_shape in H as (evs & turns & w' & -> & G & Sn & Fi & Ex & Re).
    subst st1. rewrite advance_advance. cbn [app].
    exists ollama_tools, evs, turns, w'.
    split; [reflexivity|]. split; [reflexivity|]. split; [exact G|].
    split; [|split; [exact Fi | split; [exact Ex | exact Re]]].
    intros m t a D. destruct (Sn m t a D) as (-> & before & after & -> & ->).
    split; [reflexivity|]. exists before, after. rewrite history_advance.
    now rewrite <- app_assoc.
  - left. injection H as <- <-. now exists e.
Qed.

Lemma rounds_have_no_user_turn (turns : list Turn) :
  rounds turns -> Forall (fun t => role t <> User) turns.
Proof.
  induction 1 as [|turn answers_ rest A T _ _ IH]; [constructor|].
  constructor; [congruence|]. apply Forall_app. split; [|exact IH].
  eapply Forall_impl; [|exact T]. cbn. congruence.
Qed.

(** X1.  A query appends the user turn and then whole rounds: each round is
    one assistant turn followed by the tool turns of its batch, so a tool turn
    never comes without an assistant turn that carries tool calls before it,
    and no second user turn is appended. *)
Theorem query_appends_user_turn_then_rounds (user_input : str) (st : State) :
  exists turns,
    history (snd (process_query user_input st)) =
      history st ++ user_turn user_input :: turns /\
    rounds turns /\
    Forall (fun t => role t <> User) turns.
Proof.
  destruct (process_query user_input st) as [r st'] eqn:E. cbn [snd].
  apply process_query_shape in E as [(e & _ & _ & ->) | (tl & evs & turns & w' & _ & -> & G & _)].
  - exists []. repeat constructor.
  - exists turns. split; [reflexivity|]. split; [exact G|]. now apply rounds_have_no_user_turn.
Qed.


(** X3.  Every inference call of a query is given the same tool list: none
    when the registry is empty, otherwise the registry converted entry by
    entry. *)
Theorem every_chat_gets_the_converted_registry
    (user_input : str) (st : State) (evs : list Event)
    (messages : list Turn) (ollama_tools : option (list value)) (answer : result value) :
  journal (snd (process_query user_input st)) = journal st ++ evs ->
  In (EvChat messages ollama_tools answer) evs ->
  match tools (self st) with
  | [] => ollama_tools = None
  | _ :: _ =>
      exists converted_tools,
        ollama_tools = Some converted_tools /\
        Forall2 converted (tools (self st)) converted_tools
  end.
Proof.
  intros J D.
  destruct (process_query user_input st) as [r st'] eqn:E. cbn [snd] in *.
  apply process_query_shape in E as [(e & _ & _ & ->) | (tl & evs' & turns & w' & P & -> & _ & Sn & _)].
  - cbn [advance journal] in J. apply app_inv_head in J. subst evs. destruct D.
  - cbn [advance journal] in J. apply app_inv_head in J. subst evs'.
    destruct (Sn _ _ _ D) as (-> & _).
    pose proof (prepare_tools_cases st) as C. rewrite P in C.
    destruct tl as [l|].
    + destruct C as (N & C). destruct (tools (self st)) as [|t ts] eqn:T; [contradiction|].
      exists l. split; [reflexivity|]. now apply convert_ok.
    + now rewrite C.
Qed.


(** X5.  When [process_query] returns, it returns either the content of the
    last response, which asked for no tool, and that content is the
    assistant turn that now ends the history; or the fixed apology after
    [max_iterations] inference calls that all asked for tools. *)
Theorem process_query_returns_answer_or_apology (user_input : str) (st : State) (v : value) :
  fst (process_query user_input st) = Ok v ->
  (exists evs0 messages tl response turns0,
      journal (snd (process_query user_input st)) =
        journal st ++ evs0 ++ [EvChat messages tl (Ok response)] /\
      ~ requests_tools (Ok response) /\
      response_content response = Ok v /\
      history (snd (process_query user_input st)) =
        history st ++ turns0 ++ [assistant_turn v None]) \/
  (v = VStr exhausted_message /\
   exists evs,
     journal (snd (process_query user_input st)) = journal st ++ evs /\
     chat_count evs = max_iterations /\ every_chat_requests_tools evs).
Proof.
  destruct (process_query user_input st) as [r st'] eqn:E. cbn [fst snd].
  intros ->.
  apply process_query_shape in E as [(e0 & _ & D & _) |
                                     (tl & evs & turns & w' & _ & -> & _ & _ & _ & _ & Re)];
    [discriminate|].
  destruct (Re v eq_refl) as [(evs0 & m & t & resp & turns0 & -> & N & RC & ->) | (-> & C & A)].
  - left. exists evs0, m, t, resp, (user_turn user_input :: turns0).
    repeat split; assumption.
  - right. split; [reflexivity|]. now exists evs.
Qed.

(** X6.  A query stops at the first response that asks for no tool: an
    inference call whose answer does not request tools (a final response or a
    failure) is the last thing the query does. *)
Theorem query_stops_at_first_answer_without_tools
    (user_input : str) (st : State) (evs : list Event)
    (messages : list Turn) (ollama_tools : option (list value)) (answer : result value) :
  journal (snd (process_query user_input st)) = journal st ++ evs ->
  In (EvChat messages ollama_tools answer) evs ->
  ~ requests_tools answer ->
  exists evs0, evs = evs0 ++ [EvChat messages ollama_tools answer].
Proof.
  intros J D N.
  destruct (process_query user_input st) as [r st'] eqn:E. cbn [snd] in *.
  apply process_query_shape in E as [(e & _ & _ & ->) |
                                     (tl & evs' & turns & w' & _ & -> & _ & _ & Fi & _)].
  - cbn [advance journal] in J. apply app_inv_head in J. subst evs. destruct D.
  - cbn [advance journal] in J. apply app_inv_head in J. subst evs'.
    exact (Fi _ _ _ D N).
Qed.

Lemma batch_before_malformed_entry
    (done : list value) (bad : value) (rest : list value) (e : exn) :
  Forall (fun tool_call => exists tool_name arguments,
              requested tool_call = Ok (tool_name, arguments) /\
              printable (calling_line tool_name arguments) = true) done ->
  requested bad = Raise e ->
  forall st, exists evs,
    journal (snd (for_each_tool_call (done ++ bad :: rest) st)) = journal st ++ evs /\
    (Forall lines_printable evs ->
     fst (for_each_tool_call (done ++ bad :: rest) st) = Raise e /\
     Forall2 answers done evs /\
     history (snd (for_each_tool_call (done ++ bad :: rest) st)) =
       history st ++ flat_map event_turns evs /\
     length (flat_map event_turns evs) = length done).
Proof.
  intros W B. induction W as [|tc done (n & a & R & P) _ IH]; intros st.
  - exists []. cbn [app for_each_tool_call]. unfold bind.
    rewrite (execute_tool_call_raise _ _ _ B). cbn [fst snd flat_map length].
    rewrite !app_nil_r. repeat split. constructor.
  - cbn [app for_each_tool_call]. unfold bind.
    rewrite (execute_tool_call_ok _ _ _ _ R). cbv zeta. rewrite P.
    set (ret0 := fst (call_tool (mcp (self st)) n a (world st))).
    set (w1 := snd (call_tool (mcp (self st)) n a (world st))).
    set (st1 := advance st (event_turns (EvCallTool n a ret0)) w1 [EvCallTool n a ret0]).
    assert (A : answers tc (EvCallTool n a ret0)) by now exists n, a, ret0.
    assert (Step : forall run : result unit * State,
               (exists evs,
                   journal (snd run) = journal st1 ++ evs /\
                   (Forall lines_printable evs ->
                    fst run = Raise e /\ Forall2 answers done evs /\
                    history (snd run) = history st1 ++ flat_map event_turns evs /\
                    length (flat_map event_turns evs) = length done)) ->
               lines_printable (EvCallTool n a ret0) ->
               exists evs,
                 journal (snd run) = journal st ++ evs /\
                 (Forall lines_printable evs ->
                  fst run = Raise e /\ Forall2 answers (tc :: done) evs /\
                  history (snd run) = history st ++ flat_map event_turns evs /\
                  length (flat_map event_turns evs) = S (length done))).
    { intros run (evs & J & K) L. exists (EvCallTool n a ret0 :: evs).
      split; [rewrite J; subst st1; cbn [advance journal]; now rewrite <- app_assoc|].
      intros Q. inversion Q as [|? ? _ Qs]; subst.
      destruct (K Qs) as (X & F & Hh & Ln).
      split; [exact X|]. split; [now constructor|]. split.
      - rewrite Hh. subst st1. rewrite history_advance. cbn [flat_map].
        now rewrite <- app_assoc.
      - cbn [flat_map]. rewrite length_app, Ln, (event_turns_printed _ _ _ L).
        reflexivity. }
    destruct ret0 as [v|e0] eqn:Er.
    + apply Step; [apply IH | exact I].
    + destruct (printable (error_line e0)) eqn:Q.
      * apply Step; [apply IH | exact Q].
      * exists [EvCallTool n a (Raise e0)]. cbn [fst snd].
        split; [reflexivity|].
        intros L. inversion L as [|? ? L1 _]; subst. cbn [lines_printable] in L1. congruence.
Qed.

(** X7.  An entry of a batch that is not a request object stops the batch.
    When the lines of the requests before it can be written to the standard
    output (the line that announces each of them and the line that reports
    each failed call), those requests have been executed and answered in
    order, the [AttributeError] of the entry leaves the loop, and neither
    the entry nor anything after it is executed or answered. *)
Theorem malformed_request_stops_the_batch
    (done : list value) (bad : value) (rest : list value) (e : exn) (st : State) :
  Forall (fun tool_call => exists tool_name arguments,
              requested tool_call = Ok (tool_name, arguments) /\
              printable (calling_line tool_name arguments) = true) done ->
  requested bad = Raise e ->
  (forall evs,
      journal (snd (for_each_tool_call (done ++ bad :: rest) st)) = journal st ++ evs ->
      Forall lines_printable evs) ->
  exists evs st',
    for_each_tool_call (done ++ bad :: rest) st = (Raise e, st') /\
    (exists msg, e = AttributeError msg) /\
    journal st' = journal st ++ evs /\
    Forall2 answers done evs /\
    history st' = history st ++ flat_map event_turns evs /\
    length (flat_map event_turns evs) = length done.
Proof.
  intros W B L.
  destruct (batch_before_malformed_entry done bad rest e W B st) as (evs & J & K).
  destruct (K (L evs J)) as (X & F & Hh & Ln).
  exists evs, (snd (for_each_tool_call (done ++ bad :: rest) st)).
  split; [rewrite <- X; now destruct (for_each_tool_call _ st)|].
  split; [now apply requested_raises_attribute_error in B|].
  repeat split; assumption.
Qed.

(** ** The loop of [main] *)

Lemma is_reply_reply (r : result value) : is_reply (reply r) = true.
Proof.
  destruct r as [v|e]; cbn [reply]; [|reflexivity].
  destruct (printable (assistant_line v)); reflexivity.
Qed.

(** X8.  In a session [main] prints exactly one reply, an answer or an error,
    for each user turn it appends to the history, and it says goodbye at most
    once, as the last thing. *)
Theorem main_prints_one_reply_per_user_turn (lines : list str) :
  forall st, exists suffix,
    history (snd (main_loop lines st)) = history st ++ suffix /\
    length (filter is_user_turn suffix) =
      length (filter is_reply (fst (main_loop lines st))) /\
    (forall before after,
        fst (main_loop lines st) = before ++ Goodbye :: after -> after = []).
Proof.
  induction lines as [|line rest IH]; intros st; cbn [main_loop].
  - exists []. cbn. rewrite app_nil_r. repeat split.
    intros [|? ?] after E; discriminate.
  - destruct (strip line) as [|c q]; [apply IH|].
    destruct (is_exit_command (c :: q)).
    + exists []. cbn. rewrite app_nil_r. repeat split.
      intros [|p [|? ?]] after E; try discriminate. now injection E as <-.
    + destruct (process_query (c :: q) st) as [r st1] eqn:E.
      assert (exists turns w' evs,
                 st1 = advance st (user_turn (c :: q) :: turns) w' evs /\ rounds turns)
        as (turns & w' & evs & -> & G).
      { apply process_query_shape in E as [(e & _ & _ & ->) |
                                           (tl & evs & turns & w' & _ & -> & G & _)].
        - exists [], (world st), []. split; [reflexivity | constructor].
        - now exists turns, w', evs. }
      destruct (IH (advance st (user_turn (c :: q) :: turns) w' evs)) as (suffix & S & C & L).
      assert (NU : filter is_user_turn turns = []).
      { apply rounds_have_no_user_turn in G. clear - G.
        induction G as [|t ts N _ IHt]; [reflexivity|]. cbn [filter].
        unfold is_user_turn at 1. destruct (role t); [contradiction | exact IHt | exact IHt]. }
      exists ((user_turn (c :: q) :: turns) ++ suffix).
      assert (Tail : forall p (printed : list Printed) (s2 : State),
                 is_reply p = true ->
                 main_loop rest (advance st (user_turn (c :: q) :: turns) w' evs) =
                   (printed, s2) ->
                 history s2 = history st ++ (user_turn (c :: q) :: turns) ++ suffix /\
                 length (filter is_user_turn ((user_turn (c :: q) :: turns) ++ suffix)) =
                   length (filter is_reply (p :: printed)) /\
                 (forall before after, p :: printed = before ++ Goodbye :: after -> after = [])).
      { intros p printed s2 P M. rewrite M in S, C, L. cbn [fst snd] in S, C, L.
        split; [rewrite S, history_advance; now rewrite <- app_assoc|]. split.
        - rewrite filter_app. cbn [filter]. rewrite P. cbn [is_user_turn user_turn role].
          rewrite NU. cbn [app length]. now rewrite C.
        - intros [|p0 before] after X.
          + injection X as -> _. discriminate.
          + injection X as _ X. eapply L, X. }
      destruct (main_loop rest (advance st (user_turn (c :: q) :: turns) w' evs))
        as [printed s2] eqn:M; cbn [fst snd].
      eapply Tail; [apply is_reply_reply | reflexivity].
Qed.

(** X9.  Blank lines are skipped, and what follows an exit command is never
    read: a session behaves as it does on its non-blank lines up to and
    including the first exit command. *)
Theorem main_skips_blank_lines_and_stops_at_exit (lines : list str) (st : State) :
  main_loop lines st = main_loop (filter (fun line => negb (is_blank line)) lines) st /\
  (forall before line rest,
      lines = before ++ line :: rest ->
      is_blank line = false -> is_exit_command (strip line) = true ->
      main_loop lines st = main_loop (before ++ [line]) st).
Proof.
  split.
  - revert st. induction lines as [|line rest IH]; intros st; [reflexivity|].
    cbn [filter main_loop]. unfold is_blank at 1.
    destruct (strip line) as [|c q] eqn:E; cbn [negb].
    + apply IH.
    + cbn [main_loop]. rewrite E.
      destruct (is_exit_command (c :: q)); [reflexivity|].
      destruct (process_query (c :: q) st) as [r st1]; now rewrite IH.
  - intros before line rest -> B X. revert st.
    induction before as [|l before IH]; intros st; cbn [app main_loop].
    + unfold is_blank in B. destruct (strip line) as [|c q]; [discriminate|].
      now rewrite X.
    + destruct (strip l) as [|c q]; [apply IH|].
      destruct (is_exit_command (c :: q)); [reflexivity|].
      destruct (process_query (c :: q) st) as [r st1]; now rewrite IH.
Qed.

(** ** The server's answers as the client reads them *)

(** X10.  For a tool name other than [get_current_weather] the server returns
    one text item; when the name has no double quote, backslash or control
    character, that text is valid JSON, and a connected client that receives
    it returns the mapping from [error] to the message that names the tool,
    which the dispatch loop writes to the transcript as JSON. *)
Theorem unknown_tool_is_reported_as_error_mapping
    (weather_service : value -> value -> ServiceOutcome) (name : str) (arguments : dict) :
  str_eqb name (lit "get_current_weather") = false ->
  plain_text name = true ->
  let report := VDict [(lit "error", VStr (lit "Unknown tool: " ++ name))] in
  exists text,
    server_call_tool weather_service name arguments = [TextContent text] /\
    json_loads text = Parsed report /\
    forall (self : MCPClient) tool_name tool_arguments w w' flag,
      session self <> None ->
      session_call_tool w tool_name tool_arguments =
        (Returned {| result_content := server_call_tool weather_service name arguments;
                     isError := flag |}, w') ->
      call_tool self tool_name tool_arguments w = (Ok report, w') /\
      result_content_of report = json_dumps report.
Proof.
  intros N P report. rewrite (unknown_tool_text _ _ _ N).
  eexists. split; [reflexivity|].
  pose proof (unknown_tool_json name P) as J. fold report in J.
  split; [exact J|].
  intros self tool_name tool_arguments w w' flag C S.
  unfold call_tool. destruct (session self); [|contradiction].
  rewrite S. cbn [result_content]. rewrite J. split; reflexivity.
Qed.

Lemma validates_weather_arguments (arguments : dict) :
  validates (Tool_inputSchema get_weather_tool) arguments =
  match dict_get arguments (lit "city") with
  | Some (VStr _) =>
      match dict_get arguments (lit "country") with
      | None | Some (VStr _) => true
      | Some _ => false
      end
  | _ => false
  end.
Proof.
  unfold validates, get_weather_tool, Tool_inputSchema. cbn.
  unfold required_there, property_valid. cbn.
  repeat match goal with
  | |- context [dict_get arguments ?k] => destruct (dict_get arguments k) as [[]|]
  end; reflexivity.
Qed.

(** X11.  What the server answers to a request for the weather depends on
    the weather service only when the city is a non-empty string.  The
    arguments are validated first: the city must be there and be a string,
    and the country, when there, must be a string; a request that fails this
    is answered with the validation error, marked as an error.  A request
    that passes with the empty string as its city is answered with a fixed
    text, which is valid JSON and reads as the mapping from [error] to the
    message about the missing parameter. *)
Theorem missing_city_is_reported_without_calling_the_service
    (weather_service other_service : value -> value -> ServiceOutcome) (arguments : dict) :
  (validates (Tool_inputSchema get_weather_tool) arguments = true <->
   (exists city, dict_get arguments (lit "city") = Some (VStr city)) /\
   (dict_get arguments (lit "country") = None \/
    exists country, dict_get arguments (lit "country") = Some (VStr country))) /\
  (validates (Tool_inputSchema get_weather_tool) arguments = false ->
   handle_call_tool weather_service (lit "get_current_weather") arguments =
     {| result_content :=
          [TextContent (lit "Input validation error: " ++ validation_error_text arguments)];
        isError := true |}) /\
  (validates (Tool_inputSchema get_weather_tool) arguments = true ->
   dict_get arguments (lit "city") = Some (VStr []) ->
   exists text,
     handle_call_tool weather_service (lit "get_current_weather") arguments =
       {| result_content := [TextContent text]; isError := false |} /\
     json_loads text =
       Parsed (VDict [(lit "error", VStr (lit "Missing required parameter: city"))])) /\
  ((forall c rest, dict_get arguments (lit "city") <> Some (VStr (c :: rest))) ->
   handle_call_tool weather_service (lit "get_current_weather") arguments =
   handle_call_tool other_service (lit "get_current_weather") arguments).
Proof.
  assert (D : tool_definition (lit "get_current_weather") = Some get_weather_tool)
    by reflexivity.
  unfold handle_call_tool. rewrite D, validates_weather_arguments.
  split; [|split; [|split]].
  - split.
    + destruct (dict_get arguments (lit "city")) as [[]|]; try discriminate.
      destruct (dict_get arguments (lit "country")) as [[]|]; try discriminate; intros _.
      * split; [now eexists | right; now eexists].
      * split; [now eexists | now left].
    + intros ((city & ->) & [-> | (country & ->)]); reflexivity.
  - now intros ->.
  - intros V C. rewrite V. unfold call_tool_function.
    change (str_eqb (lit "get_current_weather") (lit "get_current_weather")) with true.
    cbv iota. rewrite C. cbn [truthy negb].
    eexists. split; [reflexivity|]. reflexivity.
  - intros N.
    destruct (dict_get arguments (lit "city")) as [[| | | |city| |]|] eqn:C; try reflexivity.
    destruct (dict_get arguments (lit "country")) as [[]|] eqn:K; try reflexivity;
      unfold call_tool_function;
      change (str_eqb (lit "get_current_weather") (lit "get_current_weather")) with true;
      cbv iota; rewrite C; (destruct city as [|c rest]; [reflexivity | now elim (N c rest)]).
Qed.

(** ** Listing the tools *)

Lemma convert_tool_dicts (listed_tools : list McpTool) :
  exists ollama_tools,
    convert_mcp_tools_to_ollama_format (map tool_dict listed_tools) = Ok ollama_tools /\
    Forall2 (fun t ollama_tool =>
               ollama_tool =
                 VDict [(lit "type", VStr (lit "function"));
                        (lit "function",
                         VDict [(lit "name", Tool_name t);
                                (lit "description", Tool_description t);
                                (lit "parameters", Tool_inputSchema t)])])
            listed_tools ollama_tools.
Proof.
  induction listed_tools as [|t ts (out & C & F)].
  - exists []. split; [reflexivity | constructor].
  - eexists. cbn [map convert_mcp_tools_to_ollama_format].
    change (subscript (tool_dict t) (lit "name")) with (Ok (Tool_name t)).
    change (subscript (tool_dict t) (lit "description")) with (Ok (Tool_description t)).
    change (subscript (tool_dict t) (lit "inputSchema")) with (Ok (Tool_inputSchema t)).
    cbv iota. rewrite C. split; [reflexivity|]. now constructor.
Qed.

(** X12.  What [list_tools] returns is always fit for the Tool Registry
    Adapter: the conversion succeeds, and its i-th entry is the function
    declaration with the name, description and input schema of the i-th tool
    the provider listed. *)
Theorem listed_tools_convert (self : MCPClient) (w w' : World) (mcp_tools : list dict) :
  list_tools self w = (Ok mcp_tools, w') ->
  exists listed_tools ollama_tools,
    fst (session_list_tools w) = Listed listed_tools /\
    convert_mcp_tools_to_ollama_format mcp_tools = Ok ollama_tools /\
    Forall2 (fun t ollama_tool =>
               ollama_tool =
                 VDict [(lit "type", VStr (lit "function"));
                        (lit "function",
                         VDict [(lit "name", Tool_name t);
                                (lit "description", Tool_description t);
                                (lit "parameters", Tool_inputSchema t)])])
            listed_tools ollama_tools.
Proof.
  unfold list_tools. destruct (session self); [|discriminate].
  destruct (session_list_tools w) as [[listed_tools|text] w1]; [|discriminate].
  intros [= <- <-]. exists listed_tools. cbn [fst].
  destruct (convert_tool_dicts listed_tools) as (out & C & F).
  now exists out.
Qed.

(** ** Starting and ending a session *)

(** X13.  [initialize] leaves the history and the journal alone.  When it
    succeeds, the client holds a session, the registry is what the provider
    listed, and no later query raises [KeyError].  When it fails, it raises a
    [RuntimeError] with one of two fixed messages, for the connection or for
    the discovery of the tools, and the registry is unchanged. *)
Theorem initialize_outcomes (s : Session) :
  history (state (snd (initialize s))) = history (state s) /\
  journal (state (snd (initialize s))) = journal (state s) /\
  match fst (initialize s) with
  | Ok _ =>
      session (mcp (self (state (snd (initialize s))))) <> None /\
      (exists listed_tools,
          fst (session_list_tools
                 (snd (stdio_connect (world (state s)) (server_command (mcp_fields s))
                         (server_args (mcp_fields s)) (cwd (mcp_fields s)))))
            = Listed listed_tools /\
          tools (self (state (snd (initialize s)))) = map tool_dict listed_tools) /\
      forall user_input key,
        fst (process_query user_input (state (snd (initialize s)))) <> Raise (KeyError key)
  | Raise e =>
      (e = RuntimeError server_unreachable_message \/
       e = RuntimeError discovery_failed_message) /\
      tools (self (state (snd (initialize s)))) = tools (self (state s))
  end.
Proof.
  unfold initialize, connect, list_tools.
  destruct (stdio_connect (world (state s)) (server_command (mcp_fields s))
              (server_args (mcp_fields s)) (cwd (mcp_fields s))) as [[|t|t|t] w1];
    try (cbn; repeat split; now left).
  cbn [session snd].
  destruct (session_list_tools w1) as [[listed_tools|text] w2].
  2:{ cbn. repeat split. now right. }
  cbn [fst snd state]. split; [reflexivity|]. split; [reflexivity|].
  split; [discriminate|]. split; [now exists listed_tools|].
  intros user_input key E.
  set (st' := with_tools _ _ _) in E.
  destruct (process_query user_input st') as [r st2] eqn:Q. cbn [fst] in E. subst r.
  apply process_query_shape in Q as [(e0 & P & [= <-] & _) |
                                     (tl & evs & turns & w' & _ & _ & _ & _ & _ & Ex & _)].
  - pose proof (prepare_tools_cases st') as C. rewrite P in C. destruct C as (_ & C).
    destruct (convert_tool_dicts listed_tools) as (out & C' & _).
    subst st'. cbn [with_tools self tools] in C. congruence.
  - destruct (Ex _ eq_refl) as (evs0 & m & t & a & tevs & _ & _ & L). exact L.
Qed.



(** ** The weather service *)

Lemma getitem_got (v : value) (k : str) (x : value) :
  getitem v k = Got x <-> exists d, v = VDict d /\ dict_get d k = Some x.
Proof.
  split.
  - destruct v; try discriminate. cbn. destruct (dict_get _ k) eqn:E; [|discriminate].
    intros [= <-]. now eexists.
  - intros (d & -> & E). cbn. now rewrite E.
Qed.

Lemma getitem2_got (v : value) (k1 k2 : str) (x : value) :
  and_then (getitem v k1) (fun y => getitem y k2) = Got x <->
  exists d, v = VDict d /\ nested_member d k1 k2 x.
Proof.
  split.
  - destruct (getitem v k1) as [y| |c] eqn:E; try discriminate. cbn [and_then].
    apply getitem_got in E as (d & -> & E). intros G.
    apply getitem_got in G as (inner & -> & G). exists d. split; [reflexivity|].
    now exists inner.
  - intros (d & -> & inner & E1 & E2). cbn. now rewrite E1; cbn; rewrite E2.
Qed.

Lemma and_then_got {A B : Type} (x : subscripted A) (k : A -> subscripted B) (b : B) :
  and_then x k = Got b <-> exists a, x = Got a /\ k a = Got b.
Proof.
  split.
  - destruct x as [a| |c]; try discriminate. cbn. intros E. now exists a.
  - intros (a & -> & E). exact E.
Qed.

Lemma read_weather_fields_got (data : value) (fields : WeatherFields) :
  read_weather_fields data = Got fields <->
  exists d first others city country temperature feels_like humidity pressure
         description wind_speed clouds,
    data = VDict d /\
    fields = weather_fields city country temperature feels_like humidity pressure
                            description wind_speed clouds /\
    dict_get d (lit "name") = Some city /\
    nested_member d (lit "sys") (lit "country") country /\
    nested_member d (lit "main") (lit "temp") temperature /\
    nested_member d (lit "main") (lit "feels_like") feels_like /\
    nested_member d (lit "main") (lit "humidity") humidity /\
    nested_member d (lit "main") (lit "pressure") pressure /\
    dict_get d (lit "weather") = Some (VList (VDict first :: others)) /\
    dict_get first (lit "description") = Some description /\
    nested_member d (lit "wind") (lit "speed") wind_speed /\
    nested_member d (lit "clouds") (lit "all") clouds.
Proof.
  unfold read_weather_fields. split.
  - intros H.
    apply and_then_got in H as (city & H1 & H).
    apply getitem_got in H1 as (d & -> & H1).
    apply and_then_got in H as (country & H2 & H).
    apply getitem2_got in H2 as (d2 & [= <-] & H2).
    apply and_then_got in H as (temperature & H3 & H).
    apply getitem2_got in H3 as (d3 & [= <-] & H3).
    apply and_then_got in H as (feels_like & H4 & H).
    apply getitem2_got in H4 as (d4 & [= <-] & H4).
    apply and_then_got in H as (humidity & H5 & H).
    apply getitem2_got in H5 as (d5 & [= <-] & H5).
    apply and_then_got in H as (pressure & H6 & H).
    apply getitem2_got in H6 as (d6 & [= <-] & H6).
    apply and_then_got in H as (description & H7 & H).
    apply and_then_got in H7 as (item & H7 & H7').
    apply and_then_got in H7 as (listed & H7 & H7'').
    apply getitem_got in H7 as (d7 & [= <-] & H7).
    apply getitem_got in H7' as (first & -> & H7').
    destruct listed as [| | | |s|l|]; try discriminate.
    { destruct s; discriminate. }
    destruct l as [|x others]; [discriminate|]. injection H7'' as ->.
    apply and_then_got in H as (wind_speed & H8 & H).
    apply getitem2_got in H8 as (d8 & [= <-] & H8).
    apply and_then_got in H as (clouds & H9 & H).
    apply getitem2_got in H9 as (d9 & [= <-] & H9).
    injection H as <-.
    exists d, first, others, city, country, temperature, feels_like, humidity, pressure,
      description, wind_speed, clouds.
    repeat (split; [first [reflexivity | assumption]|]). assumption.
  - intros (d & first & others & city & country & temperature & feels_like & humidity &
            pressure & description & wind_speed & clouds &
            -> & -> & H1 & H2 & H3 & H4 & H5 & H6 & H7 & H7' & H8 & H9).
    apply and_then_got. exists city. split; [apply getitem_got; now exists d|].
    apply and_then_got. exists country. split; [apply getitem2_got; now exists d|].
    apply and_then_got. exists temperature. split; [apply getitem2_got; now exists d|].
    apply and_then_got. exists feels_like. split; [apply getitem2_got; now exists d|].
    apply and_then_got. exists humidity. split; [apply getitem2_got; now exists d|].
    apply and_then_got. exists pressure. split; [apply getitem2_got; now exists d|].
    apply and_then_got. exists description. split.
    { apply and_then_got. exists (VDict first). split.
      - apply and_then_got. exists (VList (VDict first :: others)). split; [|reflexivity].
        apply getitem_got. now exists d.
      - apply getitem_got. now exists first. }
    apply and_then_got. exists wind_speed. split; [apply getitem2_got; now exists d|].
    apply and_then_got. exists clouds. split; [apply getitem2_got; now exists d|].
    reflexivity.
Qed.

(** X15.  [get_current_weather] returns weather data exactly when the request
    is answered with a 2xx status and a body that [json.loads] parses to an
    object in which all nine paths the code reads are there ([name], [sys.country],
    [main.temp], [main.feels_like], [main.humidity], [main.pressure],
    [weather[0].description] with [weather] a non-empty list, [wind.speed],
    [clouds.all]) and the values found there pass the validation; the data
    are made of those nine values.  One request is made, to the [/weather]
    endpoint, with the location, the key and metric units. *)
Theorem weather_data_iff_complete_body (settings : Settings) (city country : value)
    (w w' : World) (dumped : str) :
  get_current_weather settings city country w = (WeatherData dumped, w') <->
  exists status_code text d first others name_ country_ temperature feels_like
         humidity pressure description wind_speed clouds,
    weather_get w (openweathermap_base_url settings ++ lit "/weather")
      [(lit "q", location_of city country);
       (lit "appid", VStr (openweathermap_api_key settings));
       (lit "units", VStr (lit "metric"))] = (Response status_code text, w') /\
    is_success status_code = true /\
    json_loads text = Parsed (VDict d) /\
    dict_get d (lit "name") = Some name_ /\
    nested_member d (lit "sys") (lit "country") country_ /\
    nested_member d (lit "main") (lit "temp") temperature /\
    nested_member d (lit "main") (lit "feels_like") feels_like /\
    nested_member d (lit "main") (lit "humidity") humidity /\
    nested_member d (lit "main") (lit "pressure") pressure /\
    dict_get d (lit "weather") = Some (VList (VDict first :: others)) /\
    dict_get first (lit "description") = Some description /\
    nested_member d (lit "wind") (lit "speed") wind_speed /\
    nested_member d (lit "clouds") (lit "all") clouds /\
    validate_weather_data
      (weather_fields name_ country_ temperature feels_like humidity pressure
                      description wind_speed clouds) = Some dumped.
Proof.
  unfold get_current_weather, weather_api_url. cbv zeta.
  destruct (weather_get w _ _) as [outcome w1]. split.
  - destruct outcome as [?|?|?|status_code text]; try discriminate.
    destruct (is_success status_code) eqn:S.
    2:{ destruct (status_code =? 401)%Z; [discriminate|].
        destruct (status_code =? 404)%Z; discriminate. }
    destruct (json_loads text) as [data| |e] eqn:J; [|discriminate|destruct e; discriminate].
    destruct (read_weather_fields data) as [fields| |c] eqn:R; try discriminate.
    destruct (validate_weather_data fields) as [out|] eqn:V; [|discriminate].
    intros [= <- <-].
    apply read_weather_fields_got in R
      as (d & first & others & c & k & t & fl & h & p & ds & ws & cl &
          -> & -> & R).
    exists status_code, text, d, first, others, c, k, t, fl, h, p, ds, ws, cl.
    split; [reflexivity|]. split; [exact S|]. split; [exact J|].
    decompose [and] R. repeat (split; [assumption|]). exact V.
  - intros (status_code & text & d & first & others & c & k & t & fl & h & p & ds & ws & cl &
            [= -> ->] & S & J & R).
    rewrite S, J.
    assert (G : read_weather_fields (VDict d) =
                Got (weather_fields c k t fl h p ds ws cl)).
    { apply read_weather_fields_got.
      exists d, first, others, c, k, t, fl, h, p, ds, ws, cl.
      decompose [and] R. repeat (split; [first [reflexivity | assumption]|]). assumption. }
    rewrite G. decompose [and] R.
    match goal with V : validate_weather_data _ = _ |- _ => now rewrite V end.
Qed.
End World.

(** ** What the provider sends after the first content item *)

(** C9.  Take two providers that answer the same call of a connected client,
    one with a content list [item :: rest] and one with [item] alone.
    [call_tool] gives for both what the first item is normalized to: its
    text parsed when [json.loads] parses it, its text as it is when it is not
    JSON, its [str()] when it is not a text item (and the [RuntimeError] of
    a text on which [json.loads] raises another exception).  The dispatch
    step appends the same for both, the single turn that stands for this
    result: nothing of [rest] is returned or reaches the history. *)
Theorem only_first_content_item_is_used
    (World : Type) (provider1 provider2 : World -> value -> value -> CallOutcome * World)
    (client : MCPClient) (tool_name arguments : value) (w w1 w2 : World)
    (item : ContentItem) (rest : list ContentItem) (flag1 flag2 : bool) :
  session client <> None ->
  provider1 w tool_name arguments =
    (Returned {| result_content := item :: rest; isError := flag1 |}, w1) ->
  provider2 w tool_name arguments =
    (Returned {| result_content := [item]; isError := flag2 |}, w2) ->
  exists normalized,
    fst (call_tool World provider1 client tool_name arguments w) = normalized /\
    fst (call_tool World provider2 client tool_name arguments w) = normalized /\
    (forall text parsed,
        item = TextContent text -> json_loads text = Parsed parsed ->
        normalized = Ok parsed) /\
    (forall text,
        item = TextContent text -> json_loads text = JSONDecodeError ->
        normalized = Ok (VStr text)) /\
    (forall text e,
        item = TextContent text -> json_loads text = Raising e ->
        normalized = Raise (RuntimeError (lit "Tool '" ++ py_str tool_name ++
                                          lit "' execution failed: " ++ exn_str e))) /\
    (forall shown, item = NonTextContent shown -> normalized = Ok (VStr shown)) /\
    forall (tool_call : value) (st : State World),
      requested tool_call = Ok (tool_name, arguments) ->
      world World st = w -> mcp (self World st) = client ->
      printable (calling_line tool_name arguments) = true ->
      history World (snd (execute_tool_call World provider1 tool_call st)) =
        history World st ++ event_turns (EvCallTool tool_name arguments normalized) /\
      history World (snd (execute_tool_call World provider2 tool_call st)) =
        history World st ++ event_turns (EvCallTool tool_name arguments normalized) /\
      (forall tool_result,
          normalized = Ok tool_result ->
          event_turns (EvCallTool tool_name arguments normalized) =
            [tool_turn (result_content_of tool_result)]).
Proof.
  intros C P1 P2.
  exists (fst (call_tool World provider1 client tool_name arguments w)).
  assert (E : fst (call_tool World provider2 client tool_name arguments w) =
              fst (call_tool World provider1 client tool_name arguments w)).
  { unfold call_tool. destruct (session client); [|reflexivity].
    rewrite P1, P2. cbn [result_content].
    destruct item as [text|shown]; [destruct (json_loads text)|]; reflexivity. }
  split; [reflexivity|]. split; [exact E|].
  split; [|split; [|split; [|split]]].
  - intros text parsed -> J. unfold call_tool. destruct (session client); [|contradiction].
    rewrite P1. cbn [result_content]. now rewrite J.
  - intros text -> J. unfold call_tool. destruct (session client); [|contradiction].
    rewrite P1. cbn [result_content]. now rewrite J.
  - intros text e -> J. unfold call_tool. destruct (session client); [|contradiction].
    rewrite P1. cbn [result_content]. now rewrite J.
  - intros shown ->. unfold call_tool. destruct (session client); [|contradiction].
    now rewrite P1.
  - intros tool_call st R <- <- P.
    rewrite (execute_tool_call_ok World provider1 _ _ _ _ R), (execute_tool_call_ok World provider2 _ _ _ _ R). cbv zeta. rewrite P. cbn [snd].
    rewrite !history_advance, E. split; [reflexivity|]. split; [reflexivity|].
    now intros tool_result ->.
Qed.

End Interpreter.

(** * The statements at work on the sample data *)

Local Abbreviation demo_json_loads := (json_loads demo_headroom).
Local Abbreviation demo_chat :=
  (chat ascii_isprintable expecting_value demo_headroom Script scripted_post).
Local Abbreviation demo_call_tool :=
  (call_tool ascii_isprintable lexeme_text demo_headroom Script scripted_call_tool).
Local Abbreviation demo_execute_tool_call :=
  (execute_tool_call ascii_isprintable lexeme_text lexeme_text demo_headroom
     strict_handler utf8_strict_error Script scripted_call_tool).
Local Abbreviation demo_for_each_tool_call :=
  (for_each_tool_call ascii_isprintable lexeme_text lexeme_text demo_headroom
     strict_handler utf8_strict_error Script scripted_call_tool).
Local Abbreviation demo_process_query :=
  (process_query ascii_isprintable lexeme_text lexeme_text lexeme_truth expecting_value
     demo_headroom strict_handler utf8_strict_error Script scripted_post scripted_call_tool).
Local Abbreviation demo_main_loop :=
  (main_loop ascii_isprintable lexeme_text lexeme_text lexeme_truth expecting_value
     ascii_lower demo_headroom strict_handler utf8_strict_error
     Script scripted_post scripted_call_tool).
Local Abbreviation demo_state := (initial_state Script demo_orchestrator).
Local Abbreviation demo_turn_content := (turn_content ascii_isprintable lexeme_text lexeme_text).
Local Abbreviation demo_error_content := (error_content ascii_isprintable lexeme_text).
Local Abbreviation demo_event_turns :=
  (event_turns ascii_isprintable lexeme_text lexeme_text strict_handler).
Local Abbreviation demo_lines_printable :=
  (lines_printable ascii_isprintable lexeme_text strict_handler).
Local Abbreviation demo_request_printable :=
  (request_printable ascii_isprintable lexeme_text strict_handler).
Local Abbreviation surrogate_error :=
  (UnicodeEncodeError
     (lit "'utf-8' codec can't encode character '\ud83d' in position 12: surrogates not allowed")).





Lemma call_tool_normalization_witness :
  session connected <> None /\
  scripted_call_tool ([], [weather_result]) (VStr (lit "get_current_weather")) (VDict []) =
    (weather_result, ([], [])) /\
  demo_call_tool connected (VStr (lit "get_current_weather")) (VDict [])
      ([], [weather_result]) =
    (Ok (VDict [(lit "city", VStr (lit "Paris")); (lit "humidity", VInt 40)]), ([], [])).
Proof.
  assert (C : session connected <> None) by discriminate.
  split; [exact C|]. split; [reflexivity|].
  destruct (call_tool_normalization
              ascii_isprintable lexeme_text demo_headroom Script scripted_call_tool
              connected (VStr (lit "get_current_weather")) (VDict [])
              ([], [weather_result]) ([], [])
              {| result_content := [TextContent (json_text "{'city': 'Paris', 'humidity': 40}")];
                 isError := false |} C eq_refl)
    as (P & _).
  apply (P (json_text "{'city': 'Paris', 'humidity': 40}") []
           (VDict [(lit "city", VStr (lit "Paris")); (lit "humidity", VInt 40)]) eq_refl).
  vm_compute. reflexivity.
Defined.

(** No content and the JSON text [null] give the same result; and the text of
    an integer of 4301 digits, which is JSON, is neither parsed nor returned
    as it is. *)
Lemma no_content_is_the_parsed_null :
  fst (demo_call_tool connected (VStr (lit "get_current_weather")) (VDict [])
         ([], [no_content_result])) =
  fst (demo_call_tool connected (VStr (lit "get_current_weather")) (VDict [])
         ([], [null_text_result])) /\
  fst (demo_call_tool connected (VStr (lit "get_current_weather")) (VDict [])
         ([], [long_integer_result])) =
    Raise (RuntimeError
             (lit "Tool 'get_current_weather' execution failed: Exceeds the limit (4300 digits) for integer string conversion: value has 4301 digits; use sys.set_int_max_str_digits() to increase the limit")).
Proof. split; vm_compute; reflexivity. Qed.

(** A 2xx answer whose body is not JSON is reported as none of the four
    kinds of the taxonomy; so is one whose body holds an integer of 4301
    digits. *)
Lemma chat_failure_outside_the_four_kinds :
  (exists msg,
      fst (demo_chat demo_llm [] None ([Response 200 (lit "<html>ok</html>")], [])) =
        Raise (RuntimeError msg) /\
      msg <> connect_error_message demo_llm /\
      msg <> timeout_message /\
      msg <> missing_model_message demo_llm /\
      forall text, msg <> api_error_message text) /\
  fst (demo_chat demo_llm [] None ([Response 200 long_integer_text], [])) =
    Raise (RuntimeError
             (lit "Unexpected error communicating with Ollama: Exceeds the limit (4300 digits) for integer string conversion: value has 4301 digits; use sys.set_int_max_str_digits() to increase the limit")).
Proof.
  split; [|vm_compute; reflexivity].
  eexists. split; [vm_compute; reflexivity|].
  repeat split; discriminate.
Qed.

(** The endpoint is down: the query is aborted, the user turn stays, and the
    session goes on to the next line. *)
Lemma backend_failure_aborts_query_only_witness :
  let st := demo_state ([ConnectError (lit "All connection attempts failed")], []) in
  let user_input := lit "weather in Paris?" in
  let ollama_tools :=
    match convert_mcp_tools_to_ollama_format demo_tools with
    | Ok converted_tools => Some converted_tools
    | Raise _ => None
    end in
  let failed :=
    EvChat [user_turn user_input] ollama_tools
           (Raise (RuntimeError (connect_error_message demo_llm))) in
  journal Script (snd (demo_process_query user_input st)) =
    journal Script st ++ [EvIteration 1; failed] /\
  In failed [EvIteration 1; failed] /\
  fst (demo_process_query user_input st) = Raise (RuntimeError ollama_unreachable_message) /\
  history Script (snd (demo_process_query user_input st)) = [user_turn user_input] /\
  fst (demo_main_loop [lit "  weather in Paris?  "; lit "quit"] st) =
    [ErrorSays ollama_unreachable_message; Goodbye].
Proof.
  intros st user_input ollama_tools failed.
  assert (J : journal Script (snd (demo_process_query user_input st)) =
              journal Script st ++ [EvIteration 1; failed]) by reflexivity.
  assert (D : In failed [EvIteration 1; failed]) by (right; left; reflexivity).
  destruct (backend_failure_aborts_query_only
              ascii_isprintable lexeme_text lexeme_text lexeme_truth expecting_value
              ascii_lower demo_headroom strict_handler utf8_strict_error
              Script scripted_post scripted_call_tool
              user_input st [EvIteration 1; failed] [user_turn user_input] ollama_tools
              (RuntimeError (connect_error_message demo_llm)) J D)
    as (R & Hh & _ & _ & ML).
  split; [exact J|]. split; [exact D|]. split; [exact R|]. split; [exact Hh|].
  assert (N : user_input <> []) by discriminate.
  rewrite (ML (lit "  weather in Paris?  ") [lit "quit"] eq_refl N eq_refl).
  reflexivity.
Defined.


(** A second content item changes nothing: the parsed first item is what is
    returned and what the turn is made of. *)
Lemma only_first_content_item_is_used_witness :
  let item := TextContent (json_text "{'city': 'Paris', 'humidity': 40}") in
  let extra := TextContent (lit "second item") in
  let name := VStr (lit "get_current_weather") in
  let provider1 :=
    constant_provider (Returned {| result_content := [item; extra]; isError := false |}) in
  let provider2 :=
    constant_provider (Returned {| result_content := [item]; isError := false |}) in
  let parsed := VDict [(lit "city", VStr (lit "Paris")); (lit "humidity", VInt 40)] in
  let st := initial_state unit demo_orchestrator tt in
  session connected <> None /\
  fst (call_tool ascii_isprintable lexeme_text demo_headroom unit provider1
         connected name (VDict []) tt) = Ok parsed /\
  fst (call_tool ascii_isprintable lexeme_text demo_headroom unit provider2
         connected name (VDict []) tt) = Ok parsed /\
  history unit
    (snd (execute_tool_call ascii_isprintable lexeme_text lexeme_text demo_headroom
            strict_handler utf8_strict_error unit provider1
            (VDict [(lit "function", VDict [(lit "name", name)])]) st)) =
    [tool_turn (json_text "{'city': 'Paris', 'humidity': 40}")].
Proof.
  intros item extra name provider1 provider2 parsed st.
  assert (C : session connected <> None) by discriminate.
  destruct (only_first_content_item_is_used
              ascii_isprintable lexeme_text lexeme_text demo_headroom
              strict_handler utf8_strict_error unit provider1 provider2
              connected name (VDict []) tt tt tt item [extra] false false
              C eq_refl eq_refl)
    as (normalized & E1 & E2 & P & _ & _ & _ & D).
  assert (N : normalized = Ok parsed).
  { apply (P (json_text "{'city': 'Paris', 'humidity': 40}") parsed eq_refl).
    vm_compute. reflexivity. }
  split; [exact C|]. split; [now rewrite E1|]. split; [now rewrite E2|].
  assert (L : printable strict_handler
                (calling_line ascii_isprintable lexeme_text name (VDict [])) = true)
    by (vm_compute; reflexivity).
  destruct (D (VDict [(lit "function", VDict [(lit "name", name)])]) st
              eq_refl eq_refl eq_refl L) as (H1 & _ & T).
  rewrite H1, (T parsed N). vm_compute. reflexivity.
Defined.

Lemma weather_error_text_is_not_json_witness :
  failing_weather_service (VStr (lit "Atlantis")) VNone =
    ServiceRaised (lit "City 'Atlantis' not found. Please check the city name and country code.") /\
  exists shown,
    handle_get_current_weather ascii_isprintable lexeme_text failing_weather_service
      (VStr (lit "Atlantis")) VNone = [TextContent shown] /\
    (exists rest, shown = lit "{'error': " ++ rest) /\
    json_loads demo_headroom shown = JSONDecodeError.
Proof.
  split; [reflexivity|].
  destruct (weather_error_text_is_not_json
              ascii_isprintable lexeme_text lexeme_text demo_headroom
              unit (constant_provider no_content_result)
              failing_weather_service (VStr (lit "Atlantis")) VNone _ eq_refl)
    as (shown & A & _ & B & C & _).
  exists shown. split; [exact A|]. split; [exact B | exact C].
Defined.



(** A query answered at once: two turns, one inference call. *)
Example direct_answer :
  let st := demo_state ([final_response], []) in
  let after := demo_process_query (lit "weather in Paris?") st in
  fst after = Ok (VStr (lit "It is sunny in Paris.")) /\
  map role (history Script (snd after)) = [User; Assistant] /\
  chat_count (journal Script (snd after)) = 1%nat.
Proof. vm_compute. repeat split. Qed.

(** A query with one round of tools: four turns, two inference calls and one
    tool call. *)
Example one_tool_round :
  let st := demo_state ([tools_response; final_response], [weather_result]) in
  let after := demo_process_query (lit "weather in Paris?") st in
  fst after = Ok (VStr (lit "It is sunny in Paris.")) /\
  map role (history Script (snd after)) = [User; Assistant; Tool; Assistant] /\
  chat_count (journal Script (snd after)) = 2%nat /\
  length (flat_map demo_event_turns (journal Script (snd after))) = 1%nat.
Proof. vm_compute. repeat split. Qed.

(** * Further statements at work on the sample data *)

Local Abbreviation demo_server_call_tool :=
  (server_call_tool ascii_isprintable lexeme_text lexeme_truth required_city_message).
Local Abbreviation demo_handle_call_tool :=
  (handle_call_tool ascii_isprintable lexeme_text lexeme_truth required_city_message).
Local Abbreviation one_round_state :=
  (demo_state ([tools_response; final_response], [weather_result])).
Local Abbreviation direct_state := (demo_state ([final_response], [])).
Local Abbreviation demo_converted_tools :=
  (match convert_mcp_tools_to_ollama_format demo_tools with
   | Ok converted_tools => Some converted_tools
   | Raise _ => None
   end).
Local Abbreviation chat_messages ev :=
  (match ev with EvChat messages _ _ => messages | _ => [] end).
Local Abbreviation chat_tools ev :=
  (match ev with EvChat _ ollama_tools _ => ollama_tools | _ => None end).
Local Abbreviation chat_answer ev :=
  (match ev with EvChat _ _ answer => answer | _ => Ok VNone end).


(** Both inference calls of that query are given the converted registry. *)
Lemma every_chat_gets_the_converted_registry_witness :
  let user_input := lit "weather in Paris?" in
  let evs := journal Script (snd (demo_process_query user_input one_round_state)) in
  let second := nth 4 evs (EvIteration 0) in
  In (EvChat (chat_messages second) (chat_tools second) (chat_answer second)) evs /\
  exists converted_tools,
    chat_tools second = Some converted_tools /\
    Forall2 converted demo_tools converted_tools.
Proof.
  intros user_input evs second.
  assert (D : In (EvChat (chat_messages second) (chat_tools second) (chat_answer second)) evs)
    by (do 4 right; left; reflexivity).
  split; [exact D|].
  exact (every_chat_gets_the_converted_registry
           ascii_isprintable lexeme_text lexeme_text lexeme_truth expecting_value
           demo_headroom strict_handler utf8_strict_error
           Script scripted_post scripted_call_tool
           user_input one_round_state evs _ _ _ eq_refl D).
Defined.


(** A query answered at once returns the content of the response. *)
Lemma process_query_returns_answer_or_apology_witness :
  let user_input := lit "weather in Paris?" in
  let v := VStr (lit "It is sunny in Paris.") in
  fst (demo_process_query user_input direct_state) = Ok v /\
  ((exists evs0 messages tl response turns0,
       journal Script (snd (demo_process_query user_input direct_state)) =
         evs0 ++ [EvChat messages tl (Ok response)] /\
       ~ requests_tools lexeme_truth (Ok response) /\
       response_content response = Ok v /\
       history Script (snd (demo_process_query user_input direct_state)) =
         turns0 ++ [assistant_turn v None]) \/
   (v = VStr exhausted_message /\
    exists evs,
      journal Script (snd (demo_process_query user_input direct_state)) = evs /\
      chat_count evs = max_iterations /\ every_chat_requests_tools lexeme_truth evs)).
Proof.
  intros user_input v.
  split; [reflexivity|].
  exact (process_query_returns_answer_or_apology
           ascii_isprintable lexeme_text lexeme_text lexeme_truth expecting_value
           demo_headroom strict_handler utf8_strict_error
           Script scripted_post scripted_call_tool
           user_input direct_state v eq_refl).
Defined.

(** The endpoint is down at the first call: the failed call is the last
    event, though the script holds more. *)
Lemma query_stops_at_first_answer_without_tools_witness :
  let user_input := lit "weather in Paris?" in
  let st := demo_state ([ConnectError (lit "All connection attempts failed");
                         final_response], [weather_result]) in
  let evs := journal Script (snd (demo_process_query user_input st)) in
  let failed :=
    EvChat [user_turn user_input] demo_converted_tools
           (Raise (RuntimeError (connect_error_message demo_llm))) in
  In failed evs /\
  ~ requests_tools lexeme_truth (Raise (RuntimeError (connect_error_message demo_llm))) /\
  exists evs0, evs = evs0 ++ [failed].
Proof.
  intros user_input st evs failed.
  assert (D : In failed evs) by (right; left; reflexivity).
  assert (N : ~ requests_tools lexeme_truth
                (Raise (RuntimeError (connect_error_message demo_llm)))).
  { intros (response & calls & E & _). discriminate E. }
  split; [exact D|]. split; [exact N|].
  exact (query_stops_at_first_answer_without_tools
           ascii_isprintable lexeme_text lexeme_text lexeme_truth expecting_value
           demo_headroom strict_handler utf8_strict_error
           Script scripted_post scripted_call_tool
           user_input st evs _ _ _ eq_refl D N).
Defined.

(** A batch whose second entry is a string: the first request is answered,
    the third is not looked at. *)
Lemma malformed_request_stops_the_batch_witness :
  let st := demo_state ([], [weather_result; weather_result]) in
  let bad := VStr (lit "get_current_weather") in
  let e := match requested bad with Raise e => e | Ok _ => KeyError [] end in
  Forall (fun tool_call => exists tool_name arguments,
              requested tool_call = Ok (tool_name, arguments) /\
              printable strict_handler
                (calling_line ascii_isprintable lexeme_text tool_name arguments) = true)
         [weather_call] /\
  requested bad = Raise e /\
  exists evs st',
    demo_for_each_tool_call ([weather_call] ++ bad :: [forecast_call]) st = (Raise e, st') /\
    (exists msg, e = AttributeError msg) /\
    journal Script st' = journal Script st ++ evs /\
    Forall2 answers [weather_call] evs /\
    history Script st' = history Script st ++ flat_map demo_event_turns evs /\
    length (flat_map demo_event_turns evs) = 1%nat.
Proof.
  intros st bad e.
  assert (H : Forall (fun tool_call => exists tool_name arguments,
                          requested tool_call = Ok (tool_name, arguments) /\
                          printable strict_handler
                            (calling_line ascii_isprintable lexeme_text tool_name arguments) =
                            true)
                     [weather_call]).
  { repeat constructor; eexists _, _; split; [reflexivity | vm_compute; reflexivity]. }
  split; [exact H|]. split; [reflexivity|].
  apply (malformed_request_stops_the_batch
           ascii_isprintable lexeme_text lexeme_text demo_headroom
           strict_handler utf8_strict_error Script scripted_call_tool
           [weather_call] bad [forecast_call] e st H eq_refl).
  intros evs J. vm_compute in J. rewrite <- J.
  apply lines_printable_test. vm_compute. reflexivity.
Defined.

(** What follows [quit] is not read, and the blank line before it is
    skipped. *)
Lemma main_skips_blank_lines_and_stops_at_exit_witness :
  let lines := [lit "   "; lit "weather in Paris?"; lit " QUIT "; lit "and in Rome?"] in
  is_blank (lit " QUIT ") = false /\
  is_exit_command ascii_lower (strip (lit " QUIT ")) = true /\
  demo_main_loop lines direct_state =
    demo_main_loop [lit "weather in Paris?"; lit " QUIT "; lit "and in Rome?"] direct_state /\
  demo_main_loop lines direct_state =
    demo_main_loop [lit "   "; lit "weather in Paris?"; lit " QUIT "] direct_state.
Proof.
  intros lines.
  destruct (main_skips_blank_lines_and_stops_at_exit
              ascii_isprintable lexeme_text lexeme_text lexeme_truth expecting_value
              ascii_lower demo_headroom strict_handler utf8_strict_error
              Script scripted_post scripted_call_tool lines direct_state)
    as (F & X).
  split; [reflexivity|]. split; [reflexivity|]. split; [exact F|].
  exact (X [lit "   "; lit "weather in Paris?"] (lit " QUIT ") [lit "and in Rome?"]
           eq_refl eq_refl eq_refl).
Defined.

(** A request for a tool the server has not. *)
Lemma unknown_tool_is_reported_as_error_mapping_witness :
  let name := lit "get_forecast" in
  let report := VDict [(lit "error", VStr (lit "Unknown tool: get_forecast"))] in
  let answer :=
    Returned {| result_content := demo_server_call_tool failing_weather_service name [];
                isError := false |} in
  str_eqb name (lit "get_current_weather") = false /\
  plain_text name = true /\
  (exists text,
      demo_server_call_tool failing_weather_service name [] = [TextContent text] /\
      json_loads demo_headroom text = Parsed report) /\
  call_tool ascii_isprintable lexeme_text demo_headroom unit (constant_provider answer)
    connected (VStr name) (VDict []) tt = (Ok report, tt).
Proof.
  intros name report answer.
  destruct (unknown_tool_is_reported_as_error_mapping
              ascii_isprintable lexeme_text lexeme_text lexeme_truth demo_headroom
              unit (constant_provider answer) required_city_message
              failing_weather_service name [] eq_refl eq_refl)
    as (text & S & J & C).
  split; [reflexivity|]. split; [reflexivity|].
  split; [exists text; split; [exact S | exact J]|].
  assert (N : session connected <> None) by discriminate.
  exact (proj1 (C connected (VStr name) (VDict []) tt tt false N eq_refl)).
Defined.

(** Arguments without a city are turned down by the validation; an empty
    city passes it and is answered by the handler, without asking the
    service. *)
Lemma missing_city_is_reported_without_calling_the_service_witness :
  let no_city := [(lit "country", VStr (lit "FR"))] in
  let empty_city := [(lit "city", VStr []); (lit "country", VStr (lit "FR"))] in
  validates (Tool_inputSchema get_weather_tool) no_city = false /\
  demo_handle_call_tool failing_weather_service (lit "get_current_weather") no_city =
    {| result_content :=
         [TextContent (lit "Input validation error: 'city' is a required property")];
       isError := true |} /\
  validates (Tool_inputSchema get_weather_tool) empty_city = true /\
  dict_get empty_city (lit "city") = Some (VStr []) /\
  (exists text,
      demo_handle_call_tool failing_weather_service (lit "get_current_weather") empty_city =
        {| result_content := [TextContent text]; isError := false |} /\
      json_loads demo_headroom text =
        Parsed (VDict [(lit "error", VStr (lit "Missing required parameter: city"))])) /\
  demo_handle_call_tool failing_weather_service (lit "get_current_weather") empty_city =
    demo_handle_call_tool (fun _ _ => WeatherData (lit "{}")) (lit "get_current_weather")
      empty_city.
Proof.
  intros no_city empty_city.
  assert (V1 : validates (Tool_inputSchema get_weather_tool) no_city = false)
    by (vm_compute; reflexivity).
  assert (V2 : validates (Tool_inputSchema get_weather_tool) empty_city = true)
    by (vm_compute; reflexivity).
  destruct (missing_city_is_reported_without_calling_the_service
              ascii_isprintable lexeme_text lexeme_truth demo_headroom required_city_message
              failing_weather_service (fun _ _ => WeatherData (lit "{}")) no_city)
    as (_ & R1 & _).
  destruct (missing_city_is_reported_without_calling_the_service
              ascii_isprintable lexeme_text lexeme_truth demo_headroom required_city_message
              failing_weather_service (fun _ _ => WeatherData (lit "{}")) empty_city)
    as (_ & _ & R2 & R3).
  split; [exact V1|]. split; [exact (R1 V1)|]. split; [exact V2|]. split; [reflexivity|].
  split; [exact (R2 V2 eq_refl)|].
  apply R3. intros c rest E. discriminate E.
Defined.

(** The tool of the weather server, as a provider lists it. *)
Lemma listed_tools_convert_witness :
  let weather_tool :=
    {| Tool_name := VStr (lit "get_current_weather");
       Tool_description := VStr (lit "Get the current weather for a specified city.");
       Tool_inputSchema :=
         VDict [(lit "type", VStr (lit "object"));
                (lit "required", VList [VStr (lit "city")])] |} in
  let provider := fun w : unit => (Listed [weather_tool], w) in
  list_tools unit provider connected tt = (Ok [tool_dict weather_tool], tt) /\
  exists listed_tools ollama_tools,
    fst (provider tt) = Listed listed_tools /\
    convert_mcp_tools_to_ollama_format [tool_dict weather_tool] = Ok ollama_tools /\
    Forall2 (fun t ollama_tool =>
               ollama_tool =
                 VDict [(lit "type", VStr (lit "function"));
                        (lit "function",
                         VDict [(lit "name", Tool_name t);
                                (lit "description", Tool_description t);
                                (lit "parameters", Tool_inputSchema t)])])
            listed_tools ollama_tools.
Proof.
  intros weather_tool provider.
  split; [reflexivity|].
  exact (listed_tools_convert unit provider connected tt tt [tool_dict weather_tool] eq_refl).
Defined.

(** A complete body of the weather API. *)
Lemma weather_data_iff_complete_body_witness :
  let settings :=
    {| openweathermap_api_key := lit "key";
       openweathermap_base_url := lit "https://api.openweathermap.org/data/2.5";
       request_timeout := 10 |} in
  let body :=
    json_text "{'name': 'Paris', 'sys': {'country': 'FR'}, 'main': {'temp': 21.5, 'feels_like': 21.0, 'humidity': 40, 'pressure': 1015}, 'weather': [{'description': 'clear sky'}], 'wind': {'speed': 3.6}, 'clouds': {'all': 0}}" in
  let validate := fun fields =>
    match fields with
    | weather_fields (VStr city) (VStr country) _ _ (VInt _) (VInt _) (VStr _) _ (VInt _) =>
        Some (json_text "{'city': '" ++ city ++ json_text "', 'country': '" ++ country ++
              json_text "'}")
    | _ => None
    end in
  let api := fun (w : unit) (url : str) (params : dict) =>
    if str_eqb url (lit "https://api.openweathermap.org/data/2.5/weather")
    then (Response 200 body, w) else (Response 404 [], w) in
  let dumped := json_text "{'city': 'Paris', 'country': 'FR'}" in
  get_current_weather ascii_isprintable lexeme_text lexeme_truth demo_headroom unit validate
    (fun _ => []) api settings (VStr (lit "Paris")) (VStr (lit "FR")) tt =
    (WeatherData dumped, tt) /\
  exists status_code text d first others name_ country_ temperature feels_like
         humidity pressure description wind_speed clouds,
    api tt (openweathermap_base_url settings ++ lit "/weather")
      [(lit "q", location_of ascii_isprintable lexeme_text lexeme_truth
                   (VStr (lit "Paris")) (VStr (lit "FR")));
       (lit "appid", VStr (openweathermap_api_key settings));
       (lit "units", VStr (lit "metric"))] = (Response status_code text, tt) /\
    is_success status_code = true /\
    json_loads demo_headroom text = Parsed (VDict d) /\
    dict_get d (lit "name") = Some name_ /\
    nested_member d (lit "sys") (lit "country") country_ /\
    nested_member d (lit "main") (lit "temp") temperature /\
    nested_member d (lit "main") (lit "feels_like") feels_like /\
    nested_member d (lit "main") (lit "humidity") humidity /\
    nested_member d (lit "main") (lit "pressure") pressure /\
    dict_get d (lit "weather") = Some (VList (VDict first :: others)) /\
    dict_get first (lit "description") = Some description /\
    nested_member d (lit "wind") (lit "speed") wind_speed /\
    nested_member d (lit "clouds") (lit "all") clouds /\
    validate
      (weather_fields name_ country_ temperature feels_like humidity pressure
                      description wind_speed clouds) = Some dumped.
Proof.
  intros settings body validate api dumped.
  assert (G : get_current_weather ascii_isprintable lexeme_text lexeme_truth demo_headroom
                unit validate
                (fun _ => []) api settings (VStr (lit "Paris")) (VStr (lit "FR")) tt =
              (WeatherData dumped, tt)) by (vm_compute; reflexivity).
  split; [exact G|].
  exact (proj1 (weather_data_iff_complete_body
                  ascii_isprintable lexeme_text lexeme_truth demo_headroom unit validate
                  (fun _ => []) api settings (VStr (lit "Paris")) (VStr (lit "FR"))
                  tt tt dumped) G).
Defined.
